(** * A shallow embedding of the New Relic SCIM client (package newrelicscim)

    The Go package is a thin client: every exported operation builds one
    HTTP request, hands it to [doRequest], decodes the reply into a success
    shape and, when the reply carries the SCIM error schema, decodes the same
    bytes a second time into an error shape.

    Layout of the development:
    - Go values: byte strings, slices (nil is kept apart from empty), errors;
    - encoding/json as the client uses it: a document tree, [json_Marshal]
      and field-by-field decoding into structs;
    - the wire structs of user.go and of the group file, with their
      [fill_defaults];
    - the surroundings the client runs in ([World]): URL parsing, the HTTP
      exchange, the JSON scanner;
    - the client: [NewClient], [doRequest] and the sixteen operations;
    - theorems.

    The group file exists in two copies that differ in comments, in two
    diagnostic prints and in the element type of a member list; the copy with
    the untyped member list and the two prints is the one embedded. *)

From Stdlib Require Import ZArith NArith Ascii String List Bool Lia.
From stdpp Require Import base option list strings pretty gmap.

#[local] Set Warnings "-register-all".

Local Open Scope string_scope.
Local Open Scope list_scope.
Local Open Scope Z_scope.

(** ** Go values *)

(** A Go string and a [[]byte] are both byte sequences. *)
Definition bytes := string.

(** The double quote, for building texts that contain it. *)
Definition dq : string := String (ascii_of_nat 34) EmptyString.

(** [sq_to_dq s] is [s] with every apostrophe turned into a double quote; it
    lets JSON texts be written down legibly. *)
Fixpoint sq_to_dq (s : string) : string :=
  match s with
  | EmptyString => EmptyString
  | String c r =>
      String (if Ascii.eqb c (ascii_of_nat 39) then ascii_of_nat 34 else c) (sq_to_dq r)
  end.

(** A slice: [None] is the nil slice, [Some l] a slice with elements [l]. *)
Definition slice (A : Type) : Type := option (list A).

Definition elems {A} (s : slice A) : list A := default [] s.

Definition len {A} (s : slice A) : nat := length (elems s).

(** Go errors.  The constructors are the dynamic types met by the client. *)
Inductive error : Type :=
| errorString (msg : string)                         (* errors.New, fmt.Errorf *)
| url_Error (op url msg : string)                    (* net/url *)
| net_Error (msg : string)                           (* HTTP client, body read *)
| json_SyntaxError (msg : string)
| json_UnmarshalTypeError (value gotype : string)
| time_ParseError (value : string).

Definition Error (e : error) : string :=
  match e with
  | errorString msg => msg
  | url_Error op url msg => op +:+ " " +:+ dq +:+ url +:+ dq +:+ ": " +:+ msg
  | net_Error msg => msg
  | json_SyntaxError msg => msg
  | json_UnmarshalTypeError value gotype =>
      "json: cannot unmarshal " +:+ value +:+ " into Go value of type " +:+ gotype
  | time_ParseError value => "parsing time " +:+ value
  end.

(** The outcome of running Go code that may panic. *)
Inductive Exec (A : Type) : Type :=
| Done (a : A)
| Panic (msg : string).
Arguments Done {A} a.
Arguments Panic {A} msg.

Definition index_out_of_range : string := "runtime error: index out of range [0] with length 0".

Definition nil_pointer_dereference : string :=
  "runtime error: invalid memory address or nil pointer dereference".

(** ** encoding/json *)

(** A JSON document.  Numbers keep their literal text; object members keep
    their order and their duplicates. *)
Inductive json : Type :=
| JNull
| JBool (b : bool)
| JNumber (lit : string)
| JString (s : string)
| JArray (items : list json)
| JObject (members : list (string * json)).

Definition hex_digit (n : N) : ascii :=
  match n with
  | 0%N => "0" | 1%N => "1" | 2%N => "2" | 3%N => "3" | 4%N => "4"
  | 5%N => "5" | 6%N => "6" | 7%N => "7" | 8%N => "8" | 9%N => "9"
  | 10%N => "a" | 11%N => "b" | 12%N => "c" | 13%N => "d" | 14%N => "e"
  | _ => "f"
  end%char.

Definition backslash : ascii := ascii_of_nat 92.

(** One byte below 0x80 as [json.Marshal] writes it inside a string: the
    quote and the backslash are escaped, newline, carriage return and tab
    have short forms, the other control bytes and the HTML-sensitive bytes
    less-than, greater-than and ampersand become [\u00XX]. *)
Definition escape_byte (c : ascii) : string :=
  let n := N_of_ascii c in
  if (n =? 34)%N then String backslash dq
  else if (n =? 92)%N then String backslash (String backslash EmptyString)
  else if (n =? 10)%N then String backslash "n"
  else if (n =? 13)%N then String backslash "r"
  else if (n =? 9)%N then String backslash "t"
  else if ((n <? 32) || (n =? 60) || (n =? 62) || (n =? 38))%N then
    String backslash ("u00" +:+ String (hex_digit (n / 16)) (String (hex_digit (n mod 16)) EmptyString))
  else String c EmptyString.

(** The body of a JSON string.  U+2028 and U+2029 (E2 80 A8, E2 80 A9) are
    escaped as the encoder does; other bytes from 0x80 up are copied, which
    is what the encoder does on well-formed UTF-8 (ill-formed sequences,
    which it replaces by U+FFFD, are outside this model). *)
Fixpoint escape_string (s : string) : string :=
  match s with
  | EmptyString => EmptyString
  | String a r =>
      match r with
      | String b (String c r') =>
          if ((N_of_ascii a =? 226) && (N_of_ascii b =? 128)
              && ((N_of_ascii c =? 168) || (N_of_ascii c =? 169)))%N
          then String backslash ("u202" +:+ String (hex_digit (N_of_ascii c - 160)) EmptyString)
                 +:+ escape_string r'
          else escape_byte a +:+ escape_string r
      | _ => escape_byte a +:+ escape_string r
      end
  end.

Definition quote (s : string) : string := dq +:+ escape_string s +:+ dq.

Definition join_comma (l : list string) : string := String.concat "," l.

(** The compact text [json.Marshal] produces for a document. *)
Fixpoint json_Marshal (j : json) : bytes :=
  match j with
  | JNull => "null"
  | JBool true => "true"
  | JBool false => "false"
  | JNumber lit => lit
  | JString s => quote s
  | JArray items => "[" +:+ join_comma (map json_Marshal items) +:+ "]"
  | JObject members =>
      "{" +:+ join_comma (map (fun kv => quote (fst kv) +:+ ":" +:+ json_Marshal (snd kv)) members) +:+ "}"
  end.

(** How a slice is encoded: nil as [null], anything else as an array. *)
Definition enc_slice {A} (enc : A -> json) (s : slice A) : json :=
  match s with
  | None => JNull
  | Some l => JArray (map enc l)
  end.

(** *** Decoding

    [json.Unmarshal] first checks the whole text, then walks the document
    and stores into the target value.  Two kinds of failure exist.  A value of
    the wrong JSON kind for its target is skipped and remembered: decoding goes
    on and the first such error is returned at the end ([dsaved]).  An error
    from a type's own [UnmarshalJSON] stops the walk at once ([dabort]).  In
    both cases the target keeps what was stored so far. *)
Record dres (T : Type) : Type := mkD {
  dval : T;
  dsaved : option error;
  dabort : option error
}.
Arguments mkD {T} dval dsaved dabort.
Arguments dval {T} d.
Arguments dsaved {T} d.
Arguments dabort {T} d.

(** A decoder stores a document into a value of type [T] that already holds
    something (the zero value, or what an earlier duplicate key left). *)
Definition decoder (T : Type) : Type := json -> T -> dres T.

Definition stored {T} (v : T) : dres T := mkD v None None.

Definition kind_of (j : json) : string :=
  match j with
  | JNull => "null"
  | JBool _ => "bool"
  | JNumber _ => "number"
  | JString _ => "string"
  | JArray _ => "array"
  | JObject _ => "object"
  end.

Definition mismatch {T} (v : T) (value gotype : string) : dres T :=
  mkD v (Some (json_UnmarshalTypeError value gotype)) None.

Definition first_error (a b : option error) : option error :=
  match a with
  | Some _ => a
  | None => b
  end.

(** The error [Unmarshal] reports at the end of a walk. *)
Definition final_error {T} (r : dres T) : option error :=
  match dabort r with
  | Some e => Some e
  | None => dsaved r
  end.

Definition dec_string : decoder string := fun j v =>
  match j with
  | JString s => stored s
  | JNull => stored v
  | _ => mismatch v (kind_of j) "string"
  end.

Definition dec_bool : decoder bool := fun j v =>
  match j with
  | JBool b => stored b
  | JNull => stored v
  | _ => mismatch v (kind_of j) "bool"
  end.

Definition is_digit (c : ascii) : bool :=
  let n := N_of_ascii c in ((48 <=? n) && (n <=? 57))%N.

Fixpoint digits_value (s : string) (acc : Z) : option Z :=
  match s with
  | EmptyString => Some acc
  | String c r =>
      if is_digit c then digits_value r (acc * 10 + (Z.of_N (N_of_ascii c) - 48)) else None
  end.

(** [strconv.ParseInt(lit, 10, 64)] on a JSON number literal. *)
Definition parse_int64 (lit : string) : option Z :=
  let v :=
    match lit with
    | EmptyString => None
    | String c r =>
        if Ascii.eqb c "-" then
          match r with
          | EmptyString => None
          | _ => Z.opp <$> digits_value r 0
          end
        else digits_value lit 0
    end in
  match v with
  | Some z => if ((- 2 ^ 63 <=? z) && (z <? 2 ^ 63))%Z then Some z else None
  | None => None
  end.

(** Go's [int] on a 64-bit platform. *)
Definition dec_int : decoder Z := fun j v =>
  match j with
  | JNumber lit =>
      match parse_int64 lit with
      | Some z => stored z
      | None => mismatch v ("number " +:+ lit) "int"
      end
  | JNull => stored v
  | _ => mismatch v (kind_of j) "int"
  end.

(** The elements of an array stored into a slice.  Element [i] is decoded
    over the old element [i] when the slice already had one, over the zero
    value otherwise; the slice ends where the array ends.  When an element
    stops the walk the old tail is still in place. *)
Fixpoint dec_elems {A} (dec : decoder A) (zero : A) (items : list json) (old : list A)
  : dres (list A) :=
  match items with
  | [] => stored []
  | j :: items' =>
      let r := dec j (hd zero old) in
      match dabort r with
      | Some e => mkD (dval r :: tl old) (dsaved r) (Some e)
      | None =>
          let rs := dec_elems dec zero items' (tl old) in
          mkD (dval r :: dval rs) (first_error (dsaved r) (dsaved rs)) (dabort rs)
      end
  end.

(** A slice target: [null] makes it nil, an array fills it. *)
Definition dec_slice {A} (dec : decoder A) (zero : A) (gotype : string) : decoder (slice A) :=
  fun j v =>
    match j with
    | JNull => stored None
    | JArray items =>
        let r := dec_elems dec zero items (elems v) in
        mkD (Some (dval r)) (dsaved r) (dabort r)
    | _ => mismatch v (kind_of j) gotype
    end.

(** A struct field as the decoder sees it: the key of its tag, and how to
    read, decode and write back the field. *)
Record field (T : Type) : Type := Field {
  fname : string;
  ftype : Type;
  fget : T -> ftype;
  fput : T -> ftype -> T;
  fdec : decoder ftype
}.
Arguments Field {T} fname {ftype} fget fput fdec.
Arguments fname {T} f.
Arguments ftype {T} f.
Arguments fget {T} f.
Arguments fput {T} f.
Arguments fdec {T} f.

Definition run_field {T} (f : field T) : decoder T := fun j v =>
  let r := fdec f j (fget f v) in
  mkD (fput f v (dval r)) (dsaved r) (dabort r).

Definition lower (c : ascii) : ascii :=
  let n := N_of_ascii c in
  if ((65 <=? n) && (n <=? 90))%N then ascii_of_N (n + 32) else c.

Fixpoint lower_string (s : string) : string :=
  match s with
  | EmptyString => EmptyString
  | String c r => String (lower c) (lower_string r)
  end.

(** Key matching without regard to case, on ASCII letters (the two
    non-ASCII characters that Unicode folds onto k and s are not modelled). *)
Definition equalFold (a b : string) : bool :=
  String.eqb (lower_string a) (lower_string b).

(** The field a key goes to: the one whose tag is exactly the key, else the
    first one whose tag matches it without regard to case. *)
Definition find_field {T} (fs : list (field T)) (key : string) : option (field T) :=
  match find (fun f => String.eqb (fname f) key) fs with
  | Some f => Some f
  | None => find (fun f => equalFold (fname f) key) fs
  end.

(** The members of an object stored one after the other, in the order of
    the text; keys without a field are skipped. *)
Fixpoint dec_members {T} (fs : list (field T)) (ms : list (string * json)) (v : T) : dres T :=
  match ms with
  | [] => stored v
  | (k, j) :: ms' =>
      match find_field fs k with
      | None => dec_members fs ms' v
      | Some f =>
          let r := run_field f j v in
          match dabort r with
          | Some e => r
          | None =>
              let r' := dec_members fs ms' (dval r) in
              mkD (dval r') (first_error (dsaved r) (dsaved r')) (dabort r')
          end
      end
  end.

Definition dec_struct {T} (fs : list (field T)) (gotype : string) : decoder T := fun j v =>
  match j with
  | JNull => stored v
  | JObject ms => dec_members fs ms v
  | _ => mismatch v (kind_of j) gotype
  end.

(** ** net/url and net/http values *)

(** The parts of a [url.URL] the client touches or passes on. *)
Record URL : Type := mkURL {
  Scheme : string;
  Host : string;
  Path : string;
  RawQuery : string;
  Fragment : string
}.

Definition set_RawQuery (u : URL) (q : string) : URL :=
  mkURL (Scheme u) (Host u) (Path u) q (Fragment u).

(** [url.Values] and [http.Header] are both maps from a key to the list of
    its values. *)
Abbreviation Values := (gmap string (list string)).
Abbreviation Header := (gmap string (list string)).

(** [Values.Add]: append a value to the list under the key. *)
Definition Values_Add (v : Values) (key value : string) : Values :=
  <[key := default [] (v !! key) ++ [value]]> v.

(** The bytes a header name or a method may be made of (RFC 7230 token). *)
Definition is_token_byte (c : ascii) : bool :=
  let n := N_of_ascii c in
  ((48 <=? n) && (n <=? 57) || (65 <=? n) && (n <=? 90) || (97 <=? n) && (n <=? 122)
   || (n =? 33) || (35 <=? n) && (n <=? 39) || (n =? 42) || (n =? 43) || (n =? 45)
   || (n =? 46) || (94 <=? n) && (n <=? 96) || (n =? 124) || (n =? 126))%N.

Fixpoint all_bytes (p : ascii -> bool) (s : string) : bool :=
  match s with
  | EmptyString => true
  | String c r => p c && all_bytes p r
  end.

Fixpoint canonical_from (upper : bool) (s : string) : string :=
  match s with
  | EmptyString => EmptyString
  | String c r =>
      let n := N_of_ascii c in
      let c' :=
        if upper && (97 <=? n)%N && (n <=? 122)%N then ascii_of_N (n - 32)
        else if negb upper && (65 <=? n)%N && (n <=? 90)%N then ascii_of_N (n + 32)
        else c in
      String c' (canonical_from (Ascii.eqb c "-") r)
  end.

(** [textproto.CanonicalMIMEHeaderKey]. *)
Definition CanonicalMIMEHeaderKey (s : string) : string :=
  if all_bytes is_token_byte s then canonical_from true s else s.

(** [Header.Set]. *)
Definition Header_Set (h : Header) (key value : string) : Header :=
  <[CanonicalMIMEHeaderKey key := [value]]> h.

(** An outgoing request. *)
Record Request : Type := mkRequest {
  Method : string;
  Url : URL;
  Headers : Header;
  ReqBody : option bytes
}.

(** A reply as [doRequest] looks at it: the status code and what reading the
    body to its end gives. *)
Record Response : Type := mkResponse {
  StatusCode : Z;
  Body : error + bytes
}.

(** [http.Client]: only the timeout is configured. *)
Record HttpClient_t : Type := mkHttpClient {
  Timeout : Z   (* nanoseconds *)
}.

Definition Second : Z := 1000000000.

(** A [context.Context]; the operations take one and never look at it. *)
Inductive Context : Type := Background.

(** A [time.Time], kept as the RFC 3339 text it was read from; the zero time
    is the empty text. *)
Definition Time : Type := string.

(** ** The surroundings

    What the client gets from the standard library and from the network and
    what this development does not fix: how a URL text is parsed and written
    back, how a query is read back and encoded, what the server answers, which texts are JSON
    and what they contain, which number literals fit a float64 and which texts
    are RFC 3339 timestamps.  Every theorem holds for every [World]. *)
Class World : Type := {
  url_Parse : string -> error + URL;
  URL_Query : URL -> Values;
  URL_String : URL -> string;
  Values_Encode : Values -> string;
  HttpClient_Do : HttpClient_t -> Request -> error + Response;
  json_scan : bytes -> error + json;
  float64_ok : string -> bool;
  rfc3339_ok : string -> bool
}.

(** [h.Do(req)] through a [*http.Client]: a method on a pointer receiver can
    be called on nil, and [Do] reads its receiver before anything is sent, so
    the call panics on a nil [h]. *)
Definition http_Client_Do `{World} (h : option HttpClient_t) (req : Request)
  : Exec (error + Response) :=
  match h with
  | None => Panic nil_pointer_dereference
  | Some h => Done (HttpClient_Do h req)
  end.

(** [json.Unmarshal(data, &v)] for a struct [v] with fields [fs]: the value
    left in [v] and the error returned. *)
Definition Unmarshal `{World} {T} (fs : list (field T)) (gotype : string)
    (data : bytes) (v : T) : T * option error :=
  match json_scan data with
  | inl e => (v, Some e)
  | inr j => let r := dec_struct fs gotype j v in (dval r, final_error r)
  end.

(** A document stored into an [interface{}]: itself, except that a number
    that does not fit a float64 is left out (nil) and reported.  The document
    stands for the maps, slices and scalars Go builds from it. *)
Fixpoint to_interface (ok : string -> bool) (j : json) : json :=
  match j with
  | JNumber lit => if ok lit then j else JNull
  | JArray items => JArray (map (to_interface ok) items)
  | JObject ms => JObject (map (fun kv => (fst kv, to_interface ok (snd kv))) ms)
  | _ => j
  end.

Fixpoint first_bad_number (ok : string -> bool) (j : json) : option string :=
  match j with
  | JNumber lit => if ok lit then None else Some lit
  | JArray items =>
      (fix go (l : list json) : option string :=
         match l with
         | [] => None
         | x :: r => match first_bad_number ok x with Some b => Some b | None => go r end
         end) items
  | JObject ms =>
      (fix go (l : list (string * json)) : option string :=
         match l with
         | [] => None
         | x :: r => match first_bad_number ok (snd x) with Some b => Some b | None => go r end
         end) ms
  | _ => None
  end.

Definition dec_any `{World} : decoder json := fun j v =>
  mkD (to_interface float64_ok j)
      ((fun lit => json_UnmarshalTypeError ("number " +:+ lit) "float64") <$> first_bad_number float64_ok j)
      None.

(** [Time.UnmarshalJSON]: [null] changes nothing, a string must be an
    RFC 3339 timestamp, anything else is refused; a refusal stops the walk. *)
Definition dec_time `{World} : decoder Time := fun j v =>
  match j with
  | JNull => stored v
  | JString s => if rfc3339_ok s then stored s else mkD v None (Some (time_ParseError s))
  | _ => mkD v None (Some (errorString "Time.UnmarshalJSON: input is not a JSON string"))
  end.

(** ** The wire structs

    Each struct has its own module: the record [t], its zero value, its JSON
    encoding (for structs that are sent) or its field table (for structs that
    are received), and its [fill_defaults] where the source has one.  Go
    identifies anonymous struct types with the same fields and tags, so the
    nested structs that recur are declared once. *)

(** The schema identifiers and defaults of the source. *)
Definition UserSchema : string := "urn:ietf:params:scim:schemas:core:2.0:User".
Definition NewRelicUserSchema : string := "urn:ietf:params:scim:schemas:extension:newrelic:2.0:User".
Definition GroupSchema : string := "urn:ietf:params:scim:schemas:core:2.0:Group".
Definition PatchOpSchema : string := "urn:ietf:params:scim:api:messages:2.0:PatchOp".
Definition ErrorSchema : string := "urn:ietf:params:scim:api:messages:2.0:Error".
Definition DefaultTimezone : string := "Europe/Istanbul".

(** The JSON key of the single attribute of [UserTypeBody]. *)
Definition UserTypeKey : string := "urn:ietf:params:scim:schemas:extension:newrelic:2.1:User".

Definition dec_schemas : decoder (slice string) := dec_slice dec_string EmptyString "[]string".

(** [struct { FamilyName; GivenName }], tags familyName, givenName. *)
Module Name.
Record t : Type := mk { FamilyName : string; GivenName : string }.
Definition zero : t := mk EmptyString EmptyString.
Definition to_json (n : t) : json :=
  JObject [("familyName", JString (FamilyName n)); ("givenName", JString (GivenName n))].
Definition fields : list (field t) :=
  [ Field "familyName" FamilyName (fun v x => mk x (GivenName v)) dec_string;
    Field "givenName" GivenName (fun v x => mk (FamilyName v) x) dec_string ].
Definition dec : decoder t := dec_struct fields "struct".
End Name.

(** The e-mail entry of an outgoing [User]: primary first. *)
Module UserEmail.
Record t : Type := mk { Primary : bool; Value : string }.
Definition to_json (e : t) : json :=
  JObject [("primary", JBool (Primary e)); ("value", JString (Value e))].
End UserEmail.

(** The e-mail entry of the responses: value first. *)
Module Email.
Record t : Type := mk { Value : string; Primary : bool }.
Definition zero : t := mk EmptyString false.
Definition fields : list (field t) :=
  [ Field "value" Value (fun v x => mk x (Primary v)) dec_string;
    Field "primary" Primary (fun v x => mk (Value v) x) dec_bool ].
Definition dec : decoder t := dec_struct fields "struct".
End Email.

Module Meta.
Record t : Type := mk { ResourceType : string; Created : Time; LastModified : Time }.
Definition zero : t := mk EmptyString EmptyString EmptyString.
Definition fields `{World} : list (field t) :=
  [ Field "resourceType" ResourceType (fun v x => mk x (Created v) (LastModified v)) dec_string;
    Field "created" Created (fun v x => mk (ResourceType v) x (LastModified v)) dec_time;
    Field "lastModified" LastModified (fun v x => mk (ResourceType v) (Created v) x) dec_time ].
Definition dec `{World} : decoder t := dec_struct fields "struct".
End Meta.

Module User.
Record t : Type := mk {
  Schemas : slice string;
  UserName : string;
  Name : Name.t;
  Emails : slice UserEmail.t;
  Active : bool;
  Timezone : string
}.

Definition set_Schemas (u : t) (x : slice string) : t :=
  mk x (UserName u) (Name u) (Emails u) (Active u) (Timezone u).
Definition set_Timezone (u : t) (x : string) : t :=
  mk (Schemas u) (UserName u) (Name u) (Emails u) (Active u) x.

(** The receiver is a pointer in the source; here the updated struct is
    returned. *)
Definition fill_defaults (u : t) : t :=
  let u := if (len (Schemas u) =? 0)%nat then set_Schemas u (Some [UserSchema]) else u in
  let u := if String.eqb (Timezone u) EmptyString then set_Timezone u DefaultTimezone else u in
  u.

Definition to_json (u : t) : json :=
  JObject [ ("schemas", enc_slice JString (Schemas u));
            ("userName", JString (UserName u));
            ("name", Name.to_json (Name u));
            ("emails", enc_slice UserEmail.to_json (Emails u));
            ("active", JBool (Active u));
            ("timezone", JString (Timezone u)) ].
End User.

Module UserResponse.
Record t : Type := mk {
  Schemas : slice string;
  ID : string;
  ExternalID : string;
  UserName : string;
  Name : Name.t;
  Emails : slice Email.t;
  Timezone : string;
  Active : bool;
  Meta : Meta.t;
  Groups : slice json
}.
Definition zero : t :=
  mk None EmptyString EmptyString EmptyString Name.zero None EmptyString false Meta.zero None.

Definition fields `{World} : list (field t) :=
  [ Field "schemas" Schemas
      (fun v x => mk x (ID v) (ExternalID v) (UserName v) (Name v) (Emails v) (Timezone v) (Active v) (Meta v) (Groups v))
      dec_schemas;
    Field "id" ID
      (fun v x => mk (Schemas v) x (ExternalID v) (UserName v) (Name v) (Emails v) (Timezone v) (Active v) (Meta v) (Groups v))
      dec_string;
    Field "externalId" ExternalID
      (fun v x => mk (Schemas v) (ID v) x (UserName v) (Name v) (Emails v) (Timezone v) (Active v) (Meta v) (Groups v))
      dec_string;
    Field "userName" UserName
      (fun v x => mk (Schemas v) (ID v) (ExternalID v) x (Name v) (Emails v) (Timezone v) (Active v) (Meta v) (Groups v))
      dec_string;
    Field "name" Name
      (fun v x => mk (Schemas v) (ID v) (ExternalID v) (UserName v) x (Emails v) (Timezone v) (Active v) (Meta v) (Groups v))
      Name.dec;
    Field "emails" Emails
      (fun v x => mk (Schemas v) (ID v) (ExternalID v) (UserName v) (Name v) x (Timezone v) (Active v) (Meta v) (Groups v))
      (dec_slice Email.dec Email.zero "[]struct");
    Field "timezone" Timezone
      (fun v x => mk (Schemas v) (ID v) (ExternalID v) (UserName v) (Name v) (Emails v) x (Active v) (Meta v) (Groups v))
      dec_string;
    Field "active" Active
      (fun v x => mk (Schemas v) (ID v) (ExternalID v) (UserName v) (Name v) (Emails v) (Timezone v) x (Meta v) (Groups v))
      dec_bool;
    Field "meta" Meta
      (fun v x => mk (Schemas v) (ID v) (ExternalID v) (UserName v) (Name v) (Emails v) (Timezone v) (Active v) x (Groups v))
      Meta.dec;
    Field "groups" Groups
      (fun v x => mk (Schemas v) (ID v) (ExternalID v) (UserName v) (Name v) (Emails v) (Timezone v) (Active v) (Meta v) x)
      (dec_slice dec_any JNull "[]interface {}") ].
End UserResponse.

Module UserErrorResponse.
Record t : Type := mk {
  Schemas : slice string;
  ScimType : string;
  Detail : string;
  Status : string
}.
Definition zero : t := mk None EmptyString EmptyString EmptyString.

Definition fields : list (field t) :=
  [ Field "schemas" Schemas (fun v x => mk x (ScimType v) (Detail v) (Status v)) dec_schemas;
    Field "scimType" ScimType (fun v x => mk (Schemas v) x (Detail v) (Status v)) dec_string;
    Field "detail" Detail (fun v x => mk (Schemas v) (ScimType v) x (Status v)) dec_string;
    Field "status" Status (fun v x => mk (Schemas v) (ScimType v) (Detail v) x) dec_string ].
End UserErrorResponse.

(** A typed group reference in the entries of [UsersResponse]. *)
Module GroupRef.
Record t : Type := mk { Type_ : string; Value : string }.
Definition zero : t := mk EmptyString EmptyString.
Definition fields : list (field t) :=
  [ Field "type" Type_ (fun v x => mk x (Value v)) dec_string;
    Field "value" Value (fun v x => mk (Type_ v) x) dec_string ].
Definition dec : decoder t := dec_struct fields "struct".
End GroupRef.

(** An entry of [UsersResponse.Resources]. *)
Module UserResource.
Record t : Type := mk {
  Schemas : slice string;
  ID : string;
  ExternalID : json;
  UserName : string;
  Name : Name.t;
  Emails : slice Email.t;
  Timezone : string;
  Active : bool;
  Meta : Meta.t;
  Groups : slice GroupRef.t
}.
Definition zero : t :=
  mk None EmptyString JNull EmptyString Name.zero None EmptyString false Meta.zero None.

Definition fields `{World} : list (field t) :=
  [ Field "schemas" Schemas
      (fun v x => mk x (ID v) (ExternalID v) (UserName v) (Name v) (Emails v) (Timezone v) (Active v) (Meta v) (Groups v))
      dec_schemas;
    Field "id" ID
      (fun v x => mk (Schemas v) x (ExternalID v) (UserName v) (Name v) (Emails v) (Timezone v) (Active v) (Meta v) (Groups v))
      dec_string;
    Field "externalId" ExternalID
      (fun v x => mk (Schemas v) (ID v) x (UserName v) (Name v) (Emails v) (Timezone v) (Active v) (Meta v) (Groups v))
      dec_any;
    Field "userName" UserName
      (fun v x => mk (Schemas v) (ID v) (ExternalID v) x (Name v) (Emails v) (Timezone v) (Active v) (Meta v) (Groups v))
      dec_string;
    Field "name" Name
      (fun v x => mk (Schemas v) (ID v) (ExternalID v) (UserName v) x (Emails v) (Timezone v) (Active v) (Meta v) (Groups v))
      Name.dec;
    Field "emails" Emails
      (fun v x => mk (Schemas v) (ID v) (ExternalID v) (UserName v) (Name v) x (Timezone v) (Active v) (Meta v) (Groups v))
      (dec_slice Email.dec Email.zero "[]struct");
    Field "timezone" Timezone
      (fun v x => mk (Schemas v) (ID v) (ExternalID v) (UserName v) (Name v) (Emails v) x (Active v) (Meta v) (Groups v))
      dec_string;
    Field "active" Active
      (fun v x => mk (Schemas v) (ID v) (ExternalID v) (UserName v) (Name v) (Emails v) (Timezone v) x (Meta v) (Groups v))
      dec_bool;
    Field "meta" Meta
      (fun v x => mk (Schemas v) (ID v) (ExternalID v) (UserName v) (Name v) (Emails v) (Timezone v) (Active v) x (Groups v))
      Meta.dec;
    Field "groups" Groups
      (fun v x => mk (Schemas v) (ID v) (ExternalID v) (UserName v) (Name v) (Emails v) (Timezone v) (Active v) (Meta v) x)
      (dec_slice GroupRef.dec GroupRef.zero "[]struct") ].
Definition dec `{World} : decoder t := dec_struct fields "struct".
End UserResource.

Module UsersResponse.
Record t : Type := mk {
  TotalResults : Z;
  Schemas : slice string;
  Resources : slice UserResource.t
}.
Definition zero : t := mk 0 None None.

Definition fields `{World} : list (field t) :=
  [ Field "totalResults" TotalResults (fun v x => mk x (Schemas v) (Resources v)) dec_int;
    Field "schemas" Schemas (fun v x => mk (TotalResults v) x (Resources v)) dec_schemas;
    Field "Resources" Resources (fun v x => mk (TotalResults v) (Schemas v) x)
      (dec_slice UserResource.dec UserResource.zero "[]struct") ].
End UsersResponse.

Module UserTypeBody.
(** The anonymous struct holding [NrUserType]. *)
Record ext : Type := mkExt { NrUserType : string }.

Record t : Type := mk {
  Schemas : slice string;
  UrnIetfParamsScimSchemasExtensionNewrelic21User : ext
}.

Definition fill_defaults (u : t) : t :=
  if (len (Schemas u) =? 0)%nat
  then mk (Some [UserSchema; NewRelicUserSchema]) (UrnIetfParamsScimSchemasExtensionNewrelic21User u)
  else u.

Definition to_json (u : t) : json :=
  JObject [ ("schemas", enc_slice JString (Schemas u));
            (UserTypeKey,
             JObject [("nrUserType", JString (NrUserType (UrnIetfParamsScimSchemasExtensionNewrelic21User u)))]) ].
End UserTypeBody.

Module Group.
Record t : Type := mk {
  Schemas : slice string;
  DisplayName : string
}.

Definition fill_defaults (g : t) : t :=
  if (len (Schemas g) =? 0)%nat then mk (Some [GroupSchema]) (DisplayName g) else g.

Definition to_json (g : t) : json :=
  JObject [ ("schemas", enc_slice JString (Schemas g));
            ("displayName", JString (DisplayName g)) ].
End Group.

Module GroupResponse.
Record t : Type := mk {
  Schemas : slice string;
  ID : string;
  DisplayName : string;
  Meta : Meta.t;
  Members : slice json
}.
Definition zero : t := mk None EmptyString EmptyString Meta.zero None.

Definition fields `{World} : list (field t) :=
  [ Field "schemas" Schemas (fun v x => mk x (ID v) (DisplayName v) (Meta v) (Members v)) dec_schemas;
    Field "id" ID (fun v x => mk (Schemas v) x (DisplayName v) (Meta v) (Members v)) dec_string;
    Field "displayName" DisplayName (fun v x => mk (Schemas v) (ID v) x (Meta v) (Members v)) dec_string;
    Field "meta" Meta (fun v x => mk (Schemas v) (ID v) (DisplayName v) x (Members v)) Meta.dec;
    Field "members" Members (fun v x => mk (Schemas v) (ID v) (DisplayName v) (Meta v) x)
      (dec_slice dec_any JNull "[]interface {}") ].
End GroupResponse.

Module GroupErrorResponse.
Record t : Type := mk {
  Schemas : slice string;
  ScimType : string;
  Detail : string;
  Status : string
}.
Definition zero : t := mk None EmptyString EmptyString EmptyString.

Definition fields : list (field t) :=
  [ Field "schemas" Schemas (fun v x => mk x (ScimType v) (Detail v) (Status v)) dec_schemas;
    Field "scimType" ScimType (fun v x => mk (Schemas v) x (Detail v) (Status v)) dec_string;
    Field "detail" Detail (fun v x => mk (Schemas v) (ScimType v) x (Status v)) dec_string;
    Field "status" Status (fun v x => mk (Schemas v) (ScimType v) (Detail v) x) dec_string ].
End GroupErrorResponse.

(** An entry of [GroupsResponse.Resources]. *)
Module GroupResource.
Record t : Type := mk {
  Schemas : slice string;
  ID : string;
  DisplayName : string;
  Meta : Meta.t;
  Members : slice json
}.
Definition zero : t := mk None EmptyString EmptyString Meta.zero None.

Definition fields `{World} : list (field t) :=
  [ Field "schemas" Schemas (fun v x => mk x (ID v) (DisplayName v) (Meta v) (Members v)) dec_schemas;
    Field "id" ID (fun v x => mk (Schemas v) x (DisplayName v) (Meta v) (Members v)) dec_string;
    Field "displayName" DisplayName (fun v x => mk (Schemas v) (ID v) x (Meta v) (Members v)) dec_string;
    Field "meta" Meta (fun v x => mk (Schemas v) (ID v) (DisplayName v) x (Members v)) Meta.dec;
    Field "members" Members (fun v x => mk (Schemas v) (ID v) (DisplayName v) (Meta v) x)
      (dec_slice dec_any JNull "[]interface {}") ].
Definition dec `{World} : decoder t := dec_struct fields "struct".
End GroupResource.

Module GroupsResponse.
Record t : Type := mk {
  TotalResults : Z;
  Schemas : slice string;
  Resources : slice GroupResource.t
}.
Definition zero : t := mk 0 None None.

Definition fields `{World} : list (field t) :=
  [ Field "totalResults" TotalResults (fun v x => mk x (Schemas v) (Resources v)) dec_int;
    Field "schemas" Schemas (fun v x => mk (TotalResults v) x (Resources v)) dec_schemas;
    Field "Resources" Resources (fun v x => mk (TotalResults v) (Schemas v) x)
      (dec_slice GroupResource.dec GroupResource.zero "[]struct") ].
End GroupsResponse.

(** A member reference inside a patch operation: [struct { Value }]. *)
Module PatchValue.
Record t : Type := mk { Value : string }.
Definition to_json (v : t) : json := JObject [("value", JString (Value v))].
End PatchValue.

(** One patch operation: [struct { Op; Path; Value }]. *)
Module Operation.
Record t : Type := mk { Op : string; Path : string; Value : slice PatchValue.t }.
Definition to_json (o : t) : json :=
  JObject [ ("op", JString (Op o));
            ("path", JString (Path o));
            ("value", enc_slice PatchValue.to_json (Value o)) ].
End Operation.

Module UpdateGroup.
Record t : Type := mk {
  Schemas : slice string;
  Operations : slice Operation.t
}.

Definition fill_defaults (ug : t) : t :=
  if (len (Schemas ug) =? 0)%nat then mk (Some [PatchOpSchema]) (Operations ug) else ug.

Definition to_json (ug : t) : json :=
  JObject [ ("schemas", enc_slice JString (Schemas ug));
            ("Operations", enc_slice Operation.to_json (Operations ug)) ].
End UpdateGroup.

(** [type UserType int64] with the constants [Full], [Core], [Basic]. *)
Definition UserType : Type := Z.
Definition Full : UserType := 0.
Definition Core : UserType := 1.
Definition Basic : UserType := 2.

Definition UserType_String (u : UserType) : string :=
  if u =? Full then "Full User"
  else if u =? Core then "Core User"
  else if u =? Basic then "Basic User"
  else "unknown".

(** ** The client *)

Definition userPath : string := "Users".
Definition groupPath : string := "Groups".

(** What an operation did: the requests it passed to [HttpClient.Do], in
    order, the lines it wrote to standard output, and how it ended.  A
    request passed to [Do] on a nil [HttpClient] is recorded as well: it was
    built and given its headers, and the call panicked. *)
Record Trace (A : Type) : Type := mkTrace {
  sent : list Request;
  printed : list string;
  outcome : Exec A
}.
Arguments mkTrace {A} sent printed outcome.
Arguments sent {A} t.
Arguments printed {A} t.
Arguments outcome {A} t.

Definition validMethod (method : string) : bool :=
  negb (String.eqb method EmptyString) && all_bytes is_token_byte method.

(** [http.NewRequest]: an empty method means GET, the method must be a
    token, the URL must parse ([url_Parse] stands for [url.Parse] and the
    removal of an empty port that follows it).  The method is kept as it is
    written: net/http does not change its case. *)
Definition NewRequest `{World} (method url : string) (body : option bytes) : error + Request :=
  let method := if String.eqb method EmptyString then "GET" else method in
  if negb (validMethod method) then inl (errorString ("net/http: invalid method " +:+ quote method))
  else
    match url_Parse url with
    | inl err => inl err
    | inr u => inr (mkRequest method u ∅ body)
    end.

Definition set_Headers (r : Request) (h : Header) : Request :=
  mkRequest (Method r) (Url r) h (ReqBody r).

Definition set_Url (r : Request) (u : URL) : Request :=
  mkRequest (Method r) u (Headers r) (ReqBody r).

Definition newline : string := String (ascii_of_nat 10) EmptyString.

(** The bytes of a possibly nil [[]byte]. *)
Definition bytes_of (b : option bytes) : bytes := default EmptyString b.

(** [if err != nil { return r }], then the rest. *)
Notation "'if_err' e 'return_' r 'else_' k" :=
  (match e with Some _ => r | None => k end)
  (at level 10, e at level 9, r at level 9, k at level 200, only parsing).

Module Client.
(** The struct behind a [*Client]; the operations below are its methods,
    called on a receiver that is not nil.  [HttpClient] is a [*http.Client]:
    [None] is the nil pointer, which is what the field holds in a struct
    literal that does not set it. *)
Record t : Type := mk {
  BaseUrl : string;
  ApiToken : string;
  HttpClient : option HttpClient_t
}.

Definition NewClient (apiToken : string) : t :=
  let h := Some (mkHttpClient (20 * Second)) in
  mk "https://scim-provisioning.service.newrelic.com/scim/v2/" apiToken h.

Section Operations.
Context `{World}.
Variable c : t.

(** The request as passed to [HttpClient.Do], and the two results of the
    source, or the panic of the call on a nil [HttpClient]. *)
Definition doRequest (req : Request) : list Request * Exec (option bytes * option error) :=
  let req := set_Headers req (Header_Set (Headers req) "Authorization" ("Bearer " +:+ ApiToken c)) in
  let req := set_Headers req (Header_Set (Headers req) "content-type" "application/json") in
  ([req],
   match http_Client_Do (HttpClient c) req with
   | Panic msg => Panic msg
   | Done (inl err) => Done (None, Some err)
   | Done (inr resp) =>
       match Body resp with
       | inl err => Done (None, Some err)
       | inr body =>
           if negb ((StatusCode resp >=? 200) && (StatusCode resp <=? 299))%Z
           then Done (None,
                      Some (errorString ("error body: " +:+ body +:+ newline +:+ "status Code: "
                                         +:+ pretty (StatusCode resp))))
           else Done (Some body, None)
       end
   end).

Definition UserList (ctx : Context)
  : Trace (UsersResponse.t * UserErrorResponse.t * option error) :=
  let usersResponse := UsersResponse.zero in
  let userErrorResponse := UserErrorResponse.zero in
  let fullUrl := BaseUrl c +:+ userPath in
  match NewRequest "Get" fullUrl None with
  | inl err => mkTrace [] [] (Done (usersResponse, userErrorResponse, Some err))
  | inr req =>
  let '(sent, r) := doRequest req in
  match r with
  | Panic msg => mkTrace sent [] (Panic msg)
  | Done (resp, err) =>
  if_err err return_ (mkTrace sent [] (Done (usersResponse, userErrorResponse, err))) else_
  let '(usersResponse, err) :=
    Unmarshal UsersResponse.fields "newrelicscim.UsersResponse" (bytes_of resp) usersResponse in
  if_err err return_ (mkTrace sent [] (Done (usersResponse, userErrorResponse, err))) else_
  match elems (UsersResponse.Schemas usersResponse) !! 0%nat with
  | None => mkTrace sent [] (Panic index_out_of_range)
  | Some schema =>
      if String.eqb schema ErrorSchema then
        let '(userErrorResponse, err) :=
          Unmarshal UserErrorResponse.fields "newrelicscim.UserErrorResponse" (bytes_of resp) userErrorResponse in
        if_err err return_ (mkTrace sent [] (Done (usersResponse, userErrorResponse, err))) else_
        mkTrace sent [] (Done (usersResponse, userErrorResponse, None))
      else mkTrace sent [] (Done (usersResponse, userErrorResponse, None))
  end
  end
  end.

Definition GetUserByID (ctx : Context) (userID : string)
  : Trace (UserResponse.t * UserErrorResponse.t * option error) :=
  let userResponse := UserResponse.zero in
  let userErrorResponse := UserErrorResponse.zero in
  let fullUrl := BaseUrl c +:+ userPath +:+ "/" +:+ userID in
  match NewRequest "GET" fullUrl None with
  | inl err => mkTrace [] [] (Done (userResponse, userErrorResponse, Some err))
  | inr req =>
  let '(sent, r) := doRequest req in
  match r with
  | Panic msg => mkTrace sent [] (Panic msg)
  | Done (resp, err) =>
  if_err err return_ (mkTrace sent [] (Done (userResponse, userErrorResponse, err))) else_
  let '(userResponse, err) :=
    Unmarshal UserResponse.fields "newrelicscim.UserResponse" (bytes_of resp) userResponse in
  if_err err return_ (mkTrace sent [] (Done (userResponse, userErrorResponse, err))) else_
  match elems (UserResponse.Schemas userResponse) !! 0%nat with
  | None => mkTrace sent [] (Panic index_out_of_range)
  | Some schema =>
      if String.eqb schema ErrorSchema then
        let '(userErrorResponse, err) :=
          Unmarshal UserErrorResponse.fields "newrelicscim.UserErrorResponse" (bytes_of resp) userErrorResponse in
        if_err err return_ (mkTrace sent [] (Done (userResponse, userErrorResponse, err))) else_
        mkTrace sent [] (Done (userResponse, userErrorResponse, None))
      else mkTrace sent [] (Done (userResponse, userErrorResponse, None))
  end
  end
  end.

(** The two lines of [printed] are the two [fmt.Println] calls: the filter,
    then the URL with its new query. *)
Definition GetUserByName (ctx : Context) (userName : string)
  : Trace (UserResponse.t * UserErrorResponse.t * option error) :=
  let userResponse := UserResponse.zero in
  let userErrorResponse := UserErrorResponse.zero in
  let fullUrl := BaseUrl c +:+ userPath in
  match NewRequest "GET" fullUrl None with
  | inl err => mkTrace [] [] (Done (userResponse, userErrorResponse, Some err))
  | inr req =>
  let q := URL_Query (Url req) in
  let filter := "userName eq " +:+ dq +:+ userName +:+ dq in
  let q := Values_Add q "filter" filter in
  let req := set_Url req (set_RawQuery (Url req) (Values_Encode q)) in
  let printed := [filter; URL_String (Url req)] in
  let '(sent, r) := doRequest req in
  match r with
  | Panic msg => mkTrace sent printed (Panic msg)
  | Done (resp, err) =>
  if_err err return_ (mkTrace sent printed (Done (userResponse, userErrorResponse, err))) else_
  let '(userResponse, err) :=
    Unmarshal UserResponse.fields "newrelicscim.UserResponse" (bytes_of resp) userResponse in
  if_err err return_ (mkTrace sent printed (Done (userResponse, userErrorResponse, err))) else_
  match elems (UserResponse.Schemas userResponse) !! 0%nat with
  | None => mkTrace sent printed (Panic index_out_of_range)
  | Some schema =>
      if String.eqb schema ErrorSchema then
        let '(userErrorResponse, err) :=
          Unmarshal UserErrorResponse.fields "newrelicscim.UserErrorResponse" (bytes_of resp) userErrorResponse in
        if_err err return_ (mkTrace sent printed (Done (userResponse, userErrorResponse, err))) else_
        mkTrace sent printed (Done (userResponse, userErrorResponse, None))
      else mkTrace sent printed (Done (userResponse, userErrorResponse, None))
  end
  end
  end.

Definition CreateUser (ctx : Context) (user : User.t)
  : Trace (UserResponse.t * UserErrorResponse.t * option error) :=
  let userResponse := UserResponse.zero in
  let userErrorResponse := UserErrorResponse.zero in
  let fullUrl := BaseUrl c +:+ userPath in
  let user := User.fill_defaults user in
  let postBody := json_Marshal (User.to_json user) in
  let responseBody := Some postBody in
  match NewRequest "POST" fullUrl responseBody with
  | inl err => mkTrace [] [] (Done (userResponse, userErrorResponse, Some err))
  | inr req =>
  let '(sent, r) := doRequest req in
  match r with
  | Panic msg => mkTrace sent [] (Panic msg)
  | Done (resp, err) =>
  if_err err return_ (mkTrace sent [] (Done (userResponse, userErrorResponse, err))) else_
  let '(userResponse, err) :=
    Unmarshal UserResponse.fields "newrelicscim.UserResponse" (bytes_of resp) userResponse in
  if_err err return_ (mkTrace sent [] (Done (userResponse, userErrorResponse, err))) else_
  match elems (UserResponse.Schemas userResponse) !! 0%nat with
  | None => mkTrace sent [] (Panic index_out_of_range)
  | Some schema =>
      if String.eqb schema ErrorSchema then
        let '(userErrorResponse, err) :=
          Unmarshal UserErrorResponse.fields "newrelicscim.UserErrorResponse" (bytes_of resp) userErrorResponse in
        if_err err return_ (mkTrace sent [] (Done (userResponse, userErrorResponse, err))) else_
        mkTrace sent [] (Done (userResponse, userErrorResponse, None))
      else mkTrace sent [] (Done (userResponse, userErrorResponse, None))
  end
  end
  end.

Definition UpdateUser (ctx : Context) (userID : string) (user : User.t)
  : Trace (UserResponse.t * UserErrorResponse.t * option error) :=
  let userResponse := UserResponse.zero in
  let userErrorResponse := UserErrorResponse.zero in
  let fullUrl := BaseUrl c +:+ userPath +:+ "/" +:+ userID in
  let user := User.fill_defaults user in
  let postBody := json_Marshal (User.to_json user) in
  let responseBody := Some postBody in
  match NewRequest "PUT" fullUrl responseBody with
  | inl err => mkTrace [] [] (Done (userResponse, userErrorResponse, Some err))
  | inr req =>
  let '(sent, r) := doRequest req in
  match r with
  | Panic msg => mkTrace sent [] (Panic msg)
  | Done (resp, err) =>
  if_err err return_ (mkTrace sent [] (Done (userResponse, userErrorResponse, err))) else_
  let '(userResponse, err) :=
    Unmarshal UserResponse.fields "newrelicscim.UserResponse" (bytes_of resp) userResponse in
  if_err err return_ (mkTrace sent [] (Done (userResponse, userErrorResponse, err))) else_
  match elems (UserResponse.Schemas userResponse) !! 0%nat with
  | None => mkTrace sent [] (Panic index_out_of_range)
  | Some schema =>
      if String.eqb schema ErrorSchema then
        let '(userErrorResponse, err) :=
          Unmarshal UserErrorResponse.fields "newrelicscim.UserErrorResponse" (bytes_of resp) userErrorResponse in
        if_err err return_ (mkTrace sent [] (Done (userResponse, userErrorResponse, err))) else_
        mkTrace sent [] (Done (userResponse, userErrorResponse, None))
      else mkTrace sent [] (Done (userResponse, userErrorResponse, None))
  end
  end
  end.

Definition DeleteUser (ctx : Context) (userID : string) : Trace (option error) :=
  let fullUrl := BaseUrl c +:+ userPath +:+ "/" +:+ userID in
  match NewRequest "DELETE" fullUrl None with
  | inl err => mkTrace [] [] (Done (Some err))
  | inr req =>
  let '(sent, r) := doRequest req in
  match r with
  | Panic msg => mkTrace sent [] (Panic msg)
  | Done (_, err) =>
  if_err err return_ (mkTrace sent [] (Done err)) else_
  mkTrace sent [] (Done None)
  end
  end.

Definition ChangeUserType (ctx : Context) (userID : string) (userType : UserType)
  : Trace (UserResponse.t * UserErrorResponse.t * option error) :=
  let userResponse := UserResponse.zero in
  let userErrorResponse := UserErrorResponse.zero in
  let fullUrl := BaseUrl c +:+ userPath +:+ "/" +:+ userID in
  let userTypeBody :=
    UserTypeBody.mk None (UserTypeBody.mkExt (UserType_String userType)) in
  let userTypeBody := UserTypeBody.fill_defaults userTypeBody in
  let putBody := json_Marshal (UserTypeBody.to_json userTypeBody) in
  let responseBody := Some putBody in
  match NewRequest "PUT" fullUrl responseBody with
  | inl err => mkTrace [] [] (Done (userResponse, userErrorResponse, Some err))
  | inr req =>
  let '(sent, r) := doRequest req in
  match r with
  | Panic msg => mkTrace sent [] (Panic msg)
  | Done (resp, err) =>
  if_err err return_ (mkTrace sent [] (Done (userResponse, userErrorResponse, err))) else_
  let '(userResponse, err) :=
    Unmarshal UserResponse.fields "newrelicscim.UserResponse" (bytes_of resp) userResponse in
  if_err err return_ (mkTrace sent [] (Done (userResponse, userErrorResponse, err))) else_
  match elems (UserResponse.Schemas userResponse) !! 0%nat with
  | None => mkTrace sent [] (Panic index_out_of_range)
  | Some schema =>
      if String.eqb schema ErrorSchema then
        let '(userErrorResponse, err) :=
          Unmarshal UserErrorResponse.fields "newrelicscim.UserErrorResponse" (bytes_of resp) userErrorResponse in
        if_err err return_ (mkTrace sent [] (Done (userResponse, userErrorResponse, err))) else_
        mkTrace sent [] (Done (userResponse, userErrorResponse, None))
      else mkTrace sent [] (Done (userResponse, userErrorResponse, None))
  end
  end
  end.

Definition CreateGroup (ctx : Context) (groupName : string)
  : Trace (GroupResponse.t * GroupErrorResponse.t * option error) :=
  let groupResponse := GroupResponse.zero in
  let groupErrorResponse := GroupErrorResponse.zero in
  let fullUrl := BaseUrl c +:+ groupPath in
  let group := Group.mk None groupName in
  let group := Group.fill_defaults group in
  let postBody := json_Marshal (Group.to_json group) in
  let requestBody := Some postBody in
  match NewRequest "POST" fullUrl requestBody with
  | inl err => mkTrace [] [] (Done (groupResponse, groupErrorResponse, Some err))
  | inr req =>
  let '(sent, r) := doRequest req in
  match r with
  | Panic msg => mkTrace sent [] (Panic msg)
  | Done (resp, err) =>
  if_err err return_ (mkTrace sent [] (Done (groupResponse, groupErrorResponse, err))) else_
  let '(groupResponse, err) :=
    Unmarshal GroupResponse.fields "newrelicscim.GroupResponse" (bytes_of resp) groupResponse in
  if_err err return_ (mkTrace sent [] (Done (groupResponse, groupErrorResponse, err))) else_
  match elems (GroupResponse.Schemas groupResponse) !! 0%nat with
  | None => mkTrace sent [] (Panic index_out_of_range)
  | Some schema =>
      if String.eqb schema ErrorSchema then
        let '(groupErrorResponse, err) :=
          Unmarshal GroupErrorResponse.fields "newrelicscim.GroupErrorResponse" (bytes_of resp) groupErrorResponse in
        if_err err return_ (mkTrace sent [] (Done (groupResponse, groupErrorResponse, err))) else_
        mkTrace sent [] (Done (groupResponse, groupErrorResponse, None))
      else mkTrace sent [] (Done (groupResponse, groupErrorResponse, None))
  end
  end
  end.

Definition UpdateGroup (ctx : Context) (groupName : string)
  : Trace (GroupResponse.t * GroupErrorResponse.t * option error) :=
  let groupResponse := GroupResponse.zero in
  let groupErrorResponse := GroupErrorResponse.zero in
  let fullUrl := BaseUrl c +:+ groupPath in
  let group := Group.mk None groupName in
  let group := Group.fill_defaults group in
  let postBody := json_Marshal (Group.to_json group) in
  let requestBody := Some postBody in
  match NewRequest "PUT" fullUrl requestBody with
  | inl err => mkTrace [] [] (Done (groupResponse, groupErrorResponse, Some err))
  | inr req =>
  let '(sent, r) := doRequest req in
  match r with
  | Panic msg => mkTrace sent [] (Panic msg)
  | Done (resp, err) =>
  if_err err return_ (mkTrace sent [] (Done (groupResponse, groupErrorResponse, err))) else_
  let '(groupResponse, err) :=
    Unmarshal GroupResponse.fields "newrelicscim.GroupResponse" (bytes_of resp) groupResponse in
  if_err err return_ (mkTrace sent [] (Done (groupResponse, groupErrorResponse, err))) else_
  match elems (GroupResponse.Schemas groupResponse) !! 0%nat with
  | None => mkTrace sent [] (Panic index_out_of_range)
  | Some schema =>
      if String.eqb schema ErrorSchema then
        let '(groupErrorResponse, err) :=
          Unmarshal GroupErrorResponse.fields "newrelicscim.GroupErrorResponse" (bytes_of resp) groupErrorResponse in
        if_err err return_ (mkTrace sent [] (Done (groupResponse, groupErrorResponse, err))) else_
        mkTrace sent [] (Done (groupResponse, groupErrorResponse, None))
      else mkTrace sent [] (Done (groupResponse, groupErrorResponse, None))
  end
  end
  end.

Definition GroupList (ctx : Context)
  : Trace (GroupsResponse.t * GroupErrorResponse.t * option error) :=
  let groupsResponse := GroupsResponse.zero in
  let groupErrorResponse := GroupErrorResponse.zero in
  let fullUrl := BaseUrl c +:+ groupPath in
  match NewRequest "Get" fullUrl None with
  | inl err => mkTrace [] [] (Done (groupsResponse, groupErrorResponse, Some err))
  | inr req =>
  let '(sent, r) := doRequest req in
  match r with
  | Panic msg => mkTrace sent [] (Panic msg)
  | Done (resp, err) =>
  if_err err return_ (mkTrace sent [] (Done (groupsResponse, groupErrorResponse, err))) else_
  let '(groupsResponse, err) :=
    Unmarshal GroupsResponse.fields "newrelicscim.GroupsResponse" (bytes_of resp) groupsResponse in
  if_err err return_ (mkTrace sent [] (Done (groupsResponse, groupErrorResponse, err))) else_
  match elems (GroupsResponse.Schemas groupsResponse) !! 0%nat with
  | None => mkTrace sent [] (Panic index_out_of_range)
  | Some schema =>
      if String.eqb schema ErrorSchema then
        let '(groupErrorResponse, err) :=
          Unmarshal GroupErrorResponse.fields "newrelicscim.GroupErrorResponse" (bytes_of resp) groupErrorResponse in
        if_err err return_ (mkTrace sent [] (Done (groupsResponse, groupErrorResponse, err))) else_
        mkTrace sent [] (Done (groupsResponse, groupErrorResponse, None))
      else mkTrace sent [] (Done (groupsResponse, groupErrorResponse, None))
  end
  end
  end.

Definition GetGroupByID (ctx : Context) (groupID : string)
  : Trace (GroupsResponse.t * GroupErrorResponse.t * option error) :=
  let groupsResponse := GroupsResponse.zero in
  let groupErrorResponse := GroupErrorResponse.zero in
  let fullUrl := BaseUrl c +:+ groupPath +:+ "/" +:+ groupID in
  match NewRequest "GET" fullUrl None with
  | inl err => mkTrace [] [] (Done (groupsResponse, groupErrorResponse, Some err))
  | inr req =>
  let '(sent, r) := doRequest req in
  match r with
  | Panic msg => mkTrace sent [] (Panic msg)
  | Done (resp, err) =>
  if_err err return_ (mkTrace sent [] (Done (groupsResponse, groupErrorResponse, err))) else_
  let '(groupsResponse, err) :=
    Unmarshal GroupsResponse.fields "newrelicscim.GroupsResponse" (bytes_of resp) groupsResponse in
  if_err err return_ (mkTrace sent [] (Done (groupsResponse, groupErrorResponse, err))) else_
  match elems (GroupsResponse.Schemas groupsResponse) !! 0%nat with
  | None => mkTrace sent [] (Panic index_out_of_range)
  | Some schema =>
      if String.eqb schema ErrorSchema then
        let '(groupErrorResponse, err) :=
          Unmarshal GroupErrorResponse.fields "newrelicscim.GroupErrorResponse" (bytes_of resp) groupErrorResponse in
        if_err err return_ (mkTrace sent [] (Done (groupsResponse, groupErrorResponse, err))) else_
        mkTrace sent [] (Done (groupsResponse, groupErrorResponse, None))
      else mkTrace sent [] (Done (groupsResponse, groupErrorResponse, None))
  end
  end
  end.

(** The two lines of [printed] are the two [fmt.Println] calls: the filter,
    then the URL with its new query. *)
Definition GetGroupByName (ctx : Context) (groupName : string)
  : Trace (GroupsResponse.t * GroupErrorResponse.t * option error) :=
  let groupsResponse := GroupsResponse.zero in
  let groupErrorResponse := GroupErrorResponse.zero in
  let fullUrl := BaseUrl c +:+ groupPath in
  match NewRequest "GET" fullUrl None with
  | inl err => mkTrace [] [] (Done (groupsResponse, groupErrorResponse, Some err))
  | inr req =>
  let q := URL_Query (Url req) in
  let filter := "displayName eq " +:+ dq +:+ groupName +:+ dq in
  let q := Values_Add q "filter" filter in
  let req := set_Url req (set_RawQuery (Url req) (Values_Encode q)) in
  let printed := [filter; URL_String (Url req)] in
  let '(sent, r) := doRequest req in
  match r with
  | Panic msg => mkTrace sent printed (Panic msg)
  | Done (resp, err) =>
  if_err err return_ (mkTrace sent printed (Done (groupsResponse, groupErrorResponse, err))) else_
  let '(groupsResponse, err) :=
    Unmarshal GroupsResponse.fields "newrelicscim.GroupsResponse" (bytes_of resp) groupsResponse in
  if_err err return_ (mkTrace sent printed (Done (groupsResponse, groupErrorResponse, err))) else_
  match elems (GroupsResponse.Schemas groupsResponse) !! 0%nat with
  | None => mkTrace sent printed (Panic index_out_of_range)
  | Some schema =>
      if String.eqb schema ErrorSchema then
        let '(groupErrorResponse, err) :=
          Unmarshal GroupErrorResponse.fields "newrelicscim.GroupErrorResponse" (bytes_of resp) groupErrorResponse in
        if_err err return_ (mkTrace sent printed (Done (groupsResponse, groupErrorResponse, err))) else_
        mkTrace sent printed (Done (groupsResponse, groupErrorResponse, None))
      else mkTrace sent printed (Done (groupsResponse, groupErrorResponse, None))
  end
  end
  end.

Definition GroupMemberOps (ctx : Context) (groupID userID operation : string)
  : Trace (GroupResponse.t * GroupErrorResponse.t * option error) :=
  let groupResponse := GroupResponse.zero in
  let groupErrorResponse := GroupErrorResponse.zero in
  let fullUrl := BaseUrl c +:+ groupPath +:+ "/" +:+ groupID in
  let updateGroup :=
    UpdateGroup.mk None
      (Some [Operation.mk operation "members" (Some [PatchValue.mk userID])]) in
  let updateGroup := UpdateGroup.fill_defaults updateGroup in
  let putBody := json_Marshal (UpdateGroup.to_json updateGroup) in
  let requestBody := Some putBody in
  match NewRequest "PATCH" fullUrl requestBody with
  | inl err => mkTrace [] [] (Done (groupResponse, groupErrorResponse, Some err))
  | inr req =>
  let '(sent, r) := doRequest req in
  match r with
  | Panic msg => mkTrace sent [] (Panic msg)
  | Done (resp, err) =>
  if_err err return_ (mkTrace sent [] (Done (groupResponse, groupErrorResponse, err))) else_
  let '(groupResponse, err) :=
    Unmarshal GroupResponse.fields "newrelicscim.GroupResponse" (bytes_of resp) groupResponse in
  if_err err return_ (mkTrace sent [] (Done (groupResponse, groupErrorResponse, err))) else_
  match elems (GroupResponse.Schemas groupResponse) !! 0%nat with
  | None => mkTrace sent [] (Panic index_out_of_range)
  | Some schema =>
      if String.eqb schema ErrorSchema then
        let '(groupErrorResponse, err) :=
          Unmarshal GroupErrorResponse.fields "newrelicscim.GroupErrorResponse" (bytes_of resp) groupErrorResponse in
        if_err err return_ (mkTrace sent [] (Done (groupResponse, groupErrorResponse, err))) else_
        mkTrace sent [] (Done (groupResponse, groupErrorResponse, None))
      else mkTrace sent [] (Done (groupResponse, groupErrorResponse, None))
  end
  end
  end.

Definition AddUserToGroup (ctx : Context) (groupID userID : string)
  : Trace (GroupResponse.t * GroupErrorResponse.t * option error) :=
  GroupMemberOps ctx groupID userID "Add".

Definition RemoveUserToGroup (ctx : Context) (groupID userID : string)
  : Trace (GroupResponse.t * GroupErrorResponse.t * option error) :=
  GroupMemberOps ctx groupID userID "Remove".

Definition DeleteGroup (ctx : Context) (groupID : string) : Trace (option error) :=
  let fullUrl := BaseUrl c +:+ groupPath +:+ "/" +:+ groupID in
  match NewRequest "DELETE" fullUrl None with
  | inl err => mkTrace [] [] (Done (Some err))
  | inr req =>
  let '(sent, r) := doRequest req in
  match r with
  | Panic msg => mkTrace sent [] (Panic msg)
  | Done (_, err) =>
  if_err err return_ (mkTrace sent [] (Done err)) else_
  mkTrace sent [] (Done None)
  end
  end.
End Operations.
End Client.

(** ** A reference world

    One concrete [World], used to run the operations on test inputs: a JSON
    scanner for the grammar of RFC 8259, a URL splitter, query parsing and
    encoding as net/url does them, and a server given as a function from the
    request to its reply.  The splitter checks nothing beyond control bytes,
    every number literal is taken to fit a float64, and a timestamp is
    recognised by its first nineteen bytes. *)
Module Reference.

Definition byte_is (c : ascii) (n : N) : bool := (N_of_ascii c =? n)%N.

Definition is_space (c : ascii) : bool :=
  byte_is c 32 || byte_is c 9 || byte_is c 10 || byte_is c 13.

Fixpoint skip_space (s : string) : string :=
  match s with
  | String c r => if is_space c then skip_space r else s
  | EmptyString => s
  end.

Definition hex_value (c : ascii) : option N :=
  let n := N_of_ascii c in
  if ((48 <=? n) && (n <=? 57))%N then Some (n - 48)%N
  else if ((97 <=? n) && (n <=? 102))%N then Some (n - 87)%N
  else if ((65 <=? n) && (n <=? 70))%N then Some (n - 55)%N
  else None.

Definition hex4 (a b c d : ascii) : option N :=
  match hex_value a, hex_value b, hex_value c, hex_value d with
  | Some x, Some y, Some z, Some w => Some (((x * 16 + y) * 16 + z) * 16 + w)%N
  | _, _, _, _ => None
  end.

Definition byte (n : N) : string := String (ascii_of_N n) EmptyString.

(** The UTF-8 bytes of a code point. *)
Definition utf8 (cp : N) : string :=
  (if cp <? 128 then byte cp
   else if cp <? 2048 then byte (192 + cp / 64) +:+ byte (128 + cp mod 64)
   else if cp <? 65536 then
     byte (224 + cp / 4096) +:+ byte (128 + (cp / 64) mod 64) +:+ byte (128 + cp mod 64)
   else
     byte (240 + cp / 262144) +:+ byte (128 + (cp / 4096) mod 64)
     +:+ byte (128 + (cp / 64) mod 64) +:+ byte (128 + cp mod 64))%N.

Definition is_surrogate (cp : N) : bool := ((55296 <=? cp) && (cp <? 57344))%N.

(** The low half that completes the high surrogate [cp], when the text goes
    on with one. *)
Definition low_surrogate (cp : N) (s : string) : option N :=
  match s with
  | String b (String u (String h1 (String h2 (String h3 (String h4 _))))) =>
      if byte_is b 92 && byte_is u 117 && (cp <? 56320)%N then
        match hex4 h1 h2 h3 h4 with
        | Some lo => if ((56320 <=? lo) && (lo <? 57344))%N then Some lo else None
        | None => None
        end
      else None
  | _ => None
  end.

Definition simple_escape (e : ascii) : option N :=
  if byte_is e 34 then Some 34%N
  else if byte_is e 92 then Some 92%N
  else if byte_is e 47 then Some 47%N
  else if byte_is e 98 then Some 8%N
  else if byte_is e 102 then Some 12%N
  else if byte_is e 110 then Some 10%N
  else if byte_is e 114 then Some 13%N
  else if byte_is e 116 then Some 9%N
  else None.

(** The rest of a string literal after its opening quote: the contents,
    unescaped, and the text after the closing quote. *)
Fixpoint scan_string (s : string) : option (string * string) :=
  match s with
  | EmptyString => None
  | String c r =>
      if byte_is c 34 then Some (EmptyString, r)
      else if byte_is c 92 then
        match r with
        | EmptyString => None
        | String e r1 =>
            if byte_is e 117 then
              match r1 with
              | String h1 (String h2 (String h3 (String h4 r2))) =>
                  match hex4 h1 h2 h3 h4 with
                  | None => None
                  | Some cp =>
                      if is_surrogate cp then
                        match low_surrogate cp r2, r2 with
                        | Some lo, String _ (String _ (String _ (String _ (String _ (String _ r3))))) =>
                            let full := (65536 + (cp - 55296) * 1024 + (lo - 56320))%N in
                            (fun p => (utf8 full +:+ fst p, snd p)) <$> scan_string r3
                        | _, _ => (fun p => (utf8 65533 +:+ fst p, snd p)) <$> scan_string r2
                        end
                      else (fun p => (utf8 cp +:+ fst p, snd p)) <$> scan_string r2
                  end
              | _ => None
              end
            else
              match simple_escape e with
              | Some n => (fun p => (String (ascii_of_N n) (fst p), snd p)) <$> scan_string r1
              | None => None
              end
        end
      else if (N_of_ascii c <? 32)%N then None
      else (fun p => (String c (fst p), snd p)) <$> scan_string r
  end.

Fixpoint take_digits (s : string) : string * string :=
  match s with
  | String c r =>
      if is_digit c then let p := take_digits r in (String c (fst p), snd p)
      else (EmptyString, s)
  | EmptyString => (EmptyString, s)
  end.

(** A number literal at the head of the text, and the text after it. *)
Definition scan_number (s : string) : option (string * string) :=
  let '(sign, s1) :=
    match s with
    | String c r => if byte_is c 45 then ("-", r) else (EmptyString, s)
    | _ => (EmptyString, s)
    end in
  let '(int, s2) := take_digits s1 in
  let int_ok :=
    match int with
    | EmptyString => false
    | String c EmptyString => true
    | String c _ => negb (byte_is c 48)
    end in
  if negb int_ok then None
  else
    let frac :=
      match s2 with
      | String c r =>
          if byte_is c 46 then
            let '(d, r') := take_digits r in
            match d with
            | EmptyString => None
            | _ => Some ("." +:+ d, r')
            end
          else Some (EmptyString, s2)
      | _ => Some (EmptyString, s2)
      end in
    match frac with
    | None => None
    | Some (fr, s3) =>
        let exp :=
          match s3 with
          | String c r =>
              if byte_is c 101 || byte_is c 69 then
                let '(sg, r1) :=
                  match r with
                  | String g r' =>
                      if byte_is g 43 || byte_is g 45 then (String g EmptyString, r')
                      else (EmptyString, r)
                  | _ => (EmptyString, r)
                  end in
                let '(d, r2) := take_digits r1 in
                match d with
                | EmptyString => None
                | _ => Some (String c sg +:+ d, r2)
                end
              else Some (EmptyString, s3)
          | _ => Some (EmptyString, s3)
          end in
        match exp with
        | None => None
        | Some (ex, s4) => Some (sign +:+ int +:+ fr +:+ ex, s4)
        end
    end.

Fixpoint strip_prefix (p s : string) : option string :=
  match p, s with
  | EmptyString, _ => Some s
  | String a p', String b s' => if Ascii.eqb a b then strip_prefix p' s' else None
  | _, _ => None
  end.

(** One JSON value at the head of the text (after blanks), and the text
    after it.  [fuel] bounds the nesting depth and the number of elements of
    an array or object; the length of the text is always enough. *)
Fixpoint scan_value (fuel : nat) (s : string) {struct fuel} : option (json * string) :=
  match fuel with
  | O => None
  | S f =>
      let elements :=
        fix elements (n : nat) (s : string) (acc : list json) {struct n}
          : option (list json * string) :=
          match n with
          | O => None
          | S n' =>
              match scan_value f s with
              | None => None
              | Some (v, r) =>
                  match skip_space r with
                  | String c r' =>
                      if byte_is c 44 then elements n' r' (v :: acc)
                      else if byte_is c 93 then Some (rev (v :: acc), r')
                      else None
                  | EmptyString => None
                  end
              end
          end in
      let members :=
        fix members (n : nat) (s : string) (acc : list (string * json)) {struct n}
          : option (list (string * json) * string) :=
          match n with
          | O => None
          | S n' =>
              match skip_space s with
              | String q r0 =>
                  if byte_is q 34 then
                    match scan_string r0 with
                    | None => None
                    | Some (k, r1) =>
                        match skip_space r1 with
                        | String colon r2 =>
                            if byte_is colon 58 then
                              match scan_value f r2 with
                              | None => None
                              | Some (v, r3) =>
                                  match skip_space r3 with
                                  | String c r' =>
                                      if byte_is c 44 then members n' r' ((k, v) :: acc)
                                      else if byte_is c 125 then Some (rev ((k, v) :: acc), r')
                                      else None
                                  | EmptyString => None
                                  end
                              end
                            else None
                        | EmptyString => None
                        end
                    end
                  else None
              | EmptyString => None
              end
          end in
      match skip_space s with
      | EmptyString => None
      | String c r =>
          if byte_is c 123 then
            match skip_space r with
            | String c' r' =>
                if byte_is c' 125 then Some (JObject [], r')
                else (fun p => (JObject (fst p), snd p)) <$> members f r []
            | EmptyString => None
            end
          else if byte_is c 91 then
            match skip_space r with
            | String c' r' =>
                if byte_is c' 93 then Some (JArray [], r')
                else (fun p => (JArray (fst p), snd p)) <$> elements f r []
            | EmptyString => None
            end
          else if byte_is c 34 then (fun p => (JString (fst p), snd p)) <$> scan_string r
          else if byte_is c 116 then (fun r' => (JBool true, r')) <$> strip_prefix "true" (String c r)
          else if byte_is c 102 then (fun r' => (JBool false, r')) <$> strip_prefix "false" (String c r)
          else if byte_is c 110 then (fun r' => (JNull, r')) <$> strip_prefix "null" (String c r)
          else (fun p => (JNumber (fst p), snd p)) <$> scan_number (String c r)
      end
  end.

Definition scan (data : bytes) : error + json :=
  match scan_value (S (String.length data)) data with
  | Some (j, r) =>
      match skip_space r with
      | EmptyString => inr j
      | _ => inl (json_SyntaxError "invalid character after top-level value")
      end
  | None => inl (json_SyntaxError "invalid JSON text")
  end.
(** The text up to the first byte [n], and the text after it when there is
    one. *)
Fixpoint split_at (n : N) (s : string) : string * option string :=
  match s with
  | EmptyString => (EmptyString, None)
  | String c r =>
      if byte_is c n then (EmptyString, Some r)
      else let p := split_at n r in (String c (fst p), snd p)
  end.

Definition is_control (c : ascii) : bool :=
  (N_of_ascii c <? 32)%N || byte_is c 127.

Definition is_alpha (c : ascii) : bool :=
  let n := N_of_ascii c in
  ((65 <=? n) && (n <=? 90) || (97 <=? n) && (n <=? 122))%N.

(** The scheme at the head of a URL and the text after its colon. *)
Fixpoint get_scheme (first : bool) (s : string) : option (string * string) :=
  match s with
  | EmptyString => None
  | String c r =>
      if is_alpha c || (negb first && (is_digit c || byte_is c 43 || byte_is c 45 || byte_is c 46))
      then (fun p => (String c (fst p), snd p)) <$> get_scheme false r
      else if byte_is c 58 && negb first then Some (EmptyString, r)
      else None
  end.

Definition split_url (url : string) : error + URL :=
  if negb (all_bytes (fun c => negb (is_control c)) url)
  then inl (url_Error "parse" url "net/url: invalid control character in URL")
  else
    let '(u, frag) := split_at 35 url in
    let '(u, query) := split_at 63 u in
    let '(scheme, rest) := default (EmptyString, u) (get_scheme true u) in
    let '(host, path) :=
      match strip_prefix "//" rest with
      | Some r =>
          let '(h, p) := split_at 47 r in
          (h, match p with Some p' => "/" +:+ p' | None => EmptyString end)
      | None => (EmptyString, rest)
      end in
    inr (mkURL (lower_string scheme) host path (default EmptyString query) (default EmptyString frag)).

(** [url.QueryUnescape]. *)
Fixpoint unescape (s : string) : option string :=
  match s with
  | EmptyString => Some EmptyString
  | String c r =>
      if byte_is c 37 then
        match r with
        | String a (String b r') =>
            match hex_value a, hex_value b with
            | Some x, Some y => String (ascii_of_N (x * 16 + y)) <$> unescape r'
            | _, _ => None
            end
        | _ => None
        end
      else if byte_is c 43 then String (ascii_of_N 32) <$> unescape r
      else String c <$> unescape r
  end.

Fixpoint split_on (n : N) (s : string) : list string :=
  match s with
  | EmptyString => [EmptyString]
  | String c r =>
      if byte_is c n then EmptyString :: split_on n r
      else
        match split_on n r with
        | x :: l => String c x :: l
        | [] => [String c EmptyString]
        end
  end.

(** [url.ParseQuery], without its error: a pair that holds a semicolon or a
    bad escape is dropped. *)
Definition parse_query (raw : string) : Values :=
  fold_left
    (fun (m : Values) (pair : string) =>
       if String.eqb pair EmptyString then m
       else if negb (all_bytes (fun c => negb (byte_is c 59)) pair) then m
       else
         let '(k, v) := split_at 61 pair in
         match unescape k, unescape (default EmptyString v) with
         | Some k', Some v' => Values_Add m k' v'
         | _, _ => m
         end)
    (split_on 38 raw) ∅.

Definition upper_hex (n : N) : ascii :=
  if (n <? 10)%N then ascii_of_N (48 + n) else ascii_of_N (55 + n).

Definition is_unreserved (c : ascii) : bool :=
  is_alpha c || is_digit c || byte_is c 45 || byte_is c 95 || byte_is c 46 || byte_is c 126.

(** [url.QueryEscape]. *)
Fixpoint escape (s : string) : string :=
  match s with
  | EmptyString => EmptyString
  | String c r =>
      if is_unreserved c then String c (escape r)
      else if byte_is c 32 then String (ascii_of_N 43) (escape r)
      else
        let n := N_of_ascii c in
        String (ascii_of_N 37) (String (upper_hex (n / 16)) (String (upper_hex (n mod 16)) (escape r)))
  end.

Fixpoint insert_key (k : string) (l : list string) : list string :=
  match l with
  | [] => [k]
  | x :: r => if String.leb k x then k :: l else x :: insert_key k r
  end.

Definition sort_keys (l : list string) : list string := fold_right insert_key [] l.

(** [Values.Encode]: keys in byte order, each value as key=value, joined by
    ampersands. *)
Definition encode (v : Values) : string :=
  String.concat "&"
    (concat (map (fun k => map (fun x => escape k +:+ "=" +:+ escape x) (default [] (v !! k)))
                 (sort_keys (map fst (map_to_list v))))).

Fixpoint matches (pattern s : string) : bool :=
  match pattern, s with
  | EmptyString, _ => true
  | String p pr, String c r =>
      (if byte_is p 100 then is_digit c else Ascii.eqb p c) && matches pr r
  | _, EmptyString => false
  end.

(** A timestamp is recognised by its date and time of day (in the pattern,
    d stands for a digit). *)
Definition looks_rfc3339 (s : string) : bool := matches "dddd-dd-ddTdd:dd:dd" s.

(** The text of a URL: scheme, host, path, query and fragment again. *)
Definition url_string (u : URL) : string :=
  (if String.eqb (Scheme u) EmptyString then EmptyString else Scheme u +:+ ":")
  +:+ (if String.eqb (Host u) EmptyString then EmptyString else "//" +:+ Host u)
  +:+ Path u
  +:+ (if String.eqb (RawQuery u) EmptyString then EmptyString else "?" +:+ RawQuery u)
  +:+ (if String.eqb (Fragment u) EmptyString then EmptyString else "#" +:+ Fragment u).

(** The reference world around a server. *)
Definition world (server : Request -> error + Response) : World :=
  {| url_Parse := split_url;
     URL_Query := fun u => parse_query (RawQuery u);
     URL_String := url_string;
     Values_Encode := encode;
     HttpClient_Do := fun _ req => server req;
     json_scan := scan;
     float64_ok := fun _ => true;
     rfc3339_ok := looks_rfc3339 |}.

(** A server that always sends the same status and body. *)
Definition always (status : Z) (body : bytes) : Request -> error + Response :=
  fun _ => inr (mkResponse status (inr body)).

(** A server that cannot be reached. *)
Definition unreachable : Request -> error + Response :=
  fun _ => inl (net_Error "dial tcp: connection refused").

(** A server whose reply has this status and breaks off inside the body, so
    that reading the body fails with this error. *)
Definition truncated (status : Z) (err : error) : Request -> error + Response :=
  fun _ => inr (mkResponse status (inl err)).
End Reference.

(** ** The reply-handling block, once

    From the call of [doRequest] to the final return, the twelve operations
    whose body reads a reply run the same statements on different struct types
    (the two member operations call one of the twelve).
    [parse_reply] is that block over any pair of shapes; each operation is
    shown below to be a request followed by it. *)

(** What the block needs to know of a struct type. *)
Record shape (S : Type) : Type := Shape {
  sh_zero : S;
  sh_schemas : S -> slice string;
  sh_fields : list (field S);
  sh_name : string
}.
Arguments Shape {S} sh_zero sh_schemas sh_fields sh_name.
Arguments sh_zero {S} s.
Arguments sh_schemas {S} s.
Arguments sh_fields {S} s.
Arguments sh_name {S} s.

Definition parse_reply `{World} {S E} (ss : shape S) (es : shape E) (printed : list string)
    (r : list Request * Exec (option bytes * option error)) : Trace (S * E * option error) :=
  let '(sent, r) := r in
  match r with
  | Panic msg => mkTrace sent printed (Panic msg)
  | Done (resp, err) =>
  if_err err return_ (mkTrace sent printed (Done (sh_zero ss, sh_zero es, err))) else_
  let '(s, err) := Unmarshal (sh_fields ss) (sh_name ss) (bytes_of resp) (sh_zero ss) in
  if_err err return_ (mkTrace sent printed (Done (s, sh_zero es, err))) else_
  match elems (sh_schemas ss s) !! 0%nat with
  | None => mkTrace sent printed (Panic index_out_of_range)
  | Some schema =>
      if String.eqb schema ErrorSchema then
        let '(e, err) := Unmarshal (sh_fields es) (sh_name es) (bytes_of resp) (sh_zero es) in
        if_err err return_ (mkTrace sent printed (Done (s, e, err))) else_
        mkTrace sent printed (Done (s, e, None))
      else mkTrace sent printed (Done (s, sh_zero es, None))
  end
  end.

Definition UsersShape `{World} : shape UsersResponse.t :=
  Shape UsersResponse.zero UsersResponse.Schemas UsersResponse.fields "newrelicscim.UsersResponse".
Definition UserShape `{World} : shape UserResponse.t :=
  Shape UserResponse.zero UserResponse.Schemas UserResponse.fields "newrelicscim.UserResponse".
Definition UserErrorShape : shape UserErrorResponse.t :=
  Shape UserErrorResponse.zero UserErrorResponse.Schemas UserErrorResponse.fields "newrelicscim.UserErrorResponse".
Definition GroupsShape `{World} : shape GroupsResponse.t :=
  Shape GroupsResponse.zero GroupsResponse.Schemas GroupsResponse.fields "newrelicscim.GroupsResponse".
Definition GroupShape `{World} : shape GroupResponse.t :=
  Shape GroupResponse.zero GroupResponse.Schemas GroupResponse.fields "newrelicscim.GroupResponse".
Definition GroupErrorShape : shape GroupErrorResponse.t :=
  Shape GroupErrorResponse.zero GroupErrorResponse.Schemas GroupErrorResponse.fields "newrelicscim.GroupErrorResponse".

(** The first decode of a reply body. *)
Definition decode `{World} {S} (ss : shape S) (body : bytes) : S * option error :=
  Unmarshal (sh_fields ss) (sh_name ss) body (sh_zero ss).

(** The operation handed one request to the HTTP client, and the server
    replied to it with this status and this body. *)
Definition replied `{World} {A} (c : Client.t) (t : Trace A) (status : Z) (body : bytes) : Prop :=
  exists req, sent t = [req]
    /\ http_Client_Do (Client.HttpClient c) req = Done (inr (mkResponse status (inr body))).

(** The operation handed one request to the HTTP client, and the exchange
    failed with this error: no reply came, or its body could not be read. *)
Definition failed `{World} {A} (c : Client.t) (t : Trace A) (err : error) : Prop :=
  exists req, sent t = [req]
    /\ (http_Client_Do (Client.HttpClient c) req = Done (inl err)
        \/ exists status,
             http_Client_Do (Client.HttpClient c) req = Done (inr (mkResponse status (inl err)))).

(** The operation handed one request to the HTTP client, and the server
    replied to it with this status, but reading the body failed with this
    error. *)
Definition unread `{World} {A} (c : Client.t) (t : Trace A) (status : Z) (err : error) : Prop :=
  exists req, sent t = [req]
    /\ http_Client_Do (Client.HttpClient c) req = Done (inr (mkResponse status (inl err))).

Definition is_2xx (status : Z) : Prop := 200 <= status <= 299.

(** The error [doRequest] makes of a reply outside 200..299. *)
Definition status_error (status : Z) (body : bytes) : error :=
  errorString ("error body: " +:+ body +:+ newline +:+ "status Code: " +:+ pretty status).

(** The headers every request leaves with. *)
Definition sent_headers (c : Client.t) : Header :=
  <["Content-Type" := ["application/json"]]>
    (<["Authorization" := ["Bearer " +:+ Client.ApiToken c]]> ∅).

(** Error detection on a trace.  Whenever the reply has a 2xx status and
    its body decodes without error into a success shape whose schema list
    starts with [x]: the operation returns that success shape and a nil error,
    with the zero error shape when [x] is not the error schema, and with the
    decoded error shape, which is not the zero value, when [x] is the error
    schema and the body decodes into the error shape as well. *)
Definition detects `{World} {S E} (ss : shape S) (es : shape E) (c : Client.t)
    (t : Trace (S * E * option error)) : Prop :=
  forall status body, replied c t status body -> is_2xx status ->
  forall s x, decode ss body = (s, None) ->
    elems (sh_schemas ss s) !! 0%nat = Some x ->
    (x <> ErrorSchema -> outcome t = Done (s, sh_zero es, None)) /\
    (x = ErrorSchema -> forall e, decode es body = (e, None) ->
       outcome t = Done (s, e, None) /\ e <> sh_zero es).

(** The index panic on a trace.  Whenever the reply has a 2xx status and
    its body decodes without error into a success shape whose schema list is
    empty, the operation panics. *)
Definition panics_on_empty `{World} {S E} (ss : shape S) (c : Client.t)
    (t : Trace (S * E * option error)) : Prop :=
  forall status body, replied c t status body -> is_2xx status ->
  forall s, decode ss body = (s, None) ->
    elems (sh_schemas ss s) = [] ->
    outcome t = Panic index_out_of_range.

(** Short-circuit on a trace.  Whenever the reply has a status outside
    200..299, the operation returns the zero shapes and the status error. *)
Definition short_circuits `{World} {S E} (ss : shape S) (es : shape E) (c : Client.t)
    (t : Trace (S * E * option error)) : Prop :=
  forall status body, replied c t status body -> ~ is_2xx status ->
  outcome t = Done (sh_zero ss, sh_zero es, Some (status_error status body)).

(** Short-circuit on a trace whose reply could not be read to its end.
    Whatever the status, the operation returns the zero shapes and the error
    of the read. *)
Definition stops_on_unread `{World} {S E} (ss : shape S) (es : shape E) (c : Client.t)
    (t : Trace (S * E * option error)) : Prop :=
  forall status err, unread c t status err ->
  outcome t = Done (sh_zero ss, sh_zero es, Some err).

(** The schema list the members of an object leave in a struct that routes
    the key schemas, and every key equal to it up to case, to a [[]string]. *)
Definition schemas_run (ms : list (string * json)) (sch : slice string) : slice string :=
  fold_left
    (fun acc kv => if equalFold "schemas" (fst kv) then dval (dec_schemas (snd kv) acc) else acc)
    ms sch.

(** The field table [fs] handles the schema list read by [get] the way both
    shapes of a reply must: the field tagged schemas decodes a [[]string] into
    it, no other field touches it, and no two tags are equal up to case. *)
Definition well_routed {T} (get : T -> slice string) (fs : list (field T)) : Prop :=
  Forall (fun f =>
            if String.eqb (fname f) "schemas"
            then forall j v, get (dval (run_field f j v)) = dval (dec_schemas j (get v))
            else forall j v, get (dval (run_field f j v)) = get v) fs
  /\ NoDup (map (fun f => lower_string (fname f)) fs)
  /\ In "schemas" (map fname fs).

(** The same world with another JSON scanner. *)
Definition with_scanner (W : World) (scanner : bytes -> error + json) : World :=
  {| url_Parse := @url_Parse W;
     URL_Query := @URL_Query W;
     URL_String := @URL_String W;
     Values_Encode := @Values_Encode W;
     HttpClient_Do := @HttpClient_Do W;
     json_scan := scanner;
     float64_ok := @float64_ok W;
     rfc3339_ok := @rfc3339_ok W |}.

(** What the field found for a key does to the schema list. *)
Definition routed {T} (get : T -> slice string) (k : string) (o : option (field T)) : Prop :=
  match o with
  | Some f =>
      if equalFold "schemas" k
      then forall j v, get (dval (run_field f j v)) = dval (dec_schemas j (get v))
      else forall j v, get (dval (run_field f j v)) = get v
  | None => equalFold "schemas" k = false
  end.

(** The schema list a document leaves in a fresh struct. *)
Definition schemas_of_doc (j : json) : slice string :=
  match j with
  | JObject ms => schemas_run ms None
  | _ => None
  end.

(** An operation that reads a reply either fails to build its request,
    and then returns at once with zero shapes, or hands one request to
    [doRequest] and runs the reply-handling block on the result. *)
Definition request_then_parse `{World} {S E} (c : Client.t) (ss : shape S) (es : shape E)
    (t : Trace (S * E * option error)) : Prop :=
  (exists err, t = mkTrace [] [] (Done (sh_zero ss, sh_zero es, Some err)))
  \/ (exists req lines, t = parse_reply ss es lines (Client.doRequest c req)).

(** The request [doRequest] hands over for [req]. *)
Definition handed_over (c : Client.t) (req : Request) : Request :=
  mkRequest (Method req) (Url req)
    (Header_Set (Header_Set (Headers req) "Authorization" ("Bearer " +:+ Client.ApiToken c))
       "content-type" "application/json")
    (ReqBody req).

(** A shape whose field table routes the schema list well and whose zero
    value has none. *)
Definition lawful {S} (ss : shape S) : Prop :=
  well_routed (sh_schemas ss) (sh_fields ss) /\ sh_schemas ss (sh_zero ss) = None.

(** What a delete makes of the result of [doRequest]: its error, or its
    panic. *)
Definition error_of (r : Exec (option bytes * option error)) : Exec (option error) :=
  match r with
  | Panic msg => Panic msg
  | Done (_, err) => Done err
  end.

(** A delete either fails to build its request, and then returns that
    error at once, or hands one request to [doRequest] and returns its error. *)
Definition request_then_return `{World} (c : Client.t) (t : Trace (option error)) : Prop :=
  (exists err, t = mkTrace [] [] (Done (Some err)))
  \/ (exists req, t = mkTrace [handed_over c req] [] (error_of (snd (Client.doRequest c req)))).

(** ** Test inputs *)

Definition token_client : Client.t := Client.NewClient "token".

(** A SCIM error document, as the service sends it with status 200. *)
Definition error_body : bytes :=
  sq_to_dq "{'schemas':['urn:ietf:params:scim:api:messages:2.0:Error'],'detail':'Resource 42 not found','status':'404'}".

(** A user document. *)
Definition user_body : bytes :=
  sq_to_dq "{'schemas':['urn:ietf:params:scim:schemas:core:2.0:User'],'id':'42','userName':'jdoe','active':true}".

Definition error_world : World := Reference.world (Reference.always 200 error_body).
Definition user_world : World := Reference.world (Reference.always 200 user_body).
Definition empty_world : World := Reference.world (Reference.always 200 (sq_to_dq "{}")).
Definition not_found_world : World := Reference.world (Reference.always 404 "no such user").
Definition offline_world : World := Reference.world Reference.unreachable.

(** A reply with status 500 that breaks off inside its body. *)
Definition unexpected_EOF : error := net_Error "unexpected EOF".
Definition truncated_world : World := Reference.world (Reference.truncated 500 unexpected_EOF).

(** [strings.Contains]. *)
Fixpoint contains (s substr : string) : bool :=
  String.prefix substr s
  || match s with
     | EmptyString => false
     | String _ r => contains r substr
     end.

(** The error document read as a user and as an error. *)
Definition error_as_user : UserResponse.t :=
  UserResponse.mk (Some [ErrorSchema]) EmptyString EmptyString EmptyString Name.zero None
    EmptyString false Meta.zero None.
Definition error_as_error : UserErrorResponse.t :=
  UserErrorResponse.mk (Some [ErrorSchema]) EmptyString "Resource 42 not found" "404".

(** The user document read as a user. *)
Definition user_as_user : UserResponse.t :=
  UserResponse.mk (Some [UserSchema]) "42" EmptyString "jdoe" Name.zero None
    EmptyString true Meta.zero None.

(** A SCIM filter as the specification words it: the attribute, the word
    eq, and the value between double quotes. *)
Definition filter_expression (attribute value : string) : string :=
  attribute +:+ " eq " +:+ dq +:+ value +:+ dq.

(** The payload [CreateUser] is specified to send for a user whose schema
    list and time zone are empty. *)
Definition defaulted_user_payload (user : User.t) : json :=
  JObject [ ("schemas", JArray [JString "urn:ietf:params:scim:schemas:core:2.0:User"]);
            ("userName", JString (User.UserName user));
            ("name", Name.to_json (User.Name user));
            ("emails", enc_slice UserEmail.to_json (User.Emails user));
            ("active", JBool (User.Active user));
            ("timezone", JString "Europe/Istanbul") ].

(** The patch documents of the member operations, as the specification
    gives them. *)
Definition add_member_body : bytes :=
  sq_to_dq "{'schemas':['urn:ietf:params:scim:api:messages:2.0:PatchOp'],'Operations':[{'op':'Add','path':'members','value':[{'value':'u-123'}]}]}".
Definition remove_member_body : bytes :=
  sq_to_dq "{'schemas':['urn:ietf:params:scim:api:messages:2.0:PatchOp'],'Operations':[{'op':'Remove','path':'members','value':[{'value':'u-123'}]}]}".

(** The document [ChangeUserType] sends. *)
Definition user_type_payload (userType : UserType) : json :=
  JObject [ ("schemas", JArray [JString UserSchema; JString NewRelicUserSchema]);
            (UserTypeKey, JObject [("nrUserType", JString (UserType_String userType))]) ].

(** A user with neither schema list nor time zone. *)
Definition bare_user : User.t :=
  User.mk None "jdoe" (Name.mk "Doe" "John") (Some [UserEmail.mk true "jdoe@example.com"]) true
    EmptyString.

(** The URL of the default client, followed by [path] and [query]. *)
Definition service_url (path query : string) : URL :=
  mkURL "https" "scim-provisioning.service.newrelic.com" ("/scim/v2/" +:+ path) query EmptyString.

(** ** The operations as one request and one reply block

    Apart from the two lookups by name, every operation that reads a reply is
    [built] from a method, a URL text and a body; the lookups by name are
    [built_lookup] from a URL text, an attribute and a value; the deletes are
    [built_delete] from a URL text. *)
Definition built `{World} {S E} (c : Client.t) (ss : shape S) (es : shape E)
    (method url : string) (body : option bytes) : Trace (S * E * option error) :=
  match NewRequest method url body with
  | inl err => mkTrace [] [] (Done (sh_zero ss, sh_zero es, Some err))
  | inr req => parse_reply ss es [] (Client.doRequest c req)
  end.

Definition built_lookup `{World} {S E} (c : Client.t) (ss : shape S) (es : shape E)
    (url attribute value : string) : Trace (S * E * option error) :=
  match NewRequest "GET" url None with
  | inl err => mkTrace [] [] (Done (sh_zero ss, sh_zero es, Some err))
  | inr req =>
      let filter := filter_expression attribute value in
      let req :=
        set_Url req
          (set_RawQuery (Url req)
             (Values_Encode (Values_Add (URL_Query (Url req)) "filter" filter))) in
      parse_reply ss es [filter; URL_String (Url req)] (Client.doRequest c req)
  end.

Definition built_delete `{World} (c : Client.t) (url : string) : Trace (option error) :=
  match NewRequest "DELETE" url None with
  | inl err => mkTrace [] [] (Done (Some err))
  | inr req =>
      mkTrace (fst (Client.doRequest c req)) [] (error_of (snd (Client.doRequest c req)))
  end.

(** At most one request leaves the client. *)
Definition single_shot {A} (t : Trace A) : Prop := (length (sent t) <= 1)%nat.

(** Every request that left carries the bearer token and the JSON content
    type, each as the only value of its header. *)
Definition authorised {A} (c : Client.t) (t : Trace A) : Prop :=
  forall req, In req (sent t) ->
    Headers req !! "Authorization" = Some ["Bearer " +:+ Client.ApiToken c]
    /\ Headers req !! "Content-Type" = Some ["application/json"].

(** A failed exchange ends the operation with the zero shapes and the error
    of the exchange. *)
Definition fails_through `{World} {S E} (ss : shape S) (es : shape E) (c : Client.t)
    (t : Trace (S * E * option error)) : Prop :=
  forall err, failed c t err -> outcome t = Done (sh_zero ss, sh_zero es, Some err).

(** A 2xx reply whose body does not decode into the success shape ends the
    operation with what the decoder left in that shape, the zero error shape
    and the decoder's error. *)
Definition returns_decode_error `{World} {S E} (ss : shape S) (es : shape E) (c : Client.t)
    (t : Trace (S * E * option error)) : Prop :=
  forall status body s err, replied c t status body -> is_2xx status ->
    decode ss body = (s, Some err) ->
    outcome t = Done (s, sh_zero es, Some err).

(** A 2xx reply that decodes into the success shape, starts its schema list
    with the error schema and does not decode into the error shape ends the
    operation with both shapes as the decoder left them and the decoder's
    error. *)
Definition returns_second_decode_error `{World} {S E} (ss : shape S) (es : shape E)
    (c : Client.t) (t : Trace (S * E * option error)) : Prop :=
  forall status body s rest e err, replied c t status body -> is_2xx status ->
    decode ss body = (s, None) ->
    elems (sh_schemas ss s) = ErrorSchema :: rest ->
    decode es body = (e, Some err) ->
    outcome t = Done (s, e, Some err).

(** What a nil error promises: a reply with a 2xx status came and its body
    decoded into the success shape returned; that shape has a first schema
    entry; the error shape is the zero value when that entry is not the error
    schema and carries the schema list of the success shape when it is. *)
Definition nil_error_promise `{World} {S E} (ss : shape S) (es : shape E) (c : Client.t)
    (t : Trace (S * E * option error)) : Prop :=
  forall s e, outcome t = Done (s, e, None) ->
    exists status body x rest,
      replied c t status body /\ is_2xx status
      /\ decode ss body = (s, None)
      /\ elems (sh_schemas ss s) = x :: rest
      /\ ((x <> ErrorSchema /\ e = sh_zero es)
          \/ (x = ErrorSchema /\ decode es body = (e, None)
              /\ sh_schemas es e = sh_schemas ss s)).

(** The two panics.  A panic is the nil pointer dereference of a client
    whose [HttpClient] is nil, raised when the request is passed to [Do], or
    the index out of range after a 2xx reply that decoded into an empty schema
    list; and a client whose [HttpClient] is nil panics whenever it gets as
    far as passing a request. *)
Definition panics_in_two_ways `{World} {S E} (ss : shape S) (c : Client.t)
    (t : Trace (S * E * option error)) : Prop :=
  (forall msg, outcome t = Panic msg ->
     (msg = nil_pointer_dereference /\ Client.HttpClient c = None
      /\ exists req, sent t = [req])
     \/ (msg = index_out_of_range
         /\ exists status body s, replied c t status body /\ is_2xx status
              /\ decode ss body = (s, None) /\ elems (sh_schemas ss s) = []))
  /\ (Client.HttpClient c = None -> forall req, sent t = [req] ->
      outcome t = Panic nil_pointer_dereference).

(** The body of every request that left is a JSON object whose first member
    is schemas, a list of strings that is not empty. *)
Definition schemas_sent {A} (t : Trace A) : Prop :=
  forall req, In req (sent t) ->
    exists x rest more,
      ReqBody req
      = Some (json_Marshal (JObject (("schemas", JArray (JString x :: map JString rest)) :: more))).

(** Every member of the document is unknown to the struct or goes to its
    schema list: none reaches another field. *)
Definition only_schemas_members {T} (fs : list (field T)) (ms : list (string * json)) : Prop :=
  Forall (fun kv => match find_field fs (fst kv) with
                    | Some f => fname f = "schemas"
                    | None => True
                    end) ms.

(** More test inputs. *)

(** A SCIM error document whose status is a number. *)
Definition numeric_status_body : bytes :=
  sq_to_dq "{'schemas':['urn:ietf:params:scim:api:messages:2.0:Error'],'detail':'Resource 42 not found','status':404}".

(** A group document. *)
Definition group_body : bytes :=
  sq_to_dq "{'schemas':['urn:ietf:params:scim:schemas:core:2.0:Group'],'id':'7','displayName':'Admins','members':[]}".

(** A list reply with one user in it. *)
Definition user_list_body : bytes :=
  sq_to_dq "{'schemas':['urn:ietf:params:scim:api:messages:2.0:ListResponse'],'totalResults':1,'Resources':[{'id':'42','userName':'jdoe'}]}".

Definition user_list_world : World := Reference.world (Reference.always 200 user_list_body).

Definition numeric_status_world : World := Reference.world (Reference.always 200 numeric_status_body).
Definition html_world : World := Reference.world (Reference.always 200 "<html>busy</html>").
Definition group_world : World := Reference.world (Reference.always 200 group_body).

(** A client written as a struct literal that sets the base URL and the
    token and leaves [HttpClient] nil. *)
Definition literal_client : Client.t :=
  Client.mk "https://scim-provisioning.service.newrelic.com/scim/v2/" "token" None.

(** A client whose base URL holds a line feed. *)
Definition broken_client : Client.t :=
  Client.mk ("https://scim.example" +:+ newline +:+ "/v2/") "token"
    (Some (mkHttpClient (20 * Second))).

(** A user who comes with a schema list and a time zone. *)
Definition complete_user : User.t :=
  User.mk (Some ["urn:example:custom"; UserSchema]) "jdoe" (Name.mk "Doe" "John") None false "UTC".

(** The text of the group document sent by [CreateGroup] and [UpdateGroup]. *)
Definition group_payload_text (groupName : string) : bytes :=
  sq_to_dq "{'schemas':['urn:ietf:params:scim:schemas:core:2.0:Group'],'displayName':"
  +:+ quote groupName +:+ "}".

(** The text of the patch document sent by [GroupMemberOps]. *)
Definition member_patch_text (operation userID : string) : bytes :=
  sq_to_dq "{'schemas':['urn:ietf:params:scim:api:messages:2.0:PatchOp'],'Operations':[{'op':"
  +:+ quote operation
  +:+ sq_to_dq ",'path':'members','value':[{'value':"
  +:+ quote userID +:+ "}]}]}".

(** The text of the document sent by [ChangeUserType] for a display string. *)
Definition user_type_text (display : string) : bytes :=
  sq_to_dq "{'schemas':['urn:ietf:params:scim:schemas:core:2.0:User','urn:ietf:params:scim:schemas:extension:newrelic:2.0:User'],'urn:ietf:params:scim:schemas:extension:newrelic:2.1:User':{'nrUserType':"
  +:+ quote display +:+ "}}".

(** * Theorems *)

(** ** Decoding: where the schema list comes from *)

Lemma equalFold_refl (a : string) : equalFold a a = true.
Proof. unfold equalFold. apply String.eqb_refl. Qed.

Lemma equalFold_eq (a b : string) :
  equalFold a b = true <-> lower_string a = lower_string b.
Proof. unfold equalFold. apply String.eqb_eq. Qed.

(** Among tags that differ up to case, a tag is found by its folded form. *)
Lemma folded_tag_unique {T} (fs : list (field T)) (f g : field T) :
  NoDup (map (fun f => lower_string (fname f)) fs) ->
  In f fs -> In g fs ->
  lower_string (fname f) = lower_string (fname g) -> f = g.
Proof.
  induction fs as [|h fs IH]; simpl; intros Hnd Hf Hg Heq; [contradiction|].
  inversion Hnd as [|? ? Hnotin Hnd']; subst.
  destruct Hf as [<-|Hf], Hg as [<-|Hg]; auto.
  - exfalso. apply Hnotin. rewrite Heq. apply list_elem_of_In.
    apply (in_map (fun f => lower_string (fname f))) in Hg. exact Hg.
  - exfalso. apply Hnotin. rewrite <- Heq. apply list_elem_of_In.
    apply (in_map (fun f => lower_string (fname f))) in Hf. exact Hf.
Qed.

Lemma find_field_routed {T} (get : T -> slice string) (fs : list (field T)) (k : string) :
  well_routed get fs -> routed get k (find_field fs k).
Proof.
  intros (Hall & Hnd & Hin).
  apply in_map_iff in Hin as (g & Hg & Hgin).
  assert (Hsch : forall f, In f fs ->
            lower_string (fname f) = lower_string "schemas" -> fname f = "schemas").
  { intros f Hf Hl. rewrite <- Hg in Hl.
    rewrite (folded_tag_unique fs f g Hnd Hf Hgin Hl). exact Hg. }
  assert (Hcase : forall f, In f fs ->
            (fname f = "schemas" <-> equalFold "schemas" k = true) ->
            routed get k (Some f)).
  { intros f Hf Hiff. simpl.
    rewrite Forall_forall in Hall.
    specialize (Hall f (proj2 (list_elem_of_In _ _) Hf)).
    destruct (equalFold "schemas" k) eqn:Hk.
    - destruct Hiff as [_ Hn]. rewrite (Hn eq_refl) in Hall. exact Hall.
    - destruct (String.eqb_spec (fname f) "schemas") as [Hn|Hn]; [|exact Hall].
      destruct Hiff as [Hy _]. discriminate (Hy Hn). }
  unfold find_field.
  destruct (find (fun f => String.eqb (fname f) k) fs) as [f|] eqn:Hexact.
  - apply find_some in Hexact as [Hf Hname]. apply String.eqb_eq in Hname.
    apply Hcase; [exact Hf|]. split.
    + intros Hn. rewrite <- Hname, Hn. apply equalFold_refl.
    + intros Hk. apply equalFold_eq in Hk. apply Hsch; [exact Hf|].
      rewrite Hname. symmetry. exact Hk.
  - destruct (find (fun f => equalFold (fname f) k) fs) as [f|] eqn:Hfold.
    + apply find_some in Hfold as [Hf Hname]. apply equalFold_eq in Hname.
      apply Hcase; [exact Hf|]. split.
      * intros Hn. apply equalFold_eq. rewrite <- Hname, Hn. reflexivity.
      * intros Hk. apply equalFold_eq in Hk. apply Hsch; [exact Hf|].
        rewrite Hname. symmetry. exact Hk.
    + simpl. pose proof (find_none _ _ Hfold g Hgin) as Hno. simpl in Hno.
      rewrite Hg in Hno. exact Hno.
Qed.

(** When the walk over the members is not stopped, the schema list of the
    struct is the one the members named schemas leave, whatever the struct. *)
Lemma dec_members_schemas {T} (get : T -> slice string) (fs : list (field T)) :
  well_routed get fs ->
  forall ms v, dabort (dec_members fs ms v) = None ->
    get (dval (dec_members fs ms v)) = schemas_run ms (get v).
Proof.
  intros Hwr ms. induction ms as [|[k j] ms IH]; intros v; [reflexivity|].
  pose proof (find_field_routed get fs k Hwr) as Hr.
  unfold schemas_run. cbn [dec_members fold_left fst snd]. fold (schemas_run ms).
  destruct (find_field fs k) as [f|]; cbn [routed] in Hr.
  - cbv zeta. destruct (dabort (run_field f j v)) eqn:Hstop.
    + intros Hab. rewrite Hstop in Hab. discriminate.
    + cbn [dabort dval]. intros Hab. rewrite (IH _ Hab).
      destruct (equalFold "schemas" k); rewrite Hr; reflexivity.
  - rewrite Hr. apply IH.
Qed.

Lemma decode_schemas `{World} {S} (ss : shape S) (body : bytes) (s : S) :
  well_routed (sh_schemas ss) (sh_fields ss) ->
  sh_schemas ss (sh_zero ss) = None ->
  decode ss body = (s, None) ->
  exists j, json_scan body = inr j /\ sh_schemas ss s = schemas_of_doc j.
Proof.
  intros Hwr Hz. unfold decode, Unmarshal.
  destruct (json_scan body) as [e|j]; [discriminate|].
  intros Hd. exists j. split; [reflexivity|].
  injection Hd as Hs Herr. subst s.
  destruct j; simpl in *; try discriminate; try exact Hz.
  rewrite <- Hz. apply dec_members_schemas; [exact Hwr|].
  unfold final_error in Herr.
  destruct (dabort (dec_members (sh_fields ss) members (sh_zero ss))); [discriminate|reflexivity].
Qed.

Ltac routed_fields :=
  split;
  [ cbn; repeat (constructor; [cbn; intros; reflexivity|]); constructor
  | split; [refine (bool_decide_unpack _ _); vm_compute; exact I | simpl; tauto] ].

Lemma UsersShape_lawful `{World} : lawful UsersShape.
Proof. split; [routed_fields | reflexivity]. Qed.

Lemma UserShape_lawful `{World} : lawful UserShape.
Proof. split; [routed_fields | reflexivity]. Qed.

Lemma UserErrorShape_lawful : lawful UserErrorShape.
Proof. split; [routed_fields | reflexivity]. Qed.

Lemma GroupsShape_lawful `{World} : lawful GroupsShape.
Proof. split; [routed_fields | reflexivity]. Qed.

Lemma GroupShape_lawful `{World} : lawful GroupShape.
Proof. split; [routed_fields | reflexivity]. Qed.

Lemma GroupErrorShape_lawful : lawful GroupErrorShape.
Proof. split; [routed_fields | reflexivity]. Qed.

(** ** The transport *)

Section Transport.
Context `{World}.
Variable c : Client.t.

Lemma doRequest_sent (req : Request) :
  fst (Client.doRequest c req) = [handed_over c req].
Proof. reflexivity. Qed.

Lemma doRequest_2xx (status : Z) (body : bytes) (req : Request) :
  http_Client_Do (Client.HttpClient c) (handed_over c req) = Done (inr (mkResponse status (inr body))) ->
  is_2xx status ->
  snd (Client.doRequest c req) = Done (Some body, None).
Proof.
  intros Hdo [Hlo Hhi]. unfold Client.doRequest. cbn [snd].
  change (set_Headers _ _) with (handed_over c req). rewrite Hdo. cbn [Body StatusCode].
  replace (status >=? 200) with true by (symmetry; apply Z.geb_le; lia).
  replace (status <=? 299) with true by (symmetry; apply Z.leb_le; lia).
  reflexivity.
Qed.

Lemma doRequest_not_2xx (status : Z) (body : bytes) (req : Request) :
  http_Client_Do (Client.HttpClient c) (handed_over c req) = Done (inr (mkResponse status (inr body))) ->
  ~ is_2xx status ->
  snd (Client.doRequest c req) = Done (None, Some (status_error status body)).
Proof.
  intros Hdo Hout. unfold Client.doRequest. cbn [snd].
  change (set_Headers _ _) with (handed_over c req). rewrite Hdo. cbn [Body StatusCode].
  destruct ((status >=? 200) && (status <=? 299)) eqn:Hin; [|reflexivity].
  exfalso. apply Hout. apply andb_true_iff in Hin as [Hlo Hhi].
  apply Z.geb_le in Hlo. apply Z.leb_le in Hhi. split; assumption.
Qed.

Lemma doRequest_fails (err : error) (req : Request) :
  http_Client_Do (Client.HttpClient c) (handed_over c req) = Done (inl err)
  \/ (exists status,
        http_Client_Do (Client.HttpClient c) (handed_over c req) = Done (inr (mkResponse status (inl err)))) ->
  snd (Client.doRequest c req) = Done (None, Some err).
Proof.
  intros Hf. unfold Client.doRequest. cbn [snd].
  change (set_Headers _ _) with (handed_over c req).
  destruct Hf as [Hf|[status Hf]]; rewrite Hf; reflexivity.
Qed.

Lemma doRequest_split (req : Request) :
  Client.doRequest c req = ([handed_over c req], snd (Client.doRequest c req)).
Proof. reflexivity. Qed.

(** ** Every reading operation is a request followed by the block *)

Variable ctx : Context.

Ltac bridge op :=
  unfold request_then_parse, op;
  match goal with
  | |- context [NewRequest ?m ?u ?b] => destruct (NewRequest m u b) as [err|req]
  end;
  [left; eexists; reflexivity | right; do 2 eexists; reflexivity].

Lemma UserList_runs : request_then_parse c UsersShape UserErrorShape (Client.UserList c ctx).
Proof. bridge @Client.UserList. Qed.

Lemma GetUserByID_runs userID :
  request_then_parse c UserShape UserErrorShape (Client.GetUserByID c ctx userID).
Proof. bridge @Client.GetUserByID. Qed.

Lemma GetUserByName_runs userName :
  request_then_parse c UserShape UserErrorShape (Client.GetUserByName c ctx userName).
Proof. bridge @Client.GetUserByName. Qed.

Lemma CreateUser_runs user :
  request_then_parse c UserShape UserErrorShape (Client.CreateUser c ctx user).
Proof. bridge @Client.CreateUser. Qed.

Lemma UpdateUser_runs userID user :
  request_then_parse c UserShape UserErrorShape (Client.UpdateUser c ctx userID user).
Proof. bridge @Client.UpdateUser. Qed.

Lemma ChangeUserType_runs userID userType :
  request_then_parse c UserShape UserErrorShape (Client.ChangeUserType c ctx userID userType).
Proof. bridge @Client.ChangeUserType. Qed.

Lemma CreateGroup_runs groupName :
  request_then_parse c GroupShape GroupErrorShape (Client.CreateGroup c ctx groupName).
Proof. bridge @Client.CreateGroup. Qed.

Lemma UpdateGroup_runs groupName :
  request_then_parse c GroupShape GroupErrorShape (Client.UpdateGroup c ctx groupName).
Proof. bridge @Client.UpdateGroup. Qed.

Lemma GroupList_runs : request_then_parse c GroupsShape GroupErrorShape (Client.GroupList c ctx).
Proof. bridge @Client.GroupList. Qed.

Lemma GetGroupByID_runs groupID :
  request_then_parse c GroupsShape GroupErrorShape (Client.GetGroupByID c ctx groupID).
Proof. bridge @Client.GetGroupByID. Qed.

Lemma GetGroupByName_runs groupName :
  request_then_parse c GroupsShape GroupErrorShape (Client.GetGroupByName c ctx groupName).
Proof. bridge @Client.GetGroupByName. Qed.

Lemma GroupMemberOps_runs groupID userID operation :
  request_then_parse c GroupShape GroupErrorShape
    (Client.GroupMemberOps c ctx groupID userID operation).
Proof. bridge @Client.GroupMemberOps. Qed.

Lemma AddUserToGroup_runs groupID userID :
  request_then_parse c GroupShape GroupErrorShape (Client.AddUserToGroup c ctx groupID userID).
Proof. apply GroupMemberOps_runs. Qed.

Lemma RemoveUserToGroup_runs groupID userID :
  request_then_parse c GroupShape GroupErrorShape (Client.RemoveUserToGroup c ctx groupID userID).
Proof. apply GroupMemberOps_runs. Qed.

Lemma DeleteUser_runs userID : request_then_return c (Client.DeleteUser c ctx userID).
Proof.
  unfold request_then_return, Client.DeleteUser.
  destruct (NewRequest "DELETE" _ None) as [err|req]; [left; eexists; reflexivity|].
  right. exists req. rewrite doRequest_split.
  destruct (snd (Client.doRequest c req)) as [[b [e|]]|msg]; reflexivity.
Qed.

Lemma DeleteGroup_runs groupID : request_then_return c (Client.DeleteGroup c ctx groupID).
Proof.
  unfold request_then_return, Client.DeleteGroup.
  destruct (NewRequest "DELETE" _ None) as [err|req]; [left; eexists; reflexivity|].
  right. exists req. rewrite doRequest_split.
  destruct (snd (Client.doRequest c req)) as [[b [e|]]|msg]; reflexivity.
Qed.

End Transport.

(** ** The reply-handling block *)

Section Replies.
Context `{World}.
Context {S E : Type}.
Variables (ss : shape S) (es : shape E).
Hypothesis ss_lawful : lawful ss.
Hypothesis es_lawful : lawful es.

(** Both shapes take their schema list from the same members of the same
    document, so the two lists are equal. *)
Lemma same_schemas (body : bytes) (s : S) (e : E) :
  decode ss body = (s, None) -> decode es body = (e, None) ->
  sh_schemas es e = sh_schemas ss s.
Proof.
  intros Hs He.
  destruct ss_lawful as [Hws Hzs], es_lawful as [Hwe Hze].
  destruct (decode_schemas ss body s Hws Hzs Hs) as (j & Hj & ->).
  destruct (decode_schemas es body e Hwe Hze He) as (j' & Hj' & ->).
  rewrite Hj in Hj'. injection Hj' as <-. reflexivity.
Qed.

Lemma parse_reply_detects (sent0 : list Request) (lines : list string) (body : bytes)
    (s : S) (x : string) :
  decode ss body = (s, None) ->
  elems (sh_schemas ss s) !! 0%nat = Some x ->
  (x <> ErrorSchema ->
   outcome (parse_reply ss es lines (sent0, Done (Some body, None))) = Done (s, sh_zero es, None)) /\
  (x = ErrorSchema -> forall e, decode es body = (e, None) ->
   outcome (parse_reply ss es lines (sent0, Done (Some body, None))) = Done (s, e, None)
   /\ e <> sh_zero es).
Proof.
  intros Hdec Hfirst. unfold parse_reply. change (bytes_of (Some body)) with body.
  pose proof Hdec as Hdec'. unfold decode in Hdec'. rewrite Hdec', Hfirst.
  split; intros Hx.
  - destruct (String.eqb_spec x ErrorSchema); [contradiction|reflexivity].
  - subst x. rewrite String.eqb_refl. intros e Hde.
    pose proof Hde as Hde'. unfold decode in Hde'. rewrite Hde'.
    split; [reflexivity|]. intros ->.
    pose proof (same_schemas body s (sh_zero es) Hdec Hde) as Hsame.
    destruct es_lawful as [_ Hze]. rewrite Hze in Hsame.
    rewrite <- Hsame in Hfirst. discriminate.
Qed.

Lemma parse_reply_panics (sent0 : list Request) (lines : list string) (body : bytes) (s : S) :
  decode ss body = (s, None) ->
  elems (sh_schemas ss s) = [] ->
  outcome (parse_reply ss es lines (sent0, Done (Some body, None))) = Panic index_out_of_range.
Proof.
  intros Hdec Hempty. unfold parse_reply. change (bytes_of (Some body)) with body.
  unfold decode in Hdec. rewrite Hdec, Hempty. reflexivity.
Qed.

Variable c : Client.t.
Variable t : Trace (S * E * option error).
Hypothesis t_runs : request_then_parse c ss es t.

(** The request that left is the one the operation built. *)
Lemma sole_request (req : Request) :
  sent t = [req] ->
  exists req0 lines, t = parse_reply ss es lines (Client.doRequest c req0)
    /\ req = handed_over c req0.
Proof.
  intros Hsent. destruct t_runs as [[err ->]|(req0 & lines & ->)]; [discriminate Hsent|].
  exists req0, lines. split; [reflexivity|].
  rewrite doRequest_split in Hsent. unfold parse_reply in Hsent.
  destruct (snd (Client.doRequest c req0)) as [[resp [err|]]|msg]; cbn in Hsent.
  - congruence.
  - destruct (Unmarshal (sh_fields ss) (sh_name ss) (bytes_of resp) (sh_zero ss))
      as [s [err|]]; cbn in Hsent; [congruence|].
    destruct (elems (sh_schemas ss s) !! 0%nat) as [x|]; cbn in Hsent; [|congruence].
    destruct (String.eqb x ErrorSchema); cbn in Hsent; [|congruence].
    destruct (Unmarshal (sh_fields es) (sh_name es) (bytes_of resp) (sh_zero es))
      as [e [err|]]; cbn in Hsent; congruence.
  - congruence.
Qed.

(** The request a reply was given to is the one the operation built. *)
Lemma replied_request (status : Z) (body : bytes) :
  replied c t status body ->
  exists req0 lines, t = parse_reply ss es lines (Client.doRequest c req0)
    /\ http_Client_Do (Client.HttpClient c) (handed_over c req0)
       = Done (inr (mkResponse status (inr body))).
Proof.
  intros (req & Hsent & Hdo). destruct t_runs as [[err ->]|(req0 & lines & ->)].
  - discriminate Hsent.
  - exists req0, lines. split; [reflexivity|].
    rewrite doRequest_split in Hsent. unfold parse_reply in Hsent.
    assert (Hreq : req = handed_over c req0).
    { destruct (snd (Client.doRequest c req0)) as [[resp [err|]]|msg]; cbn in Hsent.
      - congruence.
      - destruct (Unmarshal (sh_fields ss) (sh_name ss) (bytes_of resp) (sh_zero ss))
          as [s [err|]]; cbn in Hsent; [congruence|].
        destruct (elems (sh_schemas ss s) !! 0%nat) as [x|]; cbn in Hsent; [|congruence].
        destruct (String.eqb x ErrorSchema); cbn in Hsent; [|congruence].
        destruct (Unmarshal (sh_fields es) (sh_name es) (bytes_of resp) (sh_zero es))
          as [e [err|]]; cbn in Hsent; congruence.
      - congruence. }
    rewrite <- Hreq. exact Hdo.
Qed.

Lemma reading_detects : detects ss es c t.
Proof.
  intros status body Hrep Hok s x Hdec Hfirst.
  destruct (replied_request status body Hrep) as (req0 & lines & -> & Hdo).
  rewrite doRequest_split, (doRequest_2xx c status body req0 Hdo Hok).
  apply parse_reply_detects; assumption.
Qed.

Lemma reading_panics : panics_on_empty ss c t.
Proof.
  intros status body Hrep Hok s Hdec Hempty.
  destruct (replied_request status body Hrep) as (req0 & lines & -> & Hdo).
  rewrite doRequest_split, (doRequest_2xx c status body req0 Hdo Hok).
  apply (parse_reply_panics _ _ body s); assumption.
Qed.

Lemma reading_short_circuits : short_circuits ss es c t.
Proof.
  intros status body Hrep Hout.
  destruct (replied_request status body Hrep) as (req0 & lines & -> & Hdo).
  rewrite doRequest_split, (doRequest_not_2xx c status body req0 Hdo Hout).
  reflexivity.
Qed.

Lemma reading_stops_on_unread : stops_on_unread ss es c t.
Proof.
  intros status err (req & Hsent & Hdo).
  destruct (sole_request req Hsent) as (req0 & lines & -> & ->).
  rewrite doRequest_split, (doRequest_fails c err req0 (or_intror (ex_intro _ status Hdo))).
  reflexivity.
Qed.

End Replies.

(** A document without members decodes into the zero value. *)
Lemma empty_object_decodes `{World} {S} (ss : shape S) (body : bytes) :
  json_scan body = inr (JObject []) -> decode ss body = (sh_zero ss, None).
Proof. intros Hscan. unfold decode, Unmarshal. rewrite Hscan. reflexivity. Qed.

(** The outcome of a delete is the error of [doRequest], nothing else. *)
Lemma delete_outcome `{World} (c : Client.t) (t : Trace (option error)) (req : Request) :
  request_then_return c t -> sent t = [req] ->
  exists req0, req = handed_over c req0
    /\ outcome t = error_of (snd (Client.doRequest c req0)).
Proof.
  intros [[err ->]|[req0 ->]] Hsent; [discriminate Hsent|].
  exists req0. cbn in Hsent. split; [congruence|reflexivity].
Qed.

Lemma status_200_ok : is_2xx 200.
Proof. unfold is_2xx. lia. Qed.

Lemma status_404_not_ok : ~ is_2xx 404.
Proof. unfold is_2xx. lia. Qed.

Create HintDb scim.
#[local] Hint Resolve UsersShape_lawful UserShape_lawful UserErrorShape_lawful
  GroupsShape_lawful GroupShape_lawful GroupErrorShape_lawful
  UserList_runs GetUserByID_runs GetUserByName_runs CreateUser_runs UpdateUser_runs
  ChangeUserType_runs CreateGroup_runs UpdateGroup_runs GroupList_runs GetGroupByID_runs
  GetGroupByName_runs GroupMemberOps_runs AddUserToGroup_runs RemoveUserToGroup_runs
  DeleteUser_runs DeleteGroup_runs : scim.

(** ** Error detection *)

(** C1.  For each of the fourteen operations that read a reply (all but
    the two deletes): when the exchange succeeds with a 2xx status, the body
    decodes into the success shape and that shape's schema list has a first
    element [x], then (a) if
    [x] is not the error schema the operation returns the success shape, the
    zero error shape and a nil error, and (b) if [x] is the error schema and
    the body also decodes into the error shape, the operation returns both
    decoded shapes and a nil error, and the error shape is not the zero
    value. *)
Theorem error_schema_detection `{World} (c : Client.t) (ctx : Context) :
  detects UsersShape UserErrorShape c (Client.UserList c ctx)
  /\ (forall userID,
        detects UserShape UserErrorShape c (Client.GetUserByID c ctx userID))
  /\ (forall userName,
        detects UserShape UserErrorShape c (Client.GetUserByName c ctx userName))
  /\ (forall user,
        detects UserShape UserErrorShape c (Client.CreateUser c ctx user))
  /\ (forall userID user,
        detects UserShape UserErrorShape c (Client.UpdateUser c ctx userID user))
  /\ (forall userID userType,
        detects UserShape UserErrorShape c (Client.ChangeUserType c ctx userID userType))
  /\ (forall groupName,
        detects GroupShape GroupErrorShape c (Client.CreateGroup c ctx groupName))
  /\ (forall groupName,
        detects GroupShape GroupErrorShape c (Client.UpdateGroup c ctx groupName))
  /\ detects GroupsShape GroupErrorShape c (Client.GroupList c ctx)
  /\ (forall groupID,
        detects GroupsShape GroupErrorShape c (Client.GetGroupByID c ctx groupID))
  /\ (forall groupName,
        detects GroupsShape GroupErrorShape c (Client.GetGroupByName c ctx groupName))
  /\ (forall groupID userID operation,
        detects GroupShape GroupErrorShape c (Client.GroupMemberOps c ctx groupID userID operation))
  /\ (forall groupID userID,
        detects GroupShape GroupErrorShape c (Client.AddUserToGroup c ctx groupID userID))
  /\ (forall groupID userID,
        detects GroupShape GroupErrorShape c (Client.RemoveUserToGroup c ctx groupID userID)).
Proof.
  repeat apply conj; intros; eapply reading_detects; eauto with scim.
Qed.

(** The error document makes [GetUserByID] return a filled error shape, the
    user document makes it return the zero one; the error is nil both times. *)
Lemma error_schema_detection_witness :
  (outcome (Client.GetUserByID (H:=error_world) token_client Background "42")
     = Done (error_as_user, error_as_error, None)
   /\ error_as_error <> UserErrorResponse.zero)
  /\ outcome (Client.GetUserByID (H:=user_world) token_client Background "42")
     = Done (user_as_user, UserErrorResponse.zero, None).
Proof.
  split.
  - destruct (error_schema_detection (H:=error_world) token_client Background)
      as (_ & Hid & _).
    refine (proj2 (Hid "42" 200 error_body _ status_200_ok error_as_user ErrorSchema _ _)
              eq_refl error_as_error _).
    + eexists. split; [vm_compute; reflexivity | reflexivity].
    + vm_compute. reflexivity.
    + reflexivity.
    + vm_compute. reflexivity.
  - destruct (error_schema_detection (H:=user_world) token_client Background)
      as (_ & Hid & _).
    refine (proj1 (Hid "42" 200 user_body _ status_200_ok user_as_user UserSchema _ _) _).
    + eexists. split; [vm_compute; reflexivity | reflexivity].
    + vm_compute. reflexivity.
    + reflexivity.
    + intros Hx. vm_compute in Hx. discriminate Hx.
Defined.

(** ** The index panic *)

(** C2.  For each of the fourteen operations that read a reply (all but
    the two deletes): when the exchange succeeds
    with a 2xx status and the body decodes without error into a success shape
    whose schema list is empty, the operation panics with an index out of
    range; no error value is returned.  The first element is read whenever
    the decode succeeded, with no test of the length. *)
Theorem empty_schemas_panic `{World} (c : Client.t) (ctx : Context) :
  panics_on_empty UsersShape c (Client.UserList c ctx)
  /\ (forall userID,
        panics_on_empty UserShape c (Client.GetUserByID c ctx userID))
  /\ (forall userName,
        panics_on_empty UserShape c (Client.GetUserByName c ctx userName))
  /\ (forall user,
        panics_on_empty UserShape c (Client.CreateUser c ctx user))
  /\ (forall userID user,
        panics_on_empty UserShape c (Client.UpdateUser c ctx userID user))
  /\ (forall userID userType,
        panics_on_empty UserShape c (Client.ChangeUserType c ctx userID userType))
  /\ (forall groupName,
        panics_on_empty GroupShape c (Client.CreateGroup c ctx groupName))
  /\ (forall groupName,
        panics_on_empty GroupShape c (Client.UpdateGroup c ctx groupName))
  /\ panics_on_empty GroupsShape c (Client.GroupList c ctx)
  /\ (forall groupID,
        panics_on_empty GroupsShape c (Client.GetGroupByID c ctx groupID))
  /\ (forall groupName,
        panics_on_empty GroupsShape c (Client.GetGroupByName c ctx groupName))
  /\ (forall groupID userID operation,
        panics_on_empty GroupShape c (Client.GroupMemberOps c ctx groupID userID operation))
  /\ (forall groupID userID,
        panics_on_empty GroupShape c (Client.AddUserToGroup c ctx groupID userID))
  /\ (forall groupID userID,
        panics_on_empty GroupShape c (Client.RemoveUserToGroup c ctx groupID userID)).
Proof.
  repeat apply conj; intros; eapply reading_panics; eauto with scim.
Qed.

(** The body of two braces, sent with status 200, makes [GetUserByID] and
    [GetGroupByID] panic. *)
Lemma empty_schemas_panic_witness :
  outcome (Client.GetUserByID (H:=empty_world) token_client Background "42")
    = Panic index_out_of_range
  /\ outcome (Client.GetGroupByID (H:=empty_world) token_client Background "7")
    = Panic index_out_of_range.
Proof.
  destruct (empty_schemas_panic (H:=empty_world) token_client Background)
    as (_ & Hu & _ & _ & _ & _ & _ & _ & _ & Hg & _).
  split.
  - refine (Hu "42" 200 (sq_to_dq "{}") _ status_200_ok UserResponse.zero _ eq_refl).
    + eexists. split; [vm_compute; reflexivity | reflexivity].
    + apply (empty_object_decodes (H:=empty_world)). reflexivity.
  - refine (Hg "7" 200 (sq_to_dq "{}") _ status_200_ok GroupsResponse.zero _ eq_refl).
    + eexists. split; [vm_compute; reflexivity | reflexivity].
    + apply (empty_object_decodes (H:=empty_world)). reflexivity.
Defined.

(** ** Replies outside 200..299 *)

(** C4.  [doRequest] reads the body of the reply to its end before it
    looks at the status.  When the server answers with a
    status outside 200..299 and the body was read, [doRequest] returns a nil
    body and the error whose message is the text error body, the raw body, a
    newline, the text status Code and the status in decimal.  When reading
    the body fails, [doRequest] returns a nil body and the error of the read,
    whatever the status.  In both cases every operation returns the error of
    [doRequest], the reading operations together with the zero success shape
    and the zero error shape. *)
Theorem non_2xx_short_circuits `{World} (c : Client.t) (ctx : Context) :
  (forall req status body,
      http_Client_Do (Client.HttpClient c) (handed_over c req)
        = Done (inr (mkResponse status (inr body))) ->
      ~ is_2xx status ->
      Client.doRequest c req
      = ([handed_over c req], Done (None, Some (status_error status body))))
  /\ (forall status body,
      Error (status_error status body)
      = "error body: " +:+ body +:+ newline +:+ "status Code: " +:+ pretty status)
  /\ (forall req status err,
      http_Client_Do (Client.HttpClient c) (handed_over c req)
        = Done (inr (mkResponse status (inl err))) ->
      Client.doRequest c req = ([handed_over c req], Done (None, Some err)))
  /\ (short_circuits UsersShape UserErrorShape c (Client.UserList c ctx)
      /\ stops_on_unread UsersShape UserErrorShape c (Client.UserList c ctx))
  /\ (forall userID,
        short_circuits UserShape UserErrorShape c (Client.GetUserByID c ctx userID)
        /\ stops_on_unread UserShape UserErrorShape c (Client.GetUserByID c ctx userID))
  /\ (forall userName,
        short_circuits UserShape UserErrorShape c (Client.GetUserByName c ctx userName)
        /\ stops_on_unread UserShape UserErrorShape c (Client.GetUserByName c ctx userName))
  /\ (forall user,
        short_circuits UserShape UserErrorShape c (Client.CreateUser c ctx user)
        /\ stops_on_unread UserShape UserErrorShape c (Client.CreateUser c ctx user))
  /\ (forall userID user,
        short_circuits UserShape UserErrorShape c (Client.UpdateUser c ctx userID user)
        /\ stops_on_unread UserShape UserErrorShape c (Client.UpdateUser c ctx userID user))
  /\ (forall userID userType,
        short_circuits UserShape UserErrorShape c (Client.ChangeUserType c ctx userID userType)
        /\ stops_on_unread UserShape UserErrorShape c
             (Client.ChangeUserType c ctx userID userType))
  /\ (forall groupName,
        short_circuits GroupShape GroupErrorShape c (Client.CreateGroup c ctx groupName)
        /\ stops_on_unread GroupShape GroupErrorShape c (Client.CreateGroup c ctx groupName))
  /\ (forall groupName,
        short_circuits GroupShape GroupErrorShape c (Client.UpdateGroup c ctx groupName)
        /\ stops_on_unread GroupShape GroupErrorShape c (Client.UpdateGroup c ctx groupName))
  /\ (short_circuits GroupsShape GroupErrorShape c (Client.GroupList c ctx)
      /\ stops_on_unread GroupsShape GroupErrorShape c (Client.GroupList c ctx))
  /\ (forall groupID,
        short_circuits GroupsShape GroupErrorShape c (Client.GetGroupByID c ctx groupID)
        /\ stops_on_unread GroupsShape GroupErrorShape c (Client.GetGroupByID c ctx groupID))
  /\ (forall groupName,
        short_circuits GroupsShape GroupErrorShape c (Client.GetGroupByName c ctx groupName)
        /\ stops_on_unread GroupsShape GroupErrorShape c
             (Client.GetGroupByName c ctx groupName))
  /\ (forall groupID userID operation,
        short_circuits GroupShape GroupErrorShape c
          (Client.GroupMemberOps c ctx groupID userID operation)
        /\ stops_on_unread GroupShape GroupErrorShape c
             (Client.GroupMemberOps c ctx groupID userID operation))
  /\ (forall groupID userID,
        short_circuits GroupShape GroupErrorShape c (Client.AddUserToGroup c ctx groupID userID)
        /\ stops_on_unread GroupShape GroupErrorShape c
             (Client.AddUserToGroup c ctx groupID userID))
  /\ (forall groupID userID,
        short_circuits GroupShape GroupErrorShape c
          (Client.RemoveUserToGroup c ctx groupID userID)
        /\ stops_on_unread GroupShape GroupErrorShape c
             (Client.RemoveUserToGroup c ctx groupID userID))
  /\ (forall userID status body,
        replied c (Client.DeleteUser c ctx userID) status body -> ~ is_2xx status ->
        outcome (Client.DeleteUser c ctx userID) = Done (Some (status_error status body)))
  /\ (forall userID status err,
        unread c (Client.DeleteUser c ctx userID) status err ->
        outcome (Client.DeleteUser c ctx userID) = Done (Some err))
  /\ (forall groupID status body,
        replied c (Client.DeleteGroup c ctx groupID) status body -> ~ is_2xx status ->
        outcome (Client.DeleteGroup c ctx groupID) = Done (Some (status_error status body)))
  /\ (forall groupID status err,
        unread c (Client.DeleteGroup c ctx groupID) status err ->
        outcome (Client.DeleteGroup c ctx groupID) = Done (Some err)).
Proof.
  assert (Hdel : forall t status body, request_then_return c t ->
            replied c t status body -> ~ is_2xx status ->
            outcome t = Done (Some (status_error status body))).
  { intros t status body Hruns (req & Hsent & Hdo) Hout.
    destruct (delete_outcome c t req Hruns Hsent) as (req0 & -> & ->).
    rewrite (doRequest_not_2xx c status body req0 Hdo Hout). reflexivity. }
  assert (Hcut : forall t status err, request_then_return c t ->
            unread c t status err -> outcome t = Done (Some err)).
  { intros t status err Hruns (req & Hsent & Hdo).
    destruct (delete_outcome c t req Hruns Hsent) as (req0 & -> & ->).
    rewrite (doRequest_fails c err req0 (or_intror (ex_intro _ status Hdo))). reflexivity. }
  split.
  { intros req status body Hdo Hout.
    rewrite doRequest_split, (doRequest_not_2xx c status body req Hdo Hout). reflexivity. }
  split; [reflexivity|].
  split.
  { intros req status err Hdo.
    rewrite doRequest_split, (doRequest_fails c err req (or_intror (ex_intro _ status Hdo))).
    reflexivity. }
  repeat apply conj; intros; try split;
    first [ eapply reading_short_circuits; eauto with scim
          | eapply reading_stops_on_unread; eauto with scim
          | eapply Hdel; eauto with scim
          | eapply Hcut; eauto with scim ].
Qed.

(** Status 404 with a plain-text body, and status 500 with a body that
    breaks off: [GetUserByID] and [DeleteUser]. *)
Lemma non_2xx_short_circuits_witness :
  outcome (Client.GetUserByID (H:=not_found_world) token_client Background "42")
    = Done (UserResponse.zero, UserErrorResponse.zero,
            Some (errorString ("error body: no such user" +:+ newline +:+ "status Code: 404")))
  /\ outcome (Client.DeleteUser (H:=not_found_world) token_client Background "42")
    = Done (Some (errorString ("error body: no such user" +:+ newline +:+ "status Code: 404")))
  /\ outcome (Client.GetUserByID (H:=truncated_world) token_client Background "42")
    = Done (UserResponse.zero, UserErrorResponse.zero, Some unexpected_EOF).
Proof.
  split; [|split].
  - destruct (non_2xx_short_circuits (H:=not_found_world) token_client Background)
      as (_ & _ & _ & _ & Hget & _).
    refine (proj1 (Hget "42") 404 "no such user" _ status_404_not_ok).
    eexists. split; [vm_compute; reflexivity | reflexivity].
  - destruct (non_2xx_short_circuits (H:=not_found_world) token_client Background)
      as (_ & _ & _ & Hrest).
    do 14 (destruct Hrest as [_ Hrest]). destruct Hrest as [Hdel _].
    refine (Hdel "42" 404 "no such user" _ status_404_not_ok).
    eexists. split; [vm_compute; reflexivity | reflexivity].
  - destruct (non_2xx_short_circuits (H:=truncated_world) token_client Background)
      as (_ & _ & _ & _ & Hget & _).
    refine (proj2 (Hget "42") 500 unexpected_EOF _).
    eexists. split; [vm_compute; reflexivity | reflexivity].
Defined.

(** C4 without the condition on the body.  A reply with status 500,
    outside 200..299, whose body cannot be read: [doRequest] returns the error
    of the read, whose message holds neither the status nor a body and is no
    status error for any body.  [GetUserByID] returns that error. *)
Lemma non_2xx_unreadable_body_counterexample :
  http_Client_Do (H:=truncated_world) (Client.HttpClient token_client)
      (handed_over token_client (mkRequest "GET" (service_url "Users/42" EmptyString) ∅ None))
    = Done (inr (mkResponse 500 (inl unexpected_EOF)))
  /\ ~ is_2xx 500
  /\ snd (Client.doRequest (H:=truncated_world) token_client
            (mkRequest "GET" (service_url "Users/42" EmptyString) ∅ None))
     = Done (None, Some unexpected_EOF)
  /\ Error unexpected_EOF = "unexpected EOF"
  /\ contains (Error unexpected_EOF) (pretty 500) = false
  /\ (forall body, unexpected_EOF <> status_error 500 body)
  /\ outcome (Client.GetUserByID (H:=truncated_world) token_client Background "42")
     = Done (UserResponse.zero, UserErrorResponse.zero, Some unexpected_EOF).
Proof.
  split; [reflexivity|]. split; [unfold is_2xx; lia|]. split; [reflexivity|].
  split; [reflexivity|]. split; [vm_compute; reflexivity|].
  split; [intros body Heq; discriminate Heq | vm_compute; reflexivity].
Qed.

(** ** Default filling *)

(** C3.  For [User], [Group], [UserTypeBody] and [UpdateGroup]:
    [fill_defaults] applied twice is [fill_defaults] applied once; a schema
    list that is not empty is left as it is; the schema entries given by the
    caller stay where they are, at the head of the resulting list; every other
    field keeps its value, and so does a time zone that is not empty. *)
Theorem fill_defaults_idempotent_conservative :
  (forall u : User.t,
      User.fill_defaults (User.fill_defaults u) = User.fill_defaults u
      /\ (len (User.Schemas u) <> 0%nat ->
          User.Schemas (User.fill_defaults u) = User.Schemas u)
      /\ elems (User.Schemas u) `prefix_of` elems (User.Schemas (User.fill_defaults u))
      /\ (User.Timezone u <> EmptyString ->
          User.Timezone (User.fill_defaults u) = User.Timezone u)
      /\ User.UserName (User.fill_defaults u) = User.UserName u
      /\ User.Name (User.fill_defaults u) = User.Name u
      /\ User.Emails (User.fill_defaults u) = User.Emails u
      /\ User.Active (User.fill_defaults u) = User.Active u)
  /\ (forall g : Group.t,
      Group.fill_defaults (Group.fill_defaults g) = Group.fill_defaults g
      /\ (len (Group.Schemas g) <> 0%nat ->
          Group.Schemas (Group.fill_defaults g) = Group.Schemas g)
      /\ elems (Group.Schemas g) `prefix_of` elems (Group.Schemas (Group.fill_defaults g))
      /\ Group.DisplayName (Group.fill_defaults g) = Group.DisplayName g)
  /\ (forall b : UserTypeBody.t,
      UserTypeBody.fill_defaults (UserTypeBody.fill_defaults b) = UserTypeBody.fill_defaults b
      /\ (len (UserTypeBody.Schemas b) <> 0%nat ->
          UserTypeBody.Schemas (UserTypeBody.fill_defaults b) = UserTypeBody.Schemas b)
      /\ elems (UserTypeBody.Schemas b)
           `prefix_of` elems (UserTypeBody.Schemas (UserTypeBody.fill_defaults b))
      /\ UserTypeBody.UrnIetfParamsScimSchemasExtensionNewrelic21User (UserTypeBody.fill_defaults b)
         = UserTypeBody.UrnIetfParamsScimSchemasExtensionNewrelic21User b)
  /\ (forall ug : UpdateGroup.t,
      UpdateGroup.fill_defaults (UpdateGroup.fill_defaults ug) = UpdateGroup.fill_defaults ug
      /\ (len (UpdateGroup.Schemas ug) <> 0%nat ->
          UpdateGroup.Schemas (UpdateGroup.fill_defaults ug) = UpdateGroup.Schemas ug)
      /\ elems (UpdateGroup.Schemas ug)
           `prefix_of` elems (UpdateGroup.Schemas (UpdateGroup.fill_defaults ug))
      /\ UpdateGroup.Operations (UpdateGroup.fill_defaults ug) = UpdateGroup.Operations ug).
Proof.
  split; [|split; [|split]].
  - intros [[[|s l]|] n nm em a tz]; unfold User.fill_defaults; cbn;
      destruct (String.eqb_spec tz EmptyString) as [->|Htz]; cbn;
      try (rewrite (proj2 (String.eqb_neq tz EmptyString) Htz));
      repeat split; try reflexivity; try (intros Hc; congruence);
      try apply prefix_nil.
  - intros [[[|s l]|] d]; unfold Group.fill_defaults; cbn;
      repeat split; try reflexivity; try (intros Hc; congruence); try apply prefix_nil.
  - intros [[[|s l]|] e]; unfold UserTypeBody.fill_defaults; cbn;
      repeat split; try reflexivity; try (intros Hc; congruence); try apply prefix_nil.
  - intros [[[|s l]|] o]; unfold UpdateGroup.fill_defaults; cbn;
      repeat split; try reflexivity; try (intros Hc; congruence); try apply prefix_nil.
Qed.

(** A user with a schema entry and a time zone of their own keeps both. *)
Lemma fill_defaults_idempotent_conservative_witness :
  User.Schemas
    (User.fill_defaults (User.mk (Some ["urn:example:custom"]) "jdoe" Name.zero None true "UTC"))
    = Some ["urn:example:custom"]
  /\ User.Timezone
       (User.fill_defaults (User.mk (Some ["urn:example:custom"]) "jdoe" Name.zero None true "UTC"))
     = "UTC".
Proof.
  destruct fill_defaults_idempotent_conservative as [Huser _].
  destruct (Huser (User.mk (Some ["urn:example:custom"]) "jdoe" Name.zero None true "UTC"))
    as (_ & Hschemas & _ & Htz & _).
  split.
  - apply Hschemas. cbn. discriminate.
  - apply Htz. discriminate.
Defined.

(** ** The requests *)

Lemma NewRequest_ok `{World} (method url : string) (body : option bytes) (u : URL) :
  validMethod method = true -> url_Parse url = inr u ->
  NewRequest method url body = inr (mkRequest method u ∅ body).
Proof.
  intros Hm Hu. unfold NewRequest.
  destruct (String.eqb_spec method EmptyString) as [->|_]; [discriminate Hm|].
  rewrite Hm. cbn [negb]. rewrite Hu. reflexivity.
Qed.

Lemma parse_reply_sent `{World} {S E} (ss : shape S) (es : shape E)
    (lines : list string) (r : list Request * Exec (option bytes * option error)) :
  sent (parse_reply ss es lines r) = fst r.
Proof.
  destruct r as [sent0 [[resp [err|]]|msg]]; unfold parse_reply; [reflexivity| |reflexivity].
  destruct (Unmarshal (sh_fields ss) (sh_name ss) (bytes_of resp) (sh_zero ss)) as [s [err|]];
    [reflexivity|].
  destruct (elems (sh_schemas ss s) !! 0%nat) as [x|]; [|reflexivity].
  destruct (String.eqb x ErrorSchema); [|reflexivity].
  destruct (Unmarshal (sh_fields es) (sh_name es) (bytes_of resp) (sh_zero es)) as [e [err|]];
    reflexivity.
Qed.

Lemma handed_over_fresh (c : Client.t) (method : string) (u : URL) (body : option bytes) :
  handed_over c (mkRequest method u ∅ body) = mkRequest method u (sent_headers c) body.
Proof.
  unfold handed_over, sent_headers, Header_Set. cbn [Method Url Headers ReqBody].
  change (CanonicalMIMEHeaderKey "Authorization") with "Authorization".
  change (CanonicalMIMEHeaderKey "content-type") with "Content-Type".
  reflexivity.
Qed.

Lemma parse_reply_hands_over `{World} {S E} (ss : shape S) (es : shape E) (c : Client.t)
    (lines : list string) (method : string) (u : URL) (body : option bytes) :
  sent (parse_reply ss es lines (Client.doRequest c (mkRequest method u ∅ body)))
  = [mkRequest method u (sent_headers c) body].
Proof. rewrite parse_reply_sent, doRequest_sent, handed_over_fresh. reflexivity. Qed.

Section Requests.
Context `{World}.
Variables (c : Client.t) (ctx : Context).

Ltac sent_of op ss es Hu :=
  unfold op;
  erewrite NewRequest_ok; [| reflexivity | exact Hu];
  exact (parse_reply_hands_over ss es c _ _ _ _).

Lemma UserList_sent (u : URL) :
  url_Parse (Client.BaseUrl c +:+ "Users") = inr u ->
  sent (Client.UserList c ctx) = [mkRequest "Get" u (sent_headers c) None].
Proof. intros Hu. sent_of @Client.UserList UsersShape UserErrorShape Hu. Qed.

Lemma GroupList_sent (u : URL) :
  url_Parse (Client.BaseUrl c +:+ "Groups") = inr u ->
  sent (Client.GroupList c ctx) = [mkRequest "Get" u (sent_headers c) None].
Proof. intros Hu. sent_of @Client.GroupList GroupsShape GroupErrorShape Hu. Qed.

Lemma GetUserByID_sent (userID : string) (u : URL) :
  url_Parse (Client.BaseUrl c +:+ "Users/" +:+ userID) = inr u ->
  sent (Client.GetUserByID c ctx userID) = [mkRequest "GET" u (sent_headers c) None].
Proof. intros Hu. sent_of @Client.GetUserByID UserShape UserErrorShape Hu. Qed.

Lemma GetUserByName_sent (userName : string) (u : URL) :
  url_Parse (Client.BaseUrl c +:+ "Users") = inr u ->
  sent (Client.GetUserByName c ctx userName)
  = [mkRequest "GET"
       (set_RawQuery u
          (Values_Encode (Values_Add (URL_Query u) "filter" (filter_expression "userName" userName))))
       (sent_headers c) None].
Proof. intros Hu. sent_of @Client.GetUserByName UserShape UserErrorShape Hu. Qed.

Lemma GetGroupByName_sent (groupName : string) (u : URL) :
  url_Parse (Client.BaseUrl c +:+ "Groups") = inr u ->
  sent (Client.GetGroupByName c ctx groupName)
  = [mkRequest "GET"
       (set_RawQuery u
          (Values_Encode
             (Values_Add (URL_Query u) "filter" (filter_expression "displayName" groupName))))
       (sent_headers c) None].
Proof. intros Hu. sent_of @Client.GetGroupByName GroupsShape GroupErrorShape Hu. Qed.

Lemma CreateUser_sent (user : User.t) (u : URL) :
  url_Parse (Client.BaseUrl c +:+ "Users") = inr u ->
  sent (Client.CreateUser c ctx user)
  = [mkRequest "POST" u (sent_headers c)
       (Some (json_Marshal (User.to_json (User.fill_defaults user))))].
Proof. intros Hu. sent_of @Client.CreateUser UserShape UserErrorShape Hu. Qed.

Lemma ChangeUserType_sent (userID : string) (userType : UserType) (u : URL) :
  url_Parse (Client.BaseUrl c +:+ "Users/" +:+ userID) = inr u ->
  sent (Client.ChangeUserType c ctx userID userType)
  = [mkRequest "PUT" u (sent_headers c) (Some (json_Marshal (user_type_payload userType)))].
Proof. intros Hu. sent_of @Client.ChangeUserType UserShape UserErrorShape Hu. Qed.

Lemma GroupMemberOps_sent (groupID userID operation : string) (u : URL) :
  url_Parse (Client.BaseUrl c +:+ "Groups/" +:+ groupID) = inr u ->
  sent (Client.GroupMemberOps c ctx groupID userID operation)
  = [mkRequest "PATCH" u (sent_headers c)
       (Some (json_Marshal
                (UpdateGroup.to_json
                   (UpdateGroup.mk (Some [PatchOpSchema])
                      (Some [Operation.mk operation "members" (Some [PatchValue.mk userID])])))))].
Proof. intros Hu. sent_of @Client.GroupMemberOps GroupShape GroupErrorShape Hu. Qed.

Lemma DeleteUser_sent (userID : string) (u : URL) :
  url_Parse (Client.BaseUrl c +:+ "Users/" +:+ userID) = inr u ->
  sent (Client.DeleteUser c ctx userID) = [mkRequest "DELETE" u (sent_headers c) None].
Proof.
  intros Hu. unfold Client.DeleteUser.
  erewrite NewRequest_ok; [| reflexivity | exact Hu].
  rewrite doRequest_split, handed_over_fresh.
  destruct (snd (Client.doRequest c _)) as [[b [e|]]|msg]; reflexivity.
Qed.

Lemma DeleteGroup_sent (groupID : string) (u : URL) :
  url_Parse (Client.BaseUrl c +:+ "Groups/" +:+ groupID) = inr u ->
  sent (Client.DeleteGroup c ctx groupID) = [mkRequest "DELETE" u (sent_headers c) None].
Proof.
  intros Hu. unfold Client.DeleteGroup.
  erewrite NewRequest_ok; [| reflexivity | exact Hu].
  rewrite doRequest_split, handed_over_fresh.
  destruct (snd (Client.doRequest c _)) as [[b [e|]]|msg]; reflexivity.
Qed.

End Requests.

(** ** Outgoing payloads *)

(** C5.  For a user whose schema list is empty (nil or without elements)
    and whose time zone is the empty string, and a client whose users URL
    parses, [CreateUser] hands exactly one request to the HTTP client: a POST
    whose body is the JSON text of the user with schemas set to the one-element
    list of the core User schema and timezone set to Europe/Istanbul. *)
Theorem CreateUser_default_payload `{World} (c : Client.t) (ctx : Context)
    (user : User.t) (u : URL) :
  len (User.Schemas user) = 0%nat ->
  User.Timezone user = EmptyString ->
  url_Parse (Client.BaseUrl c +:+ "Users") = inr u ->
  sent (Client.CreateUser c ctx user)
  = [mkRequest "POST" u (sent_headers c) (Some (json_Marshal (defaulted_user_payload user)))].
Proof.
  intros Hlen Htz Hu. rewrite (CreateUser_sent c ctx user u Hu).
  destruct user as [sch n nm em a tz]. cbn in Hlen, Htz. subst tz.
  destruct sch as [[|x l]|]; [reflexivity | discriminate Hlen | reflexivity].
Qed.

(** The payload of a user given with a name and one e-mail address only. *)
Lemma CreateUser_default_payload_witness :
  sent (Client.CreateUser (H:=user_world) token_client Background bare_user)
  = [mkRequest "POST" (service_url "Users" EmptyString) (sent_headers token_client)
       (Some (sq_to_dq "{'schemas':['urn:ietf:params:scim:schemas:core:2.0:User'],'userName':'jdoe','name':{'familyName':'Doe','givenName':'John'},'emails':[{'primary':true,'value':'jdoe@example.com'}],'active':true,'timezone':'Europe/Istanbul'}"))].
Proof.
  rewrite (CreateUser_default_payload (H:=user_world) token_client Background bare_user
             (service_url "Users" EmptyString) eq_refl eq_refl
             ltac:(vm_compute; reflexivity)).
  vm_compute. reflexivity.
Defined.

(** C6.  For a client whose URL for group g-456 parses, [AddUserToGroup]
    with group g-456 and user u-123 hands exactly one request to the HTTP
    client: a PATCH to that URL whose body is the patch document of the
    specification with the verb Add; [RemoveUserToGroup] hands over the same
    request with the verb Remove in the body. *)
Theorem member_patch_request `{World} (c : Client.t) (ctx : Context) (u : URL) :
  url_Parse (Client.BaseUrl c +:+ "Groups/g-456") = inr u ->
  sent (Client.AddUserToGroup c ctx "g-456" "u-123")
    = [mkRequest "PATCH" u (sent_headers c) (Some add_member_body)]
  /\ sent (Client.RemoveUserToGroup c ctx "g-456" "u-123")
    = [mkRequest "PATCH" u (sent_headers c) (Some remove_member_body)].
Proof.
  intros Hu. unfold Client.AddUserToGroup, Client.RemoveUserToGroup.
  split; rewrite (GroupMemberOps_sent c ctx "g-456" "u-123" _ u Hu); reflexivity.
Qed.

(** The two requests of the default client. *)
Lemma member_patch_request_witness :
  sent (Client.AddUserToGroup (H:=user_world) token_client Background "g-456" "u-123")
    = [mkRequest "PATCH" (service_url "Groups/g-456" EmptyString) (sent_headers token_client)
         (Some add_member_body)]
  /\ sent (Client.RemoveUserToGroup (H:=user_world) token_client Background "g-456" "u-123")
    = [mkRequest "PATCH" (service_url "Groups/g-456" EmptyString) (sent_headers token_client)
         (Some remove_member_body)].
Proof.
  exact (member_patch_request (H:=user_world) token_client Background
           (service_url "Groups/g-456" EmptyString) ltac:(vm_compute; reflexivity)).
Defined.

(** ** Filters *)

(** C7.  For every user name [s], [GetUserByName] adds to the query of its
    URL, under the key filter, the value made of userName, eq and [s] between
    double quotes, and sends a GET with that query encoded; [GetGroupByName]
    does the same with displayName and the group name.  The values for jdoe
    and Admins are the two texts of the specification. *)
Theorem filter_query_parameter `{World} (c : Client.t) (ctx : Context) :
  (forall s u, url_Parse (Client.BaseUrl c +:+ "Users") = inr u ->
     let q := Values_Add (URL_Query u) "filter" (filter_expression "userName" s) in
     sent (Client.GetUserByName c ctx s)
       = [mkRequest "GET" (set_RawQuery u (Values_Encode q)) (sent_headers c) None]
     /\ q !! "filter" = Some (default [] (URL_Query u !! "filter") ++ [filter_expression "userName" s]))
  /\ (forall g u, url_Parse (Client.BaseUrl c +:+ "Groups") = inr u ->
     let q := Values_Add (URL_Query u) "filter" (filter_expression "displayName" g) in
     sent (Client.GetGroupByName c ctx g)
       = [mkRequest "GET" (set_RawQuery u (Values_Encode q)) (sent_headers c) None]
     /\ q !! "filter" = Some (default [] (URL_Query u !! "filter") ++ [filter_expression "displayName" g]))
  /\ (forall a v, filter_expression a v = a +:+ " eq " +:+ dq +:+ v +:+ dq)
  /\ filter_expression "userName" "jdoe" = sq_to_dq "userName eq 'jdoe'"
  /\ filter_expression "displayName" "Admins" = sq_to_dq "displayName eq 'Admins'".
Proof.
  repeat apply conj; try reflexivity.
  - intros s u Hu q. split; [apply GetUserByName_sent; exact Hu|].
    unfold q, Values_Add. apply lookup_insert_eq.
  - intros g u Hu q. split; [apply GetGroupByName_sent; exact Hu|].
    unfold q, Values_Add. apply lookup_insert_eq.
Qed.

(** The lookup of jdoe with the default client: the one filter value, and
    the query as it is encoded. *)
Lemma filter_query_parameter_witness :
  sent (Client.GetUserByName (H:=user_world) token_client Background "jdoe")
    = [mkRequest "GET"
         (service_url "Users" (sq_to_dq "filter=userName+eq+%22jdoe%22"))
         (sent_headers token_client) None]
  /\ Values_Add ∅ "filter" (filter_expression "userName" "jdoe") !! "filter"
     = Some [sq_to_dq "userName eq 'jdoe'"].
Proof.
  destruct (filter_query_parameter (H:=user_world) token_client Background) as [Huser _].
  destruct (Huser "jdoe" (service_url "Users" EmptyString) ltac:(vm_compute; reflexivity))
    as [Hsent Hvalue].
  split.
  - rewrite Hsent. vm_compute. reflexivity.
  - vm_compute. reflexivity.
Defined.

(** ** Deletes *)

(** C8.  [DeleteUser] and [DeleteGroup] hand over one DELETE request for
    the URL of the single resource.  When the server answers it with a 2xx
    status they return a nil error whatever the body is; when the exchange
    fails they return its error.  Their whole trace is the same under every
    JSON scanner: the body is never decoded. *)
Theorem delete_ignores_body `{World} (c : Client.t) (ctx : Context) (id : string) :
  (forall u, url_Parse (Client.BaseUrl c +:+ "Users/" +:+ id) = inr u ->
     sent (Client.DeleteUser c ctx id) = [mkRequest "DELETE" u (sent_headers c) None])
  /\ (forall u, url_Parse (Client.BaseUrl c +:+ "Groups/" +:+ id) = inr u ->
     sent (Client.DeleteGroup c ctx id) = [mkRequest "DELETE" u (sent_headers c) None])
  /\ (forall status body, is_2xx status ->
     (replied c (Client.DeleteUser c ctx id) status body ->
      outcome (Client.DeleteUser c ctx id) = Done None)
     /\ (replied c (Client.DeleteGroup c ctx id) status body ->
         outcome (Client.DeleteGroup c ctx id) = Done None))
  /\ (forall err,
     (failed c (Client.DeleteUser c ctx id) err ->
      outcome (Client.DeleteUser c ctx id) = Done (Some err))
     /\ (failed c (Client.DeleteGroup c ctx id) err ->
         outcome (Client.DeleteGroup c ctx id) = Done (Some err)))
  /\ (forall scanner,
     Client.DeleteUser (H:=with_scanner H scanner) c ctx id = Client.DeleteUser c ctx id
     /\ Client.DeleteGroup (H:=with_scanner H scanner) c ctx id = Client.DeleteGroup c ctx id).
Proof.
  assert (Hok : forall t status body, request_then_return c t -> is_2xx status ->
            replied c t status body -> outcome t = Done None).
  { intros t status body Hruns H2 (req & Hsent & Hdo).
    destruct (delete_outcome c t req Hruns Hsent) as (req0 & -> & ->).
    rewrite (doRequest_2xx c status body req0 Hdo H2). reflexivity. }
  assert (Hfail : forall t err, request_then_return c t ->
            failed c t err -> outcome t = Done (Some err)).
  { intros t err Hruns (req & Hsent & Hdo).
    destruct (delete_outcome c t req Hruns Hsent) as (req0 & -> & ->).
    rewrite (doRequest_fails c err req0 Hdo). reflexivity. }
  repeat apply conj.
  - apply DeleteUser_sent.
  - apply DeleteGroup_sent.
  - intros status body H2. split; apply Hok; auto with scim.
  - intros err. split; apply Hfail; auto with scim.
  - intros scanner. split; reflexivity.
Qed.

(** A delete answered by status 200 and a body that is not JSON, and a
    delete that cannot reach the server. *)
Lemma delete_ignores_body_witness :
  outcome (Client.DeleteUser (H:=Reference.world (Reference.always 200 "<html>gone</html>"))
             token_client Background "42") = Done None
  /\ outcome (Client.DeleteGroup (H:=offline_world) token_client Background "7")
     = Done (Some (net_Error "dial tcp: connection refused")).
Proof.
  split.
  - destruct (delete_ignores_body (H:=Reference.world (Reference.always 200 "<html>gone</html>"))
                token_client Background "42") as (_ & _ & Hok & _).
    destruct (Hok 200 "<html>gone</html>" status_200_ok) as [Huser _].
    apply Huser. eexists. split; [vm_compute; reflexivity | reflexivity].
  - destruct (delete_ignores_body (H:=offline_world) token_client Background "7")
      as (_ & _ & _ & Hfail & _).
    destruct (Hfail (net_Error "dial tcp: connection refused")) as [_ Hgroup].
    apply Hgroup. eexists. split; [vm_compute; reflexivity | left; reflexivity].
Defined.

(** ** The user type *)

(** C9.  For a client whose URL for the user parses, [ChangeUserType] hands
    over one PUT whose body holds, under schemas, the core User schema
    followed by the New Relic extension schema, and one attribute object with
    nrUserType set to the display string of the user type (Full User, Core
    User, Basic User).  The key of that attribute object is not the extension
    schema of the schema list: the key ends in 2.1:User, the schema in
    2.0:User. *)
Theorem ChangeUserType_payload `{World} (c : Client.t) (ctx : Context)
    (userID : string) (userType : UserType) (u : URL) :
  url_Parse (Client.BaseUrl c +:+ "Users/" +:+ userID) = inr u ->
  sent (Client.ChangeUserType c ctx userID userType)
    = [mkRequest "PUT" u (sent_headers c) (Some (json_Marshal (user_type_payload userType)))]
  /\ UserType_String Full = "Full User"
  /\ UserType_String Core = "Core User"
  /\ UserType_String Basic = "Basic User"
  /\ UserTypeKey = "urn:ietf:params:scim:schemas:extension:newrelic:2.1:User"
  /\ NewRelicUserSchema = "urn:ietf:params:scim:schemas:extension:newrelic:2.0:User"
  /\ UserTypeKey <> NewRelicUserSchema.
Proof.
  intros Hu. repeat apply conj; try reflexivity.
  - apply ChangeUserType_sent. exact Hu.
  - discriminate.
Qed.

(** The body sent for the user type Core. *)
Lemma ChangeUserType_payload_witness :
  sent (Client.ChangeUserType (H:=user_world) token_client Background "42" Core)
  = [mkRequest "PUT" (service_url "Users/42" EmptyString) (sent_headers token_client)
       (Some (sq_to_dq "{'schemas':['urn:ietf:params:scim:schemas:core:2.0:User','urn:ietf:params:scim:schemas:extension:newrelic:2.0:User'],'urn:ietf:params:scim:schemas:extension:newrelic:2.1:User':{'nrUserType':'Core User'}}"))].
Proof.
  destruct (ChangeUserType_payload (H:=user_world) token_client Background "42" Core
              (service_url "Users/42" EmptyString) ltac:(vm_compute; reflexivity))
    as [Hsent _].
  rewrite Hsent. vm_compute. reflexivity.
Defined.

(** ** The method of the list operations *)

(** C10.  For a client whose collection URLs parse, the one request of
    [UserList] and the one request of [GroupList] carry the method Get, in
    mixed case, which is not the method GET; the lookups by id carry GET. *)
Theorem list_operations_method `{World} (c : Client.t) (ctx : Context) :
  (forall u, url_Parse (Client.BaseUrl c +:+ "Users") = inr u ->
     Method <$> sent (Client.UserList c ctx) = ["Get"])
  /\ (forall u, url_Parse (Client.BaseUrl c +:+ "Groups") = inr u ->
     Method <$> sent (Client.GroupList c ctx) = ["Get"])
  /\ (forall id u, url_Parse (Client.BaseUrl c +:+ "Users/" +:+ id) = inr u ->
     Method <$> sent (Client.GetUserByID c ctx id) = ["GET"])
  /\ "Get" <> "GET".
Proof.
  repeat apply conj.
  - intros u Hu. rewrite (UserList_sent c ctx u Hu). reflexivity.
  - intros u Hu. rewrite (GroupList_sent c ctx u Hu). reflexivity.
  - intros id u Hu. rewrite (GetUserByID_sent c ctx id u Hu). reflexivity.
  - discriminate.
Qed.

(** The methods of the two list requests of the default client. *)
Lemma list_operations_method_witness :
  Method <$> sent (Client.UserList (H:=user_world) token_client Background) = ["Get"]
  /\ Method <$> sent (Client.GroupList (H:=user_world) token_client Background) = ["Get"].
Proof.
  destruct (list_operations_method (H:=user_world) token_client Background)
    as (Husers & Hgroups & _).
  split.
  - apply (Husers (service_url "Users" EmptyString)). vm_compute. reflexivity.
  - apply (Hgroups (service_url "Groups" EmptyString)). vm_compute. reflexivity.
Defined.

(** * Further properties of the client *)

(** ** Every operation, unfolded *)

Section Built.
Context `{World}.
Variables (c : Client.t) (ctx : Context).

Lemma UserList_built :
  Client.UserList c ctx
  = built c UsersShape UserErrorShape "Get" (Client.BaseUrl c +:+ "Users") None.
Proof. reflexivity. Qed.

Lemma GetUserByID_built userID :
  Client.GetUserByID c ctx userID
  = built c UserShape UserErrorShape "GET" (Client.BaseUrl c +:+ "Users/" +:+ userID) None.
Proof. reflexivity. Qed.

Lemma GetUserByName_built userName :
  Client.GetUserByName c ctx userName
  = built_lookup c UserShape UserErrorShape (Client.BaseUrl c +:+ "Users") "userName" userName.
Proof. reflexivity. Qed.

Lemma CreateUser_built user :
  Client.CreateUser c ctx user
  = built c UserShape UserErrorShape "POST" (Client.BaseUrl c +:+ "Users")
      (Some (json_Marshal (User.to_json (User.fill_defaults user)))).
Proof. reflexivity. Qed.

Lemma UpdateUser_built userID user :
  Client.UpdateUser c ctx userID user
  = built c UserShape UserErrorShape "PUT" (Client.BaseUrl c +:+ "Users/" +:+ userID)
      (Some (json_Marshal (User.to_json (User.fill_defaults user)))).
Proof. reflexivity. Qed.

Lemma ChangeUserType_built userID userType :
  Client.ChangeUserType c ctx userID userType
  = built c UserShape UserErrorShape "PUT" (Client.BaseUrl c +:+ "Users/" +:+ userID)
      (Some (json_Marshal (user_type_payload userType))).
Proof. reflexivity. Qed.

Lemma CreateGroup_built groupName :
  Client.CreateGroup c ctx groupName
  = built c GroupShape GroupErrorShape "POST" (Client.BaseUrl c +:+ "Groups")
      (Some (json_Marshal (Group.to_json (Group.mk (Some [GroupSchema]) groupName)))).
Proof. reflexivity. Qed.

Lemma UpdateGroup_built groupName :
  Client.UpdateGroup c ctx groupName
  = built c GroupShape GroupErrorShape "PUT" (Client.BaseUrl c +:+ "Groups")
      (Some (json_Marshal (Group.to_json (Group.mk (Some [GroupSchema]) groupName)))).
Proof. reflexivity. Qed.

Lemma GroupList_built :
  Client.GroupList c ctx
  = built c GroupsShape GroupErrorShape "Get" (Client.BaseUrl c +:+ "Groups") None.
Proof. reflexivity. Qed.

Lemma GetGroupByID_built groupID :
  Client.GetGroupByID c ctx groupID
  = built c GroupsShape GroupErrorShape "GET" (Client.BaseUrl c +:+ "Groups/" +:+ groupID) None.
Proof. reflexivity. Qed.

Lemma GetGroupByName_built groupName :
  Client.GetGroupByName c ctx groupName
  = built_lookup c GroupsShape GroupErrorShape (Client.BaseUrl c +:+ "Groups")
      "displayName" groupName.
Proof. reflexivity. Qed.

Lemma GroupMemberOps_built groupID userID operation :
  Client.GroupMemberOps c ctx groupID userID operation
  = built c GroupShape GroupErrorShape "PATCH" (Client.BaseUrl c +:+ "Groups/" +:+ groupID)
      (Some (json_Marshal
               (UpdateGroup.to_json
                  (UpdateGroup.mk (Some [PatchOpSchema])
                     (Some [Operation.mk operation "members" (Some [PatchValue.mk userID])]))))).
Proof. reflexivity. Qed.

Lemma DeleteUser_built userID :
  Client.DeleteUser c ctx userID = built_delete c (Client.BaseUrl c +:+ "Users/" +:+ userID).
Proof.
  unfold Client.DeleteUser, built_delete.
  destruct (NewRequest "DELETE" _ None) as [err|req]; [reflexivity|].
  rewrite doRequest_split. destruct (snd (Client.doRequest c req)) as [[b [e|]]|msg]; reflexivity.
Qed.

Lemma DeleteGroup_built groupID :
  Client.DeleteGroup c ctx groupID = built_delete c (Client.BaseUrl c +:+ "Groups/" +:+ groupID).
Proof.
  unfold Client.DeleteGroup, built_delete.
  destruct (NewRequest "DELETE" _ None) as [err|req]; [reflexivity|].
  rewrite doRequest_split. destruct (snd (Client.doRequest c req)) as [[b [e|]]|msg]; reflexivity.
Qed.

End Built.

(** ** Requests: how many, with which headers, and when none *)

Create Rewrite HintDb built.
#[local] Hint Rewrite @UserList_built @GetUserByID_built @GetUserByName_built @CreateUser_built
  @UpdateUser_built @ChangeUserType_built @CreateGroup_built @UpdateGroup_built
  @GroupList_built @GetGroupByID_built @GetGroupByName_built @GroupMemberOps_built
  @DeleteUser_built @DeleteGroup_built : built.

Ltac unfold_operation :=
  unfold Client.AddUserToGroup, Client.RemoveUserToGroup; autorewrite with built.

Lemma NewRequest_inr `{World} (method url : string) (body : option bytes) (req : Request) :
  NewRequest method url body = inr req ->
  ReqBody req = body /\ Headers req = ∅ /\ url_Parse url = inr (Url req)
  /\ (method <> EmptyString -> Method req = method).
Proof.
  unfold NewRequest.
  destruct (negb (validMethod (if String.eqb method EmptyString then "GET" else method)));
    [discriminate|].
  destruct (url_Parse url) as [e|u]; [discriminate|].
  intros Heq. injection Heq as <-. repeat split.
  intros Hm. cbn. destruct (String.eqb_spec method EmptyString); [contradiction|reflexivity].
Qed.

Lemma NewRequest_unparsable `{World} (method url : string) (body : option bytes) (e : error) :
  validMethod method = true -> url_Parse url = inl e -> NewRequest method url body = inl e.
Proof.
  intros Hm Hu. unfold NewRequest.
  destruct (String.eqb_spec method EmptyString) as [->|_]; [discriminate Hm|].
  rewrite Hm. cbn [negb]. rewrite Hu. reflexivity.
Qed.

Lemma parse_reply_printed `{World} {S E} (ss : shape S) (es : shape E)
    (lines : list string) (r : list Request * Exec (option bytes * option error)) :
  printed (parse_reply ss es lines r) = lines.
Proof.
  destruct r as [sent0 [[resp [err|]]|msg]]; unfold parse_reply; [reflexivity| |reflexivity].
  destruct (Unmarshal (sh_fields ss) (sh_name ss) (bytes_of resp) (sh_zero ss)) as [s [err|]];
    [reflexivity|].
  destruct (elems (sh_schemas ss s) !! 0%nat) as [x|]; [|reflexivity].
  destruct (String.eqb x ErrorSchema); [|reflexivity].
  destruct (Unmarshal (sh_fields es) (sh_name es) (bytes_of resp) (sh_zero es)) as [e [err|]];
    reflexivity.
Qed.

Lemma handed_over_headers (c : Client.t) (req : Request) :
  Headers (handed_over c req) !! "Authorization" = Some ["Bearer " +:+ Client.ApiToken c]
  /\ Headers (handed_over c req) !! "Content-Type" = Some ["application/json"].
Proof.
  unfold handed_over, Header_Set. cbn [Headers].
  change (CanonicalMIMEHeaderKey "Authorization") with "Authorization".
  change (CanonicalMIMEHeaderKey "content-type") with "Content-Type".
  split.
  - rewrite lookup_insert_ne by discriminate. apply lookup_insert_eq.
  - apply lookup_insert_eq.
Qed.

Section OneRequest.
Context `{World}.
Context {S E : Type}.
Variables (c : Client.t) (ss : shape S) (es : shape E).

(** What left the client is nothing, or the one request handed over. *)
Lemma built_sent (method url : string) (body : option bytes) :
  sent (built c ss es method url body) = []
  \/ exists req, NewRequest method url body = inr req
       /\ sent (built c ss es method url body) = [handed_over c req].
Proof.
  unfold built. destruct (NewRequest method url body) as [err|req]; [left; reflexivity|].
  right. exists req. split; [reflexivity|]. rewrite parse_reply_sent. reflexivity.
Qed.

Lemma built_lookup_sent (url attribute value : string) :
  sent (built_lookup c ss es url attribute value) = []
  \/ exists req, sent (built_lookup c ss es url attribute value) = [handed_over c req]
       /\ ReqBody req = None.
Proof.
  unfold built_lookup. destruct (NewRequest "GET" url None) as [err|req] eqn:Hreq;
    [left; reflexivity|].
  right. cbv zeta.
  match goal with |- context [Client.doRequest c ?r] => exists r end.
  split; [rewrite parse_reply_sent; reflexivity|].
  cbn. apply (NewRequest_inr _ _ _ _ Hreq).
Qed.

Lemma built_delete_sent (url : string) :
  sent (built_delete c url) = []
  \/ exists req, sent (built_delete c url) = [handed_over c req].
Proof.
  unfold built_delete. destruct (NewRequest "DELETE" url None) as [err|req];
    [left; reflexivity|].
  right. exists req. reflexivity.
Qed.

Lemma built_single_shot (method url : string) (body : option bytes) :
  single_shot (built c ss es method url body).
Proof.
  unfold single_shot.
  destruct (built_sent method url body) as [->|(req & _ & ->)]; cbn; lia.
Qed.

Lemma built_lookup_single_shot (url attribute value : string) :
  single_shot (built_lookup c ss es url attribute value).
Proof.
  unfold single_shot.
  destruct (built_lookup_sent url attribute value) as [->|(req & -> & _)]; cbn; lia.
Qed.

Lemma built_delete_single_shot (url : string) : single_shot (built_delete c url).
Proof.
  unfold single_shot. destruct (built_delete_sent url) as [->|(req & ->)]; cbn; lia.
Qed.

Lemma built_authorised (method url : string) (body : option bytes) :
  authorised c (built c ss es method url body).
Proof.
  intros req Hin.
  destruct (built_sent method url body) as [Hs|(req0 & _ & Hs)]; rewrite Hs in Hin;
    [contradiction|].
  destruct Hin as [<-|[]]. apply handed_over_headers.
Qed.

Lemma built_lookup_authorised (url attribute value : string) :
  authorised c (built_lookup c ss es url attribute value).
Proof.
  intros req Hin.
  destruct (built_lookup_sent url attribute value) as [Hs|(req0 & Hs & _)]; rewrite Hs in Hin;
    [contradiction|].
  destruct Hin as [<-|[]]. apply handed_over_headers.
Qed.

Lemma built_delete_authorised (url : string) : authorised c (built_delete c url).
Proof.
  intros req Hin.
  destruct (built_delete_sent url) as [Hs|(req0 & Hs)]; rewrite Hs in Hin; [contradiction|].
  destruct Hin as [<-|[]]. apply handed_over_headers.
Qed.

Lemma built_unparsable (method url : string) (body : option bytes) (e : error) :
  validMethod method = true -> url_Parse url = inl e ->
  built c ss es method url body = mkTrace [] [] (Done (sh_zero ss, sh_zero es, Some e)).
Proof.
  intros Hm Hu. unfold built. rewrite (NewRequest_unparsable _ _ _ e Hm Hu). reflexivity.
Qed.

Lemma built_lookup_unparsable (url attribute value : string) (e : error) :
  url_Parse url = inl e ->
  built_lookup c ss es url attribute value
  = mkTrace [] [] (Done (sh_zero ss, sh_zero es, Some e)).
Proof.
  intros Hu. unfold built_lookup. rewrite (NewRequest_unparsable "GET" _ _ e eq_refl Hu).
  reflexivity.
Qed.

End OneRequest.

Lemma built_delete_unparsable `{World} (c : Client.t) (url : string) (e : error) :
  url_Parse url = inl e -> built_delete c url = mkTrace [] [] (Done (Some e)).
Proof.
  intros Hu. unfold built_delete. rewrite (NewRequest_unparsable "DELETE" _ _ e eq_refl Hu).
  reflexivity.
Qed.

#[local] Hint Resolve built_single_shot built_lookup_single_shot built_delete_single_shot
  built_authorised built_lookup_authorised built_delete_authorised : scim.

(** X1.  No operation hands more than one request to the HTTP client: a
    call is one exchange at most, whatever the reply. *)
Theorem one_request_per_call `{World} (c : Client.t) (ctx : Context) :
  single_shot (Client.UserList c ctx)
  /\ (forall userID, single_shot (Client.GetUserByID c ctx userID))
  /\ (forall userName, single_shot (Client.GetUserByName c ctx userName))
  /\ (forall user, single_shot (Client.CreateUser c ctx user))
  /\ (forall userID user, single_shot (Client.UpdateUser c ctx userID user))
  /\ (forall userID userType, single_shot (Client.ChangeUserType c ctx userID userType))
  /\ (forall groupName, single_shot (Client.CreateGroup c ctx groupName))
  /\ (forall groupName, single_shot (Client.UpdateGroup c ctx groupName))
  /\ single_shot (Client.GroupList c ctx)
  /\ (forall groupID, single_shot (Client.GetGroupByID c ctx groupID))
  /\ (forall groupName, single_shot (Client.GetGroupByName c ctx groupName))
  /\ (forall groupID userID operation, single_shot (Client.GroupMemberOps c ctx groupID userID operation))
  /\ (forall groupID userID, single_shot (Client.AddUserToGroup c ctx groupID userID))
  /\ (forall groupID userID, single_shot (Client.RemoveUserToGroup c ctx groupID userID))
  /\ (forall userID, single_shot (Client.DeleteUser c ctx userID))
  /\ (forall groupID, single_shot (Client.DeleteGroup c ctx groupID)).
Proof. repeat apply conj; intros; unfold_operation; auto with scim. Qed.

(** X2.  Every request that leaves the client, of every operation, has
    Authorization set to Bearer and the client's token, and Content-Type set to
    application/json, each header with that one value. *)
Theorem every_request_authorised `{World} (c : Client.t) (ctx : Context) :
  authorised c (Client.UserList c ctx)
  /\ (forall userID, authorised c (Client.GetUserByID c ctx userID))
  /\ (forall userName, authorised c (Client.GetUserByName c ctx userName))
  /\ (forall user, authorised c (Client.CreateUser c ctx user))
  /\ (forall userID user, authorised c (Client.UpdateUser c ctx userID user))
  /\ (forall userID userType, authorised c (Client.ChangeUserType c ctx userID userType))
  /\ (forall groupName, authorised c (Client.CreateGroup c ctx groupName))
  /\ (forall groupName, authorised c (Client.UpdateGroup c ctx groupName))
  /\ authorised c (Client.GroupList c ctx)
  /\ (forall groupID, authorised c (Client.GetGroupByID c ctx groupID))
  /\ (forall groupName, authorised c (Client.GetGroupByName c ctx groupName))
  /\ (forall groupID userID operation, authorised c (Client.GroupMemberOps c ctx groupID userID operation))
  /\ (forall groupID userID, authorised c (Client.AddUserToGroup c ctx groupID userID))
  /\ (forall groupID userID, authorised c (Client.RemoveUserToGroup c ctx groupID userID))
  /\ (forall userID, authorised c (Client.DeleteUser c ctx userID))
  /\ (forall groupID, authorised c (Client.DeleteGroup c ctx groupID)).
Proof. repeat apply conj; intros; unfold_operation; auto with scim. Qed.

(** The create-user request of the client made from a token. *)
Lemma every_request_authorised_witness :
  Headers <$> sent (Client.CreateUser (H:=user_world) (Client.NewClient "s3cr3t") Background bare_user)
  = [ <["Content-Type" := ["application/json"]]> (<["Authorization" := ["Bearer s3cr3t"]]> ∅) ]
  /\ (forall req,
        In req (sent (Client.CreateUser (H:=user_world) (Client.NewClient "s3cr3t") Background
                        bare_user)) ->
        Headers req !! "Authorization" = Some ["Bearer s3cr3t"]
        /\ Headers req !! "Content-Type" = Some ["application/json"]).
Proof.
  split; [vm_compute; reflexivity|].
  destruct (every_request_authorised (H:=user_world) (Client.NewClient "s3cr3t") Background)
    as (_ & _ & _ & Hcreate & _).
  exact (Hcreate bare_user).
Defined.

(** X3.  When the URL of an operation does not parse, the operation hands
    over no request, prints nothing and returns the parser's error at once,
    the reading operations with the zero success shape and the zero error
    shape. *)
Theorem unparsable_url_sends_nothing `{World} (c : Client.t) (ctx : Context) (e : error) :
  (url_Parse (Client.BaseUrl c +:+ "Users") = inl e ->
     Client.UserList c ctx
       = mkTrace [] [] (Done (UsersResponse.zero, UserErrorResponse.zero, Some e))
     /\ (forall userName, Client.GetUserByName c ctx userName
           = mkTrace [] [] (Done (UserResponse.zero, UserErrorResponse.zero, Some e)))
     /\ (forall user, Client.CreateUser c ctx user
           = mkTrace [] [] (Done (UserResponse.zero, UserErrorResponse.zero, Some e))))
  /\ (forall userID, url_Parse (Client.BaseUrl c +:+ "Users/" +:+ userID) = inl e ->
     Client.GetUserByID c ctx userID
       = mkTrace [] [] (Done (UserResponse.zero, UserErrorResponse.zero, Some e))
     /\ (forall user, Client.UpdateUser c ctx userID user
           = mkTrace [] [] (Done (UserResponse.zero, UserErrorResponse.zero, Some e)))
     /\ (forall userType, Client.ChangeUserType c ctx userID userType
           = mkTrace [] [] (Done (UserResponse.zero, UserErrorResponse.zero, Some e)))
     /\ Client.DeleteUser c ctx userID = mkTrace [] [] (Done (Some e)))
  /\ (url_Parse (Client.BaseUrl c +:+ "Groups") = inl e ->
     Client.GroupList c ctx
       = mkTrace [] [] (Done (GroupsResponse.zero, GroupErrorResponse.zero, Some e))
     /\ (forall groupName, Client.GetGroupByName c ctx groupName
           = mkTrace [] [] (Done (GroupsResponse.zero, GroupErrorResponse.zero, Some e)))
     /\ (forall groupName, Client.CreateGroup c ctx groupName
           = mkTrace [] [] (Done (GroupResponse.zero, GroupErrorResponse.zero, Some e)))
     /\ (forall groupName, Client.UpdateGroup c ctx groupName
           = mkTrace [] [] (Done (GroupResponse.zero, GroupErrorResponse.zero, Some e))))
  /\ (forall groupID, url_Parse (Client.BaseUrl c +:+ "Groups/" +:+ groupID) = inl e ->
     Client.GetGroupByID c ctx groupID
       = mkTrace [] [] (Done (GroupsResponse.zero, GroupErrorResponse.zero, Some e))
     /\ (forall userID operation, Client.GroupMemberOps c ctx groupID userID operation
           = mkTrace [] [] (Done (GroupResponse.zero, GroupErrorResponse.zero, Some e)))
     /\ (forall userID, Client.AddUserToGroup c ctx groupID userID
           = mkTrace [] [] (Done (GroupResponse.zero, GroupErrorResponse.zero, Some e)))
     /\ (forall userID, Client.RemoveUserToGroup c ctx groupID userID
           = mkTrace [] [] (Done (GroupResponse.zero, GroupErrorResponse.zero, Some e)))
     /\ Client.DeleteGroup c ctx groupID = mkTrace [] [] (Done (Some e))).
Proof.
  repeat first [apply conj | intro]; unfold_operation;
    first [ erewrite built_unparsable; [reflexivity | reflexivity | eassumption]
          | erewrite built_lookup_unparsable; [reflexivity | eassumption]
          | erewrite built_delete_unparsable; [reflexivity | eassumption] ].
Qed.

(** A base URL with a line feed in it: nothing is sent. *)
Lemma unparsable_url_sends_nothing_witness :
  Client.GetUserByID (H:=user_world) broken_client Background "42"
    = mkTrace [] []
        (Done (UserResponse.zero, UserErrorResponse.zero,
               Some (url_Error "parse" (Client.BaseUrl broken_client +:+ "Users/42")
                       "net/url: invalid control character in URL")))
  /\ Client.DeleteUser (H:=user_world) broken_client Background "42"
    = mkTrace [] []
        (Done (Some (url_Error "parse" (Client.BaseUrl broken_client +:+ "Users/42")
                       "net/url: invalid control character in URL"))).
Proof.
  destruct (unparsable_url_sends_nothing (H:=user_world) broken_client Background
              (url_Error "parse" (Client.BaseUrl broken_client +:+ "Users/42")
                 "net/url: invalid control character in URL"))
    as (_ & Hid & _).
  destruct (Hid "42" ltac:(vm_compute; reflexivity)) as (Hget & _ & _ & Hdel).
  split; assumption.
Defined.

(** ** What [doRequest] returns *)

Lemma doRequest_cases `{World} (c : Client.t) (req : Request) :
  (exists status body,
      http_Client_Do (Client.HttpClient c) (handed_over c req)
        = Done (inr (mkResponse status (inr body)))
      /\ is_2xx status /\ snd (Client.doRequest c req) = Done (Some body, None))
  \/ (exists err, snd (Client.doRequest c req) = Done (None, Some err))
  \/ (Client.HttpClient c = None
      /\ snd (Client.doRequest c req) = Panic nil_pointer_dereference).
Proof.
  unfold Client.doRequest. cbn [snd]. change (set_Headers _ _) with (handed_over c req).
  destruct (Client.HttpClient c) as [h|]; cbn [http_Client_Do];
    [|right; right; split; reflexivity].
  destruct (HttpClient_Do h (handed_over c req)) as [e|[status [e|body]]];
    cbn [Body StatusCode]; [right; left; eexists; reflexivity ..|].
  destruct ((status >=? 200) && (status <=? 299)) eqn:Hin; cbn [negb].
  - left. exists status, body. split; [reflexivity|]. split; [|reflexivity].
    apply andb_true_iff in Hin as [Hlo Hhi].
    apply Z.geb_le in Hlo. apply Z.leb_le in Hhi. split; assumption.
  - right. left. eexists. reflexivity.
Qed.

(** X4.  [doRequest] returns a body exactly when the exchange gave a reply
    whose body could be read and whose status is between 200 and 299, both
    included, and the body returned is the one of the reply; of the two values
    it returns, exactly one is nil.  It returns whenever the client's
    [HttpClient] is set; when that field is nil the call of [Do] panics, after
    the request got its headers. *)
Theorem doRequest_returns_body_iff_2xx `{World} (c : Client.t) (req : Request) :
  (forall body,
      snd (Client.doRequest c req) = Done (Some body, None)
      <-> exists status,
            http_Client_Do (Client.HttpClient c) (handed_over c req)
              = Done (inr (mkResponse status (inr body)))
            /\ 200 <= status <= 299)
  /\ (Client.HttpClient c <> None ->
      (exists body, snd (Client.doRequest c req) = Done (Some body, None))
      \/ (exists err, snd (Client.doRequest c req) = Done (None, Some err)))
  /\ (Client.HttpClient c = None ->
      Client.doRequest c req = ([handed_over c req], Panic nil_pointer_dereference)).
Proof.
  split; [|split].
  - intros body. split.
    + intros Hsnd.
      destruct (doRequest_cases c req)
        as [(status & b & Hdo & Hok & Hb)|[(err & He)|(_ & Hp)]].
      * rewrite Hb in Hsnd. injection Hsnd as ->. exists status. split; assumption.
      * rewrite He in Hsnd. discriminate.
      * rewrite Hp in Hsnd. discriminate.
    + intros (status & Hdo & Hok). apply (doRequest_2xx c status body req Hdo Hok).
  - intros Hset.
    destruct (doRequest_cases c req) as [(status & b & _ & _ & Hb)|[(err & He)|(Hnil & _)]];
      [left; exists b; exact Hb | right; exists err; exact He | contradiction].
  - intros Hnil.
    destruct (doRequest_cases c req) as [(status & b & Hdo & _)|[(err & He)|(_ & Hp)]].
    + rewrite Hnil in Hdo. discriminate Hdo.
    + exfalso. revert He. unfold Client.doRequest. rewrite Hnil. discriminate.
    + rewrite doRequest_split, Hp. reflexivity.
Qed.

(** The bounds: 200 and 299 give the body, 199 and 300 give an error; and a
    client written as a struct literal without an [HttpClient]. *)
Lemma doRequest_returns_body_iff_2xx_witness :
  snd (Client.doRequest (H:=Reference.world (Reference.always 200 "ok")) token_client
         (mkRequest "GET" (service_url "Users" EmptyString) ∅ None)) = Done (Some "ok", None)
  /\ snd (Client.doRequest (H:=Reference.world (Reference.always 299 "ok")) token_client
         (mkRequest "GET" (service_url "Users" EmptyString) ∅ None)) = Done (Some "ok", None)
  /\ snd (Client.doRequest (H:=Reference.world (Reference.always 199 "ok")) token_client
         (mkRequest "GET" (service_url "Users" EmptyString) ∅ None))
     = Done (None, Some (status_error 199 "ok"))
  /\ snd (Client.doRequest (H:=Reference.world (Reference.always 300 "ok")) token_client
         (mkRequest "GET" (service_url "Users" EmptyString) ∅ None))
     = Done (None, Some (status_error 300 "ok"))
  /\ Client.doRequest (H:=Reference.world (Reference.always 200 "ok")) literal_client
         (mkRequest "GET" (service_url "Users" EmptyString) ∅ None)
     = ([mkRequest "GET" (service_url "Users" EmptyString) (sent_headers literal_client) None],
        Panic nil_pointer_dereference).
Proof.
  split; [|split; [|split; [|split]]]; [ | |reflexivity|reflexivity| ].
  - apply (proj1 (doRequest_returns_body_iff_2xx
                    (H:=Reference.world (Reference.always 200 "ok")) token_client _)).
    exists 200. split; [reflexivity | lia].
  - apply (proj1 (doRequest_returns_body_iff_2xx
                    (H:=Reference.world (Reference.always 299 "ok")) token_client _)).
    exists 299. split; [reflexivity | lia].
  - destruct (doRequest_returns_body_iff_2xx
                (H:=Reference.world (Reference.always 200 "ok")) literal_client
                (mkRequest "GET" (service_url "Users" EmptyString) ∅ None)) as (_ & _ & Hnil).
    rewrite (Hnil eq_refl), handed_over_fresh. reflexivity.
Defined.

(** ** Failures on the way to a result *)

Section Failures.
Context `{World}.
Context {S E : Type}.
Variables (ss : shape S) (es : shape E).
Hypothesis ss_lawful : lawful ss.
Hypothesis es_lawful : lawful es.
Variable c : Client.t.
Variable t : Trace (S * E * option error).
Hypothesis t_runs : request_then_parse c ss es t.

Lemma failed_request (err : error) :
  failed c t err ->
  exists req0 lines, t = parse_reply ss es lines (Client.doRequest c req0)
    /\ snd (Client.doRequest c req0) = Done (None, Some err).
Proof.
  intros (req & Hsent & Hdo). destruct t_runs as [[e ->]|(req0 & lines & ->)].
  - discriminate Hsent.
  - exists req0, lines. split; [reflexivity|].
    rewrite parse_reply_sent, doRequest_sent in Hsent. injection Hsent as <-.
    apply doRequest_fails. exact Hdo.
Qed.

Lemma reading_fails_through : fails_through ss es c t.
Proof.
  intros err Hf. destruct (failed_request err Hf) as (req0 & lines & -> & Hsnd).
  rewrite doRequest_split, Hsnd. reflexivity.
Qed.

Lemma reading_returns_decode_error : returns_decode_error ss es c t.
Proof.
  intros status body s err Hrep Hok Hdec.
  destruct (replied_request ss es c t t_runs status body Hrep) as (req0 & lines & -> & Hdo).
  rewrite doRequest_split, (doRequest_2xx c status body req0 Hdo Hok).
  unfold parse_reply. change (bytes_of (Some body)) with body.
  unfold decode in Hdec. rewrite Hdec. reflexivity.
Qed.

Lemma reading_returns_second_decode_error : returns_second_decode_error ss es c t.
Proof.
  intros status body s rest e err Hrep Hok Hdec Hfirst Hde.
  destruct (replied_request ss es c t t_runs status body Hrep) as (req0 & lines & -> & Hdo).
  rewrite doRequest_split, (doRequest_2xx c status body req0 Hdo Hok).
  unfold parse_reply. change (bytes_of (Some body)) with body.
  unfold decode in Hdec, Hde. rewrite Hdec, Hfirst. cbn [lookup list_lookup].
  rewrite String.eqb_refl, Hde. reflexivity.
Qed.

(** The reply behind a result that came out of the reply-handling block
    with a body. *)
Lemma block_replied (req0 : Request) (lines : list string) (status : Z) (body : bytes) :
  http_Client_Do (Client.HttpClient c) (handed_over c req0) = Done (inr (mkResponse status (inr body))) ->
  replied c (parse_reply ss es lines (Client.doRequest c req0)) status body.
Proof.
  intros Hdo. exists (handed_over c req0). split; [|exact Hdo].
  rewrite parse_reply_sent. reflexivity.
Qed.

Lemma reading_nil_error_promise : nil_error_promise ss es c t.
Proof.
  intros s e Hout. destruct t_runs as [[err ->]|(req0 & lines & ->)]; [discriminate Hout|].
  destruct (doRequest_cases c req0)
    as [(status & body & Hdo & Hok & Hsnd)|[(err & Hsnd)|(_ & Hsnd)]].
  - exists status, body.
    pose proof (block_replied req0 lines status body Hdo) as Hrep.
    rewrite doRequest_split, Hsnd in Hout. unfold parse_reply in Hout.
    change (bytes_of (Some body)) with body in Hout.
    destruct (Unmarshal (sh_fields ss) (sh_name ss) body (sh_zero ss)) as [s' [err|]] eqn:Hd;
      [discriminate Hout|].
    destruct (elems (sh_schemas ss s') !! 0%nat) as [x|] eqn:Hfirst; [|discriminate Hout].
    destruct (elems (sh_schemas ss s')) as [|x' rest] eqn:Hel; [discriminate Hfirst|].
    cbn in Hfirst. injection Hfirst as ->.
    destruct (String.eqb_spec x ErrorSchema) as [Hx|Hx].
    + destruct (Unmarshal (sh_fields es) (sh_name es) body (sh_zero es)) as [e' [err|]] eqn:He;
        [discriminate Hout|].
      cbn in Hout. injection Hout as <- <-.
      exists x, rest. do 4 (split; [first [assumption | reflexivity]|]).
      right. split; [assumption|]. split; [exact He|].
      apply (same_schemas ss es ss_lawful es_lawful body s' e' Hd He).
    + cbn in Hout. injection Hout as <- <-.
      exists x, rest. do 4 (split; [first [assumption | reflexivity]|]).
      left. split; [assumption|reflexivity].
  - rewrite doRequest_split, Hsnd in Hout. discriminate Hout.
  - rewrite doRequest_split, Hsnd in Hout. discriminate Hout.
Qed.

Lemma reading_panics_in_two_ways : panics_in_two_ways ss c t.
Proof.
  split.
  - intros msg Hout.
    destruct t_runs as [[err ->]|(req0 & lines & ->)]; [discriminate Hout|].
    destruct (doRequest_cases c req0)
      as [(status & body & Hdo & Hok & Hsnd)|[(err & Hsnd)|(Hnil & Hsnd)]].
    + right. pose proof (block_replied req0 lines status body Hdo) as Hrep.
      rewrite doRequest_split, Hsnd in Hout. unfold parse_reply in Hout.
      change (bytes_of (Some body)) with body in Hout.
      destruct (Unmarshal (sh_fields ss) (sh_name ss) body (sh_zero ss)) as [s' [err|]] eqn:Hd;
        [discriminate Hout|].
      destruct (elems (sh_schemas ss s')) as [|x rest] eqn:Hel.
      * cbn in Hout. injection Hout as <-. split; [reflexivity|].
        exists status, body, s'. do 3 (split; [assumption|]). exact Hel.
      * cbn in Hout. destruct (String.eqb x ErrorSchema); [|discriminate Hout].
        destruct (Unmarshal (sh_fields es) (sh_name es) body (sh_zero es)) as [e' [err|]];
          discriminate Hout.
    + rewrite doRequest_split, Hsnd in Hout. discriminate Hout.
    + left. rewrite doRequest_split, Hsnd in Hout. cbn in Hout. injection Hout as <-.
      split; [reflexivity|]. split; [exact Hnil|].
      exists (handed_over c req0). rewrite parse_reply_sent. reflexivity.
  - intros Hnil req Hsent.
    destruct t_runs as [[err ->]|(req0 & lines & ->)]; [discriminate Hsent|].
    destruct (doRequest_cases c req0)
      as [(status & body & Hdo & _)|[(err & Hsnd)|(_ & Hsnd)]].
    + rewrite Hnil in Hdo. discriminate Hdo.
    + exfalso. revert Hsnd. unfold Client.doRequest. rewrite Hnil. discriminate.
    + rewrite doRequest_split, Hsnd. reflexivity.
Qed.

End Failures.

#[local] Hint Resolve reading_fails_through reading_returns_decode_error
  reading_returns_second_decode_error reading_nil_error_promise
  reading_panics_in_two_ways : scim.

(** X5.  When the exchange of a reading operation fails (no reply, or a
    reply whose body cannot be read), the operation returns the zero success
    shape, the zero error shape and the error of the exchange. *)
Theorem transport_error_short_circuits `{World} (c : Client.t) (ctx : Context) :
  fails_through UsersShape UserErrorShape c (Client.UserList c ctx)
  /\ (forall userID,
        fails_through UserShape UserErrorShape c (Client.GetUserByID c ctx userID))
  /\ (forall userName,
        fails_through UserShape UserErrorShape c (Client.GetUserByName c ctx userName))
  /\ (forall user,
        fails_through UserShape UserErrorShape c (Client.CreateUser c ctx user))
  /\ (forall userID user,
        fails_through UserShape UserErrorShape c (Client.UpdateUser c ctx userID user))
  /\ (forall userID userType,
        fails_through UserShape UserErrorShape c (Client.ChangeUserType c ctx userID userType))
  /\ (forall groupName,
        fails_through GroupShape GroupErrorShape c (Client.CreateGroup c ctx groupName))
  /\ (forall groupName,
        fails_through GroupShape GroupErrorShape c (Client.UpdateGroup c ctx groupName))
  /\ fails_through GroupsShape GroupErrorShape c (Client.GroupList c ctx)
  /\ (forall groupID,
        fails_through GroupsShape GroupErrorShape c (Client.GetGroupByID c ctx groupID))
  /\ (forall groupName,
        fails_through GroupsShape GroupErrorShape c (Client.GetGroupByName c ctx groupName))
  /\ (forall groupID userID operation,
        fails_through GroupShape GroupErrorShape c (Client.GroupMemberOps c ctx groupID userID operation))
  /\ (forall groupID userID,
        fails_through GroupShape GroupErrorShape c (Client.AddUserToGroup c ctx groupID userID))
  /\ (forall groupID userID,
        fails_through GroupShape GroupErrorShape c (Client.RemoveUserToGroup c ctx groupID userID)).
Proof. repeat apply conj; intros; eapply reading_fails_through; eauto with scim. Qed.

(** A server that cannot be reached. *)
Lemma transport_error_short_circuits_witness :
  outcome (Client.UserList (H:=offline_world) token_client Background)
  = Done (UsersResponse.zero, UserErrorResponse.zero,
          Some (net_Error "dial tcp: connection refused")).
Proof.
  destruct (transport_error_short_circuits (H:=offline_world) token_client Background)
    as (Hlist & _).
  apply Hlist. eexists. split; [vm_compute; reflexivity | left; reflexivity].
Defined.

(** X6.  When a 2xx reply does not decode into the success shape (the body
    is not JSON, or a member has the wrong kind), a reading operation returns
    the success shape as the decoder left it, the zero error shape and the
    decoder's error; the schema list is not looked at, so there is no panic. *)
Theorem decode_error_is_returned `{World} (c : Client.t) (ctx : Context) :
  returns_decode_error UsersShape UserErrorShape c (Client.UserList c ctx)
  /\ (forall userID,
        returns_decode_error UserShape UserErrorShape c (Client.GetUserByID c ctx userID))
  /\ (forall userName,
        returns_decode_error UserShape UserErrorShape c (Client.GetUserByName c ctx userName))
  /\ (forall user,
        returns_decode_error UserShape UserErrorShape c (Client.CreateUser c ctx user))
  /\ (forall userID user,
        returns_decode_error UserShape UserErrorShape c (Client.UpdateUser c ctx userID user))
  /\ (forall userID userType,
        returns_decode_error UserShape UserErrorShape c (Client.ChangeUserType c ctx userID userType))
  /\ (forall groupName,
        returns_decode_error GroupShape GroupErrorShape c (Client.CreateGroup c ctx groupName))
  /\ (forall groupName,
        returns_decode_error GroupShape GroupErrorShape c (Client.UpdateGroup c ctx groupName))
  /\ returns_decode_error GroupsShape GroupErrorShape c (Client.GroupList c ctx)
  /\ (forall groupID,
        returns_decode_error GroupsShape GroupErrorShape c (Client.GetGroupByID c ctx groupID))
  /\ (forall groupName,
        returns_decode_error GroupsShape GroupErrorShape c (Client.GetGroupByName c ctx groupName))
  /\ (forall groupID userID operation,
        returns_decode_error GroupShape GroupErrorShape c (Client.GroupMemberOps c ctx groupID userID operation))
  /\ (forall groupID userID,
        returns_decode_error GroupShape GroupErrorShape c (Client.AddUserToGroup c ctx groupID userID))
  /\ (forall groupID userID,
        returns_decode_error GroupShape GroupErrorShape c (Client.RemoveUserToGroup c ctx groupID userID)).
Proof. repeat apply conj; intros; eapply reading_returns_decode_error; eauto with scim. Qed.

(** An HTML page sent with status 200. *)
Lemma decode_error_is_returned_witness :
  outcome (Client.GetUserByID (H:=html_world) token_client Background "42")
  = Done (UserResponse.zero, UserErrorResponse.zero,
          Some (json_SyntaxError "invalid JSON text")).
Proof.
  destruct (decode_error_is_returned (H:=html_world) token_client Background) as (_ & Hid & _).
  refine (Hid "42" 200 "<html>busy</html>" UserResponse.zero _ _ status_200_ok _).
  - eexists. split; [vm_compute; reflexivity | reflexivity].
  - vm_compute. reflexivity.
Defined.

(** X7.  When a 2xx reply decodes into the success shape and its schema
    list starts with the error schema, but the body does not decode into the
    error shape (a status given as a number, say), a reading operation returns
    both shapes as the decoder left them together with the decoder's error. *)
Theorem error_shape_decode_error_is_returned `{World} (c : Client.t) (ctx : Context) :
  returns_second_decode_error UsersShape UserErrorShape c (Client.UserList c ctx)
  /\ (forall userID,
        returns_second_decode_error UserShape UserErrorShape c (Client.GetUserByID c ctx userID))
  /\ (forall userName,
        returns_second_decode_error UserShape UserErrorShape c (Client.GetUserByName c ctx userName))
  /\ (forall user,
        returns_second_decode_error UserShape UserErrorShape c (Client.CreateUser c ctx user))
  /\ (forall userID user,
        returns_second_decode_error UserShape UserErrorShape c (Client.UpdateUser c ctx userID user))
  /\ (forall userID userType,
        returns_second_decode_error UserShape UserErrorShape c (Client.ChangeUserType c ctx userID userType))
  /\ (forall groupName,
        returns_second_decode_error GroupShape GroupErrorShape c (Client.CreateGroup c ctx groupName))
  /\ (forall groupName,
        returns_second_decode_error GroupShape GroupErrorShape c (Client.UpdateGroup c ctx groupName))
  /\ returns_second_decode_error GroupsShape GroupErrorShape c (Client.GroupList c ctx)
  /\ (forall groupID,
        returns_second_decode_error GroupsShape GroupErrorShape c (Client.GetGroupByID c ctx groupID))
  /\ (forall groupName,
        returns_second_decode_error GroupsShape GroupErrorShape c (Client.GetGroupByName c ctx groupName))
  /\ (forall groupID userID operation,
        returns_second_decode_error GroupShape GroupErrorShape c (Client.GroupMemberOps c ctx groupID userID operation))
  /\ (forall groupID userID,
        returns_second_decode_error GroupShape GroupErrorShape c (Client.AddUserToGroup c ctx groupID userID))
  /\ (forall groupID userID,
        returns_second_decode_error GroupShape GroupErrorShape c (Client.RemoveUserToGroup c ctx groupID userID)).
Proof.
  repeat apply conj; intros; eapply reading_returns_second_decode_error; eauto with scim.
Qed.

(** An error document whose status is the number 404: the detail is
    decoded, the status is not, and the decoder's error is returned. *)
Lemma error_shape_decode_error_is_returned_witness :
  outcome (Client.GetUserByID (H:=numeric_status_world) token_client Background "42")
  = Done (error_as_user,
          UserErrorResponse.mk (Some [ErrorSchema]) EmptyString "Resource 42 not found" EmptyString,
          Some (json_UnmarshalTypeError "number" "string")).
Proof.
  destruct (error_shape_decode_error_is_returned (H:=numeric_status_world) token_client
              Background) as (_ & Hid & _).
  refine (Hid "42" 200 numeric_status_body error_as_user [] _ _ _ status_200_ok _ _ _).
  - eexists. split; [vm_compute; reflexivity | reflexivity].
  - vm_compute. reflexivity.
  - reflexivity.
  - vm_compute. reflexivity.
Defined.

(** X8.  When a reading operation returns a nil error, a reply with a 2xx
    status came, its body decoded into the success shape returned, and that
    shape has a first schema entry; the error shape returned is the zero value
    if that entry is not the error schema, and otherwise is the decoded body
    and carries the same schema list as the success shape. *)
Theorem nil_error_postcondition `{World} (c : Client.t) (ctx : Context) :
  nil_error_promise UsersShape UserErrorShape c (Client.UserList c ctx)
  /\ (forall userID,
        nil_error_promise UserShape UserErrorShape c (Client.GetUserByID c ctx userID))
  /\ (forall userName,
        nil_error_promise UserShape UserErrorShape c (Client.GetUserByName c ctx userName))
  /\ (forall user,
        nil_error_promise UserShape UserErrorShape c (Client.CreateUser c ctx user))
  /\ (forall userID user,
        nil_error_promise UserShape UserErrorShape c (Client.UpdateUser c ctx userID user))
  /\ (forall userID userType,
        nil_error_promise UserShape UserErrorShape c (Client.ChangeUserType c ctx userID userType))
  /\ (forall groupName,
        nil_error_promise GroupShape GroupErrorShape c (Client.CreateGroup c ctx groupName))
  /\ (forall groupName,
        nil_error_promise GroupShape GroupErrorShape c (Client.UpdateGroup c ctx groupName))
  /\ nil_error_promise GroupsShape GroupErrorShape c (Client.GroupList c ctx)
  /\ (forall groupID,
        nil_error_promise GroupsShape GroupErrorShape c (Client.GetGroupByID c ctx groupID))
  /\ (forall groupName,
        nil_error_promise GroupsShape GroupErrorShape c (Client.GetGroupByName c ctx groupName))
  /\ (forall groupID userID operation,
        nil_error_promise GroupShape GroupErrorShape c (Client.GroupMemberOps c ctx groupID userID operation))
  /\ (forall groupID userID,
        nil_error_promise GroupShape GroupErrorShape c (Client.AddUserToGroup c ctx groupID userID))
  /\ (forall groupID userID,
        nil_error_promise GroupShape GroupErrorShape c (Client.RemoveUserToGroup c ctx groupID userID)).
Proof. repeat apply conj; intros; eapply reading_nil_error_promise; eauto with scim. Qed.

(** The error document: both shapes returned carry its schema list. *)
Lemma nil_error_postcondition_witness :
  exists status body x rest,
    replied (H:=error_world) token_client
      (Client.GetUserByID (H:=error_world) token_client Background "42") status body
    /\ is_2xx status
    /\ decode (H:=error_world) (@UserShape error_world) body = (error_as_user, None)
    /\ elems (UserResponse.Schemas error_as_user) = x :: rest
    /\ ((x <> ErrorSchema /\ error_as_error = UserErrorResponse.zero)
        \/ (x = ErrorSchema /\ decode (H:=error_world) UserErrorShape body = (error_as_error, None)
            /\ UserErrorResponse.Schemas error_as_error = UserResponse.Schemas error_as_user)).
Proof.
  destruct (nil_error_postcondition (H:=error_world) token_client Background) as (_ & Hid & _).
  apply (Hid "42" error_as_user error_as_error). vm_compute. reflexivity.
Defined.

(** X9.  A reading operation called on a client (a receiver that is not
    nil) panics in two situations only.  Either the client's [HttpClient] is
    nil, as in a struct literal that leaves the field out: then the panic is
    the nil pointer dereference of the call of [Do], after the request was
    built, and it is raised on every call that gets as far as a request.  Or a
    reply with a 2xx status came and its body decoded without error into a
    success shape whose schema list is empty: then the panic is the index
    panic.  A client made by [NewClient] has its [HttpClient] set, so only the
    second is left for it. *)
Theorem panics_are_nil_client_or_empty_schemas `{World} (c : Client.t) (ctx : Context) :
  panics_in_two_ways UsersShape c (Client.UserList c ctx)
  /\ (forall userID,
        panics_in_two_ways UserShape c (Client.GetUserByID c ctx userID))
  /\ (forall userName,
        panics_in_two_ways UserShape c (Client.GetUserByName c ctx userName))
  /\ (forall user,
        panics_in_two_ways UserShape c (Client.CreateUser c ctx user))
  /\ (forall userID user,
        panics_in_two_ways UserShape c (Client.UpdateUser c ctx userID user))
  /\ (forall userID userType,
        panics_in_two_ways UserShape c (Client.ChangeUserType c ctx userID userType))
  /\ (forall groupName,
        panics_in_two_ways GroupShape c (Client.CreateGroup c ctx groupName))
  /\ (forall groupName,
        panics_in_two_ways GroupShape c (Client.UpdateGroup c ctx groupName))
  /\ panics_in_two_ways GroupsShape c (Client.GroupList c ctx)
  /\ (forall groupID,
        panics_in_two_ways GroupsShape c (Client.GetGroupByID c ctx groupID))
  /\ (forall groupName,
        panics_in_two_ways GroupsShape c (Client.GetGroupByName c ctx groupName))
  /\ (forall groupID userID operation,
        panics_in_two_ways GroupShape c (Client.GroupMemberOps c ctx groupID userID operation))
  /\ (forall groupID userID,
        panics_in_two_ways GroupShape c (Client.AddUserToGroup c ctx groupID userID))
  /\ (forall groupID userID,
        panics_in_two_ways GroupShape c (Client.RemoveUserToGroup c ctx groupID userID)).
Proof. repeat apply conj; intros; eapply reading_panics_in_two_ways; eauto with scim. Qed.

(** The panic of [GetGroupByID] on the body null, with the client of
    [NewClient], and its panic with a client that has no [HttpClient]. *)
Lemma panics_are_nil_client_or_empty_schemas_witness :
  (exists status body s,
    replied (H:=Reference.world (Reference.always 200 "null")) token_client
      (Client.GetGroupByID (H:=Reference.world (Reference.always 200 "null")) token_client
         Background "7") status body
    /\ is_2xx status
    /\ decode (H:=Reference.world (Reference.always 200 "null"))
         (@GroupsShape (Reference.world (Reference.always 200 "null"))) body = (s, None)
    /\ elems (GroupsResponse.Schemas s) = [])
  /\ outcome (Client.GetGroupByID (H:=group_world) literal_client Background "7")
     = Panic nil_pointer_dereference.
Proof.
  split.
  - destruct (panics_are_nil_client_or_empty_schemas
                (H:=Reference.world (Reference.always 200 "null")) token_client Background)
      as (_ & _ & _ & _ & _ & _ & _ & _ & _ & Hid & _).
    destruct (proj1 (Hid "7") index_out_of_range ltac:(vm_compute; reflexivity))
      as [(Hmsg & _)|(_ & Hex)]; [vm_compute in Hmsg; discriminate Hmsg | exact Hex].
  - destruct (panics_are_nil_client_or_empty_schemas (H:=group_world) literal_client Background)
      as (_ & _ & _ & _ & _ & _ & _ & _ & _ & Hid & _).
    apply (proj2 (Hid "7") eq_refl
             (mkRequest "GET" (service_url "Groups/7" EmptyString)
                (sent_headers literal_client) None)).
    vm_compute. reflexivity.
Defined.

(** ** What is sent *)

Section Payloads.
Context `{World}.
Variables (c : Client.t) (ctx : Context).

Lemma built_request {S E} (ss : shape S) (es : shape E) (method url : string)
    (body : option bytes) (u : URL) :
  validMethod method = true -> url_Parse url = inr u ->
  sent (built c ss es method url body) = [mkRequest method u (sent_headers c) body].
Proof.
  intros Hm Hu. unfold built. rewrite (NewRequest_ok method url body u Hm Hu).
  apply parse_reply_hands_over.
Qed.

Lemma User_filled_schemas (u : User.t) :
  exists x rest, User.Schemas (User.fill_defaults u) = Some (x :: rest).
Proof.
  destruct u as [[[|x l]|] n nm em a tz]; unfold User.fill_defaults; cbn;
    destruct (String.eqb tz EmptyString); cbn; eauto.
Qed.

Lemma built_schemas_sent {S E} (ss : shape S) (es : shape E) (method url : string)
    (x : string) (rest : list string) (more : list (string * json)) :
  schemas_sent
    (built c ss es method url
       (Some (json_Marshal (JObject (("schemas", JArray (JString x :: map JString rest)) :: more))))).
Proof.
  intros req Hin.
  destruct (built_sent c ss es method url
              (Some (json_Marshal
                       (JObject (("schemas", JArray (JString x :: map JString rest)) :: more)))))
    as [Hs|(req0 & Hnew & Hs)]; rewrite Hs in Hin; [contradiction|].
  destruct Hin as [<-|[]]. exists x, rest, more.
  cbn [handed_over ReqBody]. apply (NewRequest_inr _ _ _ _ Hnew).
Qed.

End Payloads.

(** X10.  [CreateGroup] and [UpdateGroup] send the same document, the core
    Group schema and the display name as a JSON string, to the same URL, the
    one of the group collection; only the method differs (POST, PUT).
    [UpdateGroup] takes no group id and its request names no group. *)
Theorem group_write_requests `{World} (c : Client.t) (ctx : Context)
    (groupName : string) (u : URL) :
  url_Parse (Client.BaseUrl c +:+ "Groups") = inr u ->
  sent (Client.CreateGroup c ctx groupName)
    = [mkRequest "POST" u (sent_headers c) (Some (group_payload_text groupName))]
  /\ sent (Client.UpdateGroup c ctx groupName)
    = [mkRequest "PUT" u (sent_headers c) (Some (group_payload_text groupName))].
Proof.
  intros Hu. split; unfold_operation.
  - rewrite (built_request c _ _ "POST" _ _ u eq_refl Hu). reflexivity.
  - rewrite (built_request c _ _ "PUT" _ _ u eq_refl Hu). reflexivity.
Qed.

(** Renaming to a name with a quote and an ampersand in it: the quote gets a
    backslash, the ampersand its Unicode escape. *)
Lemma group_write_requests_witness :
  sent (Client.UpdateGroup (H:=group_world) token_client Background
          ("R" +:+ dq +:+ "&D"))
  = [mkRequest "PUT" (service_url "Groups" EmptyString) (sent_headers token_client)
       (Some (sq_to_dq "{'schemas':['urn:ietf:params:scim:schemas:core:2.0:Group'],'displayName':'R\'\u0026D'}"))].
Proof.
  destruct (group_write_requests (H:=group_world) token_client Background ("R" +:+ dq +:+ "&D")
              (service_url "Groups" EmptyString) ltac:(vm_compute; reflexivity)) as [_ Hput].
  rewrite Hput. vm_compute. reflexivity.
Defined.

(** X11.  [UpdateUser] sends a PUT to the URL of the user with the document
    [CreateUser] would send for the same user: the user after default filling.
    A user given with a schema list and a time zone is sent as given, by both. *)
Theorem user_write_requests `{World} (c : Client.t) (ctx : Context)
    (userID : string) (user : User.t) :
  (forall u, url_Parse (Client.BaseUrl c +:+ "Users/" +:+ userID) = inr u ->
     sent (Client.UpdateUser c ctx userID user)
     = [mkRequest "PUT" u (sent_headers c)
          (Some (json_Marshal (User.to_json (User.fill_defaults user))))])
  /\ (forall u, url_Parse (Client.BaseUrl c +:+ "Users") = inr u ->
     sent (Client.CreateUser c ctx user)
     = [mkRequest "POST" u (sent_headers c)
          (Some (json_Marshal (User.to_json (User.fill_defaults user))))])
  /\ (len (User.Schemas user) <> 0%nat -> User.Timezone user <> EmptyString ->
      User.fill_defaults user = user).
Proof.
  repeat apply conj.
  - intros u Hu. unfold_operation. apply (built_request c _ _ "PUT" _ _ u eq_refl Hu).
  - intros u Hu. unfold_operation. apply (built_request c _ _ "POST" _ _ u eq_refl Hu).
  - destruct user as [[[|x l]|] n nm em a tz]; cbn; intros Hs Htz; try congruence.
    unfold User.fill_defaults. cbn.
    rewrite (proj2 (String.eqb_neq tz EmptyString) Htz). reflexivity.
Qed.

(** A user with two schema entries and the time zone UTC, updated. *)
Lemma user_write_requests_witness :
  sent (Client.UpdateUser (H:=user_world) token_client Background "42" complete_user)
  = [mkRequest "PUT" (service_url "Users/42" EmptyString) (sent_headers token_client)
       (Some (sq_to_dq "{'schemas':['urn:example:custom','urn:ietf:params:scim:schemas:core:2.0:User'],'userName':'jdoe','name':{'familyName':'Doe','givenName':'John'},'emails':null,'active':false,'timezone':'UTC'}"))].
Proof.
  destruct (user_write_requests (H:=user_world) token_client Background "42" complete_user)
    as (Hput & _ & Hsame).
  rewrite (Hput (service_url "Users/42" EmptyString) ltac:(vm_compute; reflexivity)).
  rewrite (Hsame ltac:(cbn; discriminate) ltac:(discriminate)).
  vm_compute. reflexivity.
Defined.

(** X12.  Filling the defaults before the call changes nothing: [CreateUser]
    and [UpdateUser] do the same, request and result, on a user and on that
    user with the defaults already filled. *)
Theorem prefilled_user_same_call `{World} (c : Client.t) (ctx : Context)
    (userID : string) (user : User.t) :
  Client.CreateUser c ctx (User.fill_defaults user) = Client.CreateUser c ctx user
  /\ Client.UpdateUser c ctx userID (User.fill_defaults user) = Client.UpdateUser c ctx userID user.
Proof.
  assert (Hidem : User.fill_defaults (User.fill_defaults user) = User.fill_defaults user).
  { destruct user as [[[|x l]|] n nm em a tz]; unfold User.fill_defaults; cbn;
      destruct (String.eqb_spec tz EmptyString) as [->|Htz]; cbn;
      try (rewrite (proj2 (String.eqb_neq tz EmptyString) Htz)); reflexivity. }
  split; unfold_operation; rewrite Hidem; reflexivity.
Qed.

(** X13.  Every request of a writing operation ([CreateUser], [UpdateUser],
    [ChangeUserType], [CreateGroup], [UpdateGroup] and the member operations)
    has a body, a JSON object whose first member is schemas with at least one
    string in it, whatever the caller passed. *)
Theorem write_payloads_carry_schemas `{World} (c : Client.t) (ctx : Context) :
  (forall user, schemas_sent (Client.CreateUser c ctx user))
  /\ (forall userID user, schemas_sent (Client.UpdateUser c ctx userID user))
  /\ (forall userID userType, schemas_sent (Client.ChangeUserType c ctx userID userType))
  /\ (forall groupName, schemas_sent (Client.CreateGroup c ctx groupName))
  /\ (forall groupName, schemas_sent (Client.UpdateGroup c ctx groupName))
  /\ (forall groupID userID operation,
        schemas_sent (Client.GroupMemberOps c ctx groupID userID operation))
  /\ (forall groupID userID, schemas_sent (Client.AddUserToGroup c ctx groupID userID))
  /\ (forall groupID userID, schemas_sent (Client.RemoveUserToGroup c ctx groupID userID)).
Proof.
  assert (Huser : forall user method url,
            schemas_sent
              (built c UserShape UserErrorShape method url
                 (Some (json_Marshal (User.to_json (User.fill_defaults user)))))).
  { intros user method url. destruct (User_filled_schemas user) as (x & rest & Hs).
    unfold User.to_json. rewrite Hs. apply built_schemas_sent. }
  repeat apply conj; intros; unfold_operation.
  - apply Huser.
  - apply Huser.
  - exact (built_schemas_sent c UserShape UserErrorShape _ _ UserSchema [NewRelicUserSchema]
             [(UserTypeKey, JObject [("nrUserType", JString (UserType_String userType))])]).
  - exact (built_schemas_sent c GroupShape GroupErrorShape _ _ GroupSchema []
             [("displayName", JString groupName)]).
  - exact (built_schemas_sent c GroupShape GroupErrorShape _ _ GroupSchema []
             [("displayName", JString groupName)]).
  - exact (built_schemas_sent c GroupShape GroupErrorShape _ _ PatchOpSchema []
             [("Operations",
               enc_slice Operation.to_json
                 (Some [Operation.mk operation "members" (Some [PatchValue.mk userID])]))]).
  - exact (built_schemas_sent c GroupShape GroupErrorShape _ _ PatchOpSchema []
             [("Operations",
               enc_slice Operation.to_json
                 (Some [Operation.mk "Add" "members" (Some [PatchValue.mk userID])]))]).
  - exact (built_schemas_sent c GroupShape GroupErrorShape _ _ PatchOpSchema []
             [("Operations",
               enc_slice Operation.to_json
                 (Some [Operation.mk "Remove" "members" (Some [PatchValue.mk userID])]))]).
Qed.

(** A user passed with an empty, non-nil schema list. *)
Lemma write_payloads_carry_schemas_witness :
  exists x rest more,
    ReqBody (mkRequest "POST" (service_url "Users" EmptyString) (sent_headers token_client)
               (Some (json_Marshal
                        (User.to_json
                           (User.fill_defaults
                              (User.mk (Some []) "jdoe" Name.zero None true "UTC"))))))
    = Some (json_Marshal (JObject (("schemas", JArray (JString x :: map JString rest)) :: more))).
Proof.
  destruct (write_payloads_carry_schemas (H:=user_world) token_client Background) as (Hc & _).
  apply (Hc (User.mk (Some []) "jdoe" Name.zero None true "UTC")).
  vm_compute. left. reflexivity.
Defined.

(** X14.  A user type other than the three constants has the display string
    unknown, and [ChangeUserType] sends it like any other: the value is not
    checked before the request. *)
Theorem unknown_user_type_is_sent `{World} (c : Client.t) (ctx : Context)
    (userID : string) (userType : UserType) :
  userType < 0 \/ 2 < userType ->
  UserType_String userType = "unknown"
  /\ (forall u, url_Parse (Client.BaseUrl c +:+ "Users/" +:+ userID) = inr u ->
      sent (Client.ChangeUserType c ctx userID userType)
      = [mkRequest "PUT" u (sent_headers c) (Some (user_type_text "unknown"))]).
Proof.
  intros Hout.
  assert (Hs : UserType_String userType = "unknown").
  { unfold UserType_String, Full, Core, Basic.
    destruct (Z.eqb_spec userType 0); [lia|].
    destruct (Z.eqb_spec userType 1); [lia|].
    destruct (Z.eqb_spec userType 2); [lia|reflexivity]. }
  split; [exact Hs|]. intros u Hu. unfold_operation.
  rewrite (built_request c _ _ "PUT" _ _ u eq_refl Hu).
  unfold user_type_payload. rewrite Hs. reflexivity.
Qed.

(** The user type 7. *)
Lemma unknown_user_type_is_sent_witness :
  UserType_String 7 = "unknown"
  /\ sent (Client.ChangeUserType (H:=user_world) token_client Background "42" 7)
     = [mkRequest "PUT" (service_url "Users/42" EmptyString) (sent_headers token_client)
          (Some (user_type_text "unknown"))].
Proof.
  destruct (unknown_user_type_is_sent (H:=user_world) token_client Background "42" 7
              ltac:(right; lia)) as [Hs Hsent].
  split; [exact Hs|].
  apply (Hsent (service_url "Users/42" EmptyString)). vm_compute. reflexivity.
Defined.

Lemma append_assoc (a b d : string) : (a +:+ b) +:+ d = a +:+ (b +:+ d).
Proof.
  induction a as [|x a IH]; [reflexivity|].
  change (String x ((a +:+ b) +:+ d) = String x (a +:+ (b +:+ d))). now f_equal.
Qed.

(** The encoder's output for the patch document, as one text. *)
Lemma member_patch_marshal (operation userID : string) :
  json_Marshal
    (UpdateGroup.to_json
       (UpdateGroup.fill_defaults
          (UpdateGroup.mk None
             (Some [Operation.mk operation "members" (Some [PatchValue.mk userID])]))))
  = member_patch_text operation userID.
Proof.
  cbv -[String.append escape_string].
  rewrite !append_assoc. reflexivity.
Qed.

(** X15.  For every group id, user id and verb, [GroupMemberOps] sends a
    PATCH to the URL of the group whose body is the patch document with the
    verb and the user id written as JSON strings: quotes, backslashes and
    control bytes in them are escaped, and the verb is not checked. *)
Theorem member_patch_body `{World} (c : Client.t) (ctx : Context)
    (groupID userID operation : string) (u : URL) :
  url_Parse (Client.BaseUrl c +:+ "Groups/" +:+ groupID) = inr u ->
  sent (Client.GroupMemberOps c ctx groupID userID operation)
    = [mkRequest "PATCH" u (sent_headers c) (Some (member_patch_text operation userID))]
  /\ sent (Client.AddUserToGroup c ctx groupID userID)
    = [mkRequest "PATCH" u (sent_headers c) (Some (member_patch_text "Add" userID))]
  /\ sent (Client.RemoveUserToGroup c ctx groupID userID)
    = [mkRequest "PATCH" u (sent_headers c) (Some (member_patch_text "Remove" userID))].
Proof.
  intros Hu. repeat apply conj; unfold_operation;
    rewrite (built_request c _ _ "PATCH" _ _ u eq_refl Hu), <- member_patch_marshal;
    reflexivity.
Qed.

(** A user id with a quote and a backslash in it and a verb of the caller's. *)
Lemma member_patch_body_witness :
  sent (Client.GroupMemberOps (H:=group_world) token_client Background "g-456"
          ("u" +:+ dq +:+ String backslash "1") "Replace")
  = [mkRequest "PATCH" (service_url "Groups/g-456" EmptyString) (sent_headers token_client)
       (Some (sq_to_dq "{'schemas':['urn:ietf:params:scim:api:messages:2.0:PatchOp'],'Operations':[{'op':'Replace','path':'members','value':[{'value':'u\'\\1'}]}]}"))].
Proof.
  destruct (member_patch_body (H:=group_world) token_client Background "g-456"
              ("u" +:+ dq +:+ String backslash "1") "Replace"
              (service_url "Groups/g-456" EmptyString) ltac:(vm_compute; reflexivity))
    as (Hsent & _).
  rewrite Hsent. vm_compute. reflexivity.
Defined.

(** ** Standard output *)

Lemma built_printed `{World} {S E} (c : Client.t) (ss : shape S) (es : shape E)
    (method url : string) (body : option bytes) :
  printed (built c ss es method url body) = [].
Proof.
  unfold built. destruct (NewRequest method url body); [reflexivity|].
  apply parse_reply_printed.
Qed.

Lemma built_delete_printed `{World} (c : Client.t) (url : string) :
  printed (built_delete c url) = [].
Proof. unfold built_delete. destruct (NewRequest "DELETE" url None); reflexivity. Qed.

Lemma built_lookup_printed `{World} {S E} (c : Client.t) (ss : shape S) (es : shape E)
    (url attribute value : string) (u : URL) :
  url_Parse url = inr u ->
  printed (built_lookup c ss es url attribute value)
  = [ filter_expression attribute value;
      URL_String
        (set_RawQuery u
           (Values_Encode (Values_Add (URL_Query u) "filter" (filter_expression attribute value)))) ].
Proof.
  intros Hu. unfold built_lookup. rewrite (NewRequest_ok "GET" url None u eq_refl Hu).
  cbv zeta. rewrite parse_reply_printed. reflexivity.
Qed.

(** X16.  The two lookups by name write two lines to standard output on
    every call that gets as far as a request: the filter, then the URL with
    the encoded query.  No other operation writes anything. *)
Theorem only_lookups_print `{World} (c : Client.t) (ctx : Context) :
  (forall userName u, url_Parse (Client.BaseUrl c +:+ "Users") = inr u ->
     printed (Client.GetUserByName c ctx userName)
     = [ filter_expression "userName" userName;
         URL_String
           (set_RawQuery u
              (Values_Encode
                 (Values_Add (URL_Query u) "filter" (filter_expression "userName" userName)))) ])
  /\ (forall groupName u, url_Parse (Client.BaseUrl c +:+ "Groups") = inr u ->
     printed (Client.GetGroupByName c ctx groupName)
     = [ filter_expression "displayName" groupName;
         URL_String
           (set_RawQuery u
              (Values_Encode
                 (Values_Add (URL_Query u) "filter" (filter_expression "displayName" groupName)))) ])
  /\ printed (Client.UserList c ctx) = []
  /\ (forall userID, printed (Client.GetUserByID c ctx userID) = [])
  /\ (forall user, printed (Client.CreateUser c ctx user) = [])
  /\ (forall userID user, printed (Client.UpdateUser c ctx userID user) = [])
  /\ (forall userID userType, printed (Client.ChangeUserType c ctx userID userType) = [])
  /\ (forall userID, printed (Client.DeleteUser c ctx userID) = [])
  /\ (forall groupName, printed (Client.CreateGroup c ctx groupName) = [])
  /\ (forall groupName, printed (Client.UpdateGroup c ctx groupName) = [])
  /\ printed (Client.GroupList c ctx) = []
  /\ (forall groupID, printed (Client.GetGroupByID c ctx groupID) = [])
  /\ (forall groupID userID operation,
        printed (Client.GroupMemberOps c ctx groupID userID operation) = [])
  /\ (forall groupID userID, printed (Client.AddUserToGroup c ctx groupID userID) = [])
  /\ (forall groupID userID, printed (Client.RemoveUserToGroup c ctx groupID userID) = [])
  /\ (forall groupID, printed (Client.DeleteGroup c ctx groupID) = []).
Proof.
  repeat apply conj; intros; unfold_operation;
    first [ apply built_printed | apply built_delete_printed
          | apply built_lookup_printed; assumption ].
Qed.

(** The two lines of the lookup of jdoe. *)
Lemma only_lookups_print_witness :
  printed (Client.GetUserByName (H:=user_world) token_client Background "jdoe")
  = [ sq_to_dq "userName eq 'jdoe'";
      sq_to_dq "https://scim-provisioning.service.newrelic.com/scim/v2/Users?filter=userName+eq+%22jdoe%22" ].
Proof.
  destruct (only_lookups_print (H:=user_world) token_client Background) as (Hname & _).
  rewrite (Hname "jdoe" (service_url "Users" EmptyString) ltac:(vm_compute; reflexivity)).
  vm_compute. reflexivity.
Defined.

(** ** Replies of the other kind *)

(** A property of the struct that the schema field keeps is kept by every
    document whose members reach no other field. *)
Lemma dec_members_only_schemas {T} (fs : list (field T)) (P : T -> Prop) :
  (forall f, In f fs -> fname f = "schemas" -> forall j v, P v -> P (dval (run_field f j v))) ->
  forall ms, only_schemas_members fs ms ->
  forall v, P v -> P (dval (dec_members fs ms v)).
Proof.
  intros Hkeep ms Hall. induction Hall as [|[k j] ms Hk Hall IH]; intros v Hv; [exact Hv|].
  cbn [dec_members]. cbn [fst] in Hk.
  destruct (find_field fs k) as [f|] eqn:Hfind; [|apply IH; exact Hv].
  assert (Hin : In f fs).
  { unfold find_field in Hfind.
    destruct (find (fun f => String.eqb (fname f) k) fs) as [g|] eqn:Hexact.
    - injection Hfind as <-. apply (find_some _ _ Hexact).
    - apply (find_some _ _ Hfind). }
  pose proof (Hkeep f Hin Hk j v Hv) as Hstep. cbv zeta.
  destruct (dabort (run_field f j v)); [exact Hstep|].
  cbn [dval]. apply IH. exact Hstep.
Qed.

(** The success shape a reading operation returns is the zero value or what
    the decoder left of the reply's body. *)
Lemma returned_shape `{World} {S E} (ss : shape S) (es : shape E) (c : Client.t)
    (t : Trace (S * E * option error)) (status : Z) (body : bytes) (s : S) (e : E)
    (err : option error) :
  request_then_parse c ss es t -> replied c t status body ->
  outcome t = Done (s, e, err) ->
  s = sh_zero ss \/ s = fst (decode ss body).
Proof.
  intros Hruns Hrep Hout.
  destruct (replied_request ss es c t Hruns status body Hrep) as (req0 & lines & -> & Hdo).
  destruct (doRequest_cases c req0)
    as [(status' & body' & Hdo' & _ & Hsnd)|[(err' & Hsnd)|(_ & Hsnd)]];
    rewrite doRequest_split, Hsnd in Hout; unfold parse_reply in Hout.
  - rewrite Hdo in Hdo'. injection Hdo' as _ <-.
    change (bytes_of (Some body)) with body in Hout. unfold decode. right.
    destruct (Unmarshal (sh_fields ss) (sh_name ss) body (sh_zero ss)) as [s' [er|]];
      cbn [fst]; [cbn in Hout; congruence|].
    destruct (elems (sh_schemas ss s') !! 0%nat) as [x|]; [|discriminate Hout].
    destruct (String.eqb x ErrorSchema); [|cbn in Hout; congruence].
    destruct (Unmarshal (sh_fields es) (sh_name es) body (sh_zero es)) as [e' [er|]];
      cbn in Hout; congruence.
  - left. cbn in Hout. congruence.
  - discriminate Hout.
Qed.

Lemma decode_only_schemas `{World} {S} (ss : shape S) (P : S -> Prop) (body : bytes)
    (ms : list (string * json)) :
  (forall f, In f (sh_fields ss) -> fname f = "schemas" ->
     forall j v, P v -> P (dval (run_field f j v))) ->
  P (sh_zero ss) ->
  json_scan body = inr (JObject ms) -> only_schemas_members (sh_fields ss) ms ->
  P (fst (decode ss body)).
Proof.
  intros Hkeep Hzero Hscan Hall. unfold decode, Unmarshal. rewrite Hscan. cbn [fst dec_struct].
  apply (dec_members_only_schemas (sh_fields ss) P Hkeep ms Hall). exact Hzero.
Qed.

(** X17.  [GetGroupByID] decodes the reply into the list shape and
    [GetUserByName] into the single-user shape.  So when the reply to
    [GetGroupByID] is one group (an object none of whose members is
    totalResults or Resources), the result has a count of zero and no
    resources: the group's id and name are not in it.  And when the reply to
    [GetUserByName] is a list (an object none of whose members is a field of a
    user other than schemas), every field of the result but the schema list
    is the zero value: the user found is not in it. *)
Theorem lookup_of_other_kind_loses_resource `{World} (c : Client.t) (ctx : Context)
    (status : Z) (body : bytes) (ms : list (string * json)) :
  json_scan body = inr (JObject ms) ->
  (forall groupID s e err,
      replied c (Client.GetGroupByID c ctx groupID) status body ->
      only_schemas_members GroupsResponse.fields ms ->
      outcome (Client.GetGroupByID c ctx groupID) = Done (s, e, err) ->
      s = GroupsResponse.mk 0 (GroupsResponse.Schemas s) None)
  /\ (forall userName s e err,
      replied c (Client.GetUserByName c ctx userName) status body ->
      only_schemas_members UserResponse.fields ms ->
      outcome (Client.GetUserByName c ctx userName) = Done (s, e, err) ->
      s = UserResponse.mk (UserResponse.Schemas s) EmptyString EmptyString EmptyString
            Name.zero None EmptyString false Meta.zero None).
Proof.
  intros Hscan. split.
  - intros groupID s e err Hrep Hall Hout.
    destruct (returned_shape GroupsShape GroupErrorShape c _ status body s e err
                (GetGroupByID_runs c ctx groupID) Hrep Hout) as [->| ->]; [reflexivity|].
    apply (decode_only_schemas GroupsShape
             (fun s => s = GroupsResponse.mk 0 (GroupsResponse.Schemas s) None) body ms);
      [| reflexivity | exact Hscan | exact Hall].
    intros f Hin Hname j v Hv. cbn in Hin.
    destruct Hin as [<-|[<-|[<-|[]]]]; try discriminate Hname.
    cbn. rewrite Hv. reflexivity.
  - intros userName s e err Hrep Hall Hout.
    destruct (returned_shape UserShape UserErrorShape c _ status body s e err
                (GetUserByName_runs c ctx userName) Hrep Hout) as [->| ->]; [reflexivity|].
    apply (decode_only_schemas UserShape
             (fun s => s = UserResponse.mk (UserResponse.Schemas s) EmptyString EmptyString
                            EmptyString Name.zero None EmptyString false Meta.zero None) body ms);
      [| reflexivity | exact Hscan | exact Hall].
    intros f Hin Hname j v Hv. cbn in Hin.
    destruct Hin as [<-|Hin]; [cbn; rewrite Hv; reflexivity|].
    repeat (destruct Hin as [<-|Hin]; [discriminate Hname|]). contradiction.
Qed.

(** One group sent in reply to [GetGroupByID], a list of one user sent in
    reply to [GetUserByName]: only the schema lists come back. *)
Lemma lookup_of_other_kind_loses_resource_witness :
  outcome (Client.GetGroupByID (H:=group_world) token_client Background "7")
    = Done (GroupsResponse.mk 0 (Some [GroupSchema]) None, GroupErrorResponse.zero, None)
  /\ (GroupsResponse.mk 0 (Some [GroupSchema]) None
      = GroupsResponse.mk 0
          (GroupsResponse.Schemas (GroupsResponse.mk 0 (Some [GroupSchema]) None)) None)
  /\ outcome (Client.GetUserByName (H:=user_list_world) token_client Background "jdoe")
    = Done (UserResponse.mk (Some ["urn:ietf:params:scim:api:messages:2.0:ListResponse"])
              EmptyString EmptyString EmptyString Name.zero None EmptyString false Meta.zero None,
            UserErrorResponse.zero, None).
Proof.
  split; [vm_compute; reflexivity|]. split; [|vm_compute; reflexivity].
  destruct (lookup_of_other_kind_loses_resource (H:=group_world) token_client Background 200
              group_body _ ltac:(vm_compute; reflexivity)) as [Hgroup _].
  apply (Hgroup "7" _ GroupErrorResponse.zero None).
  - eexists. split; [vm_compute; reflexivity | reflexivity].
  - repeat constructor.
  - vm_compute. reflexivity.
Defined.

(** ** Deletes, completed *)


